(** * Marketing analytics pipeline: aggregation views, hourly ETL and metric serving

    A shallow embedding of the SQL views of [create_materialized_views]
    (app/data/generate_synthetic_data.py), of the hourly ETL stages and the
    views of [calculate_metrics] (app/etl/dags/marketing_etl_dag.py), and of
    the two metric servers (app/models/database.py with app/api/main.py, and
    app/api/mock_server.py).

    Conventions of the embedding.
    - A table with a single-column primary key is a finite map from the key
      to the remaining columns; [user_segments], whose primary key is the
      pair [(user_id, segment_id)], is a finite set of pairs; the fact tables
      are lists of rows.
    - A nullable foreign-key column is an [option]; SQL equality with NULL is
      never true, so an inner join on such a column is a partial lookup.
    - [DECIMAL] and [FLOAT] amounts are exact rationals ([Qc]); the rounding
      that PostgreSQL's numeric division and IEEE doubles add is not modelled.
      The amount columns [value] and [spend] are taken to be present (the
      generator always supplies them). Where the rounding of the Python
      floats decides a value, the float operations are a parameter
      ([PyFloat]).
    - A function that can raise returns an [option], [None] being the error:
      the statements evaluated with the division of SQL ([Checked]) and the
      inserts under the constraints of the tables ([Generator]).
    - A timestamp is a number of seconds; [DATE(ts)] is the day number.
    - SQL leaves the order of the rows of a query without ORDER BY open; the
      model lists the groups of a GROUP BY in the order [remove_dups] gives to
      their keys, and a stored view keeps the order in which it was built. *)

From Stdlib Require Import ZArith QArith Qcanon Qround String Lqa.
From stdpp Require Import base decidable option list gmap strings numbers sorting pretty.

Open Scope Z_scope.

#[local] Set Warnings "-clear-no-such-hyp".

(** ** Relational operators *)

Section relational.
Context {K V : Type} `{EqDecision K}.

(** GROUP BY: one group per distinct key, holding the rows with that key. *)
Definition group_by (key : V → K) (rows : list V) : list (K * list V) :=
  fmap (λ k, (k, filter (λ r, key r = k) rows)) (remove_dups (key <$> rows)).
End relational.

(** LEFT JOIN: every left row is kept; without a partner it is paired with NULL. *)
Definition left_join {A B : Type} (on : A → B → Prop) `{∀ a b, Decision (on a b)}
    (l : list A) (r : list B) : list (A * option B) :=
  a ← l;
  match filter (on a) r with
  | [] => [(a, None)]
  | ms => fmap (λ b, (a, Some b)) ms
  end.

(** SUM over a non-empty group of present amounts. *)
Definition Qc_sum (l : list Qc) : Qc := foldr Qcplus 0%Qc l.

Definition Qc_of_Z (z : Z) : Qc := Q2Qc (inject_Z z).

(** The sum of a list of integers. *)
Definition Z_sum (l : list Z) : Z := foldr Z.add 0 l.

(** COUNT(DISTINCT x) *)
Definition count_distinct {A : Type} `{EqDecision A} (l : list A) : Z :=
  Z.of_nat (length (remove_dups l)).

(** COUNT of the rows that satisfy a condition: SUM(CASE WHEN p THEN 1 ELSE 0 END) *)
Definition count_where {A : Type} (P : A → Prop) `{∀ a, Decision (P a)} (l : list A) : Z :=
  Z.of_nat (length (filter P l)).

(** DATE(timestamp) and the hour of the day *)
Definition DATE (ts : Z) : Z := ts `div` 86400.
Definition HOUR (ts : Z) : Z := (ts `mod` 86400) `div` 3600.
Arguments DATE : simpl never.
Arguments HOUR : simpl never.

(** ** Reference data and facts *)

Module Channel.
Record t := mk { name : string; type : string; cost_model : option string }.
End Channel.

Module Segment.
Record t := mk { name : string; description : option string }.
End Segment.

Module Campaign.
Record t := mk {
  name : string;
  channel_id : option Z;
  start_date : Z;
  end_date : option Z;
  budget : Qc;
  spend : Qc;
  status : string }.
End Campaign.

Module UserEvent.
Record t := mk {
  id : Z;
  user_id : string;
  name : string;
  timestamp : Z;
  campaign_id : option Z;
  channel_id : option Z;
  referrer : option string;
  device : option string;
  browser : option string;
  location : option string;
  properties : option string }.
End UserEvent.

Module Conversion.
Record t := mk {
  id : Z;
  user_id : string;
  type : string;
  value : Qc;
  campaign_id : option Z;
  channel_id : option Z;
  timestamp : Z }.
End Conversion.

Record database := mk_database {
  channels : gmap Z Channel.t;
  segments : gmap Z Segment.t;
  campaigns : gmap Z Campaign.t;
  user_segments : gset (string * Z);
  user_events : list UserEvent.t;
  conversions : list Conversion.t }.

(** The rows of [user_segments] of one user: the segments the user belongs to. *)
Definition segments_of (db : database) (u : string) : list Z :=
  snd <$> filter (λ us, us.1 = u) (elements (user_segments db)).

(** JOIN ... ON fk = pk, for a nullable foreign key. *)
Definition join_pk {T : Type} (tbl : gmap Z T) (fk : option Z) : option (Z * T) :=
  k ← fk; r ← tbl !! k; Some (k, r).

(** ** The rows of the five aggregate views *)

Module CampaignPerf.
Record row := mk {
  date : Z;
  campaign_id : Z;
  campaign_name : string;
  channel_id : Z;
  channel_name : string;
  conversions : Z;
  total_conversion_value : Qc;
  avg_conversion_value : Qc }.
Definition key (r : row) : Z * Z := (date r, campaign_id r).
End CampaignPerf.

Module ChannelPerf.
Record row := mk {
  date : Z;
  channel_id : Z;
  channel_name : string;
  events : Z;
  unique_users : Z;
  clicks : Z;
  impressions : Z;
  ctr : Qc }.
Definition key (r : row) : Z * Z := (date r, channel_id r).
End ChannelPerf.

Module SegmentPerf.
Record row := mk {
  date : Z;
  segment_id : Z;
  segment_name : string;
  conversions : Z;
  total_conversion_value : Qc;
  avg_conversion_value : Qc }.
Definition key (r : row) : Z * Z := (date r, segment_id r).
End SegmentPerf.

(** [cac] and [roas] are [Qc] in the materialized views, which never yield
    NULL, and [option Qc] in the views of [calculate_metrics], which may. *)
Module SegmentCac.
Record row (V : Type) := mk {
  date : Z;
  segment_id : Z;
  segment_name : string;
  cac : V }.
Arguments mk {V}. Arguments date {V}. Arguments segment_id {V}.
Arguments segment_name {V}. Arguments cac {V}.
Definition key {V} (r : row V) : Z * Z := (date r, segment_id r).
End SegmentCac.

Module ChannelRoas.
Record row (V : Type) := mk {
  date : Z;
  channel_id : Z;
  channel_name : string;
  roas : V }.
Arguments mk {V}. Arguments date {V}. Arguments channel_id {V}.
Arguments channel_name {V}. Arguments roas {V}.
Definition key {V} (r : row V) : Z * Z := (date r, channel_id r).
End ChannelRoas.

(** ** The materialized views of [create_materialized_views] *)

Module Views.

(** CASE WHEN n > 0 THEN total / n ELSE 0 END *)
Definition ratio_or_zero (total : Qc) (n : Z) : Qc :=
  if decide (0 < n) then (total / Qc_of_Z n)%Qc else 0%Qc.

(** *** analytics.daily_campaign_performance *)

Definition campaign_join (db : database)
    : list (Conversion.t * (Z * Campaign.t) * (Z * Channel.t)) :=
  c ← conversions db;
  ca ← option_list (join_pk (campaigns db) (Conversion.campaign_id c));
  ch ← option_list (join_pk (channels db) (Campaign.channel_id ca.2));
  [(c, ca, ch)].

Definition campaign_key (j : Conversion.t * (Z * Campaign.t) * (Z * Channel.t))
    : Z * Z * string * Z * string :=
  let '(c, ca, ch) := j in
  (DATE (Conversion.timestamp c), ca.1, Campaign.name ca.2, ch.1, Channel.name ch.2).

Definition daily_campaign_performance (db : database) : list CampaignPerf.row :=
  fmap (λ '((d, cid, cname, chid, chname), g),
         let users := (λ j : Conversion.t * (Z * Campaign.t) * (Z * Channel.t),
                         Conversion.user_id j.1.1) <$> g in
         let total := Qc_sum ((λ j : Conversion.t * (Z * Campaign.t) * (Z * Channel.t),
                                 Conversion.value j.1.1) <$> g) in
         CampaignPerf.mk d cid cname chid chname
           (count_distinct users) total (ratio_or_zero total (count_distinct users)))
      (group_by campaign_key (campaign_join db)).

(** *** analytics.daily_channel_performance *)

Definition channel_join (db : database) : list (UserEvent.t * (Z * Channel.t)) :=
  e ← user_events db;
  ch ← option_list (join_pk (channels db) (UserEvent.channel_id e));
  [(e, ch)].

Definition channel_key (j : UserEvent.t * (Z * Channel.t)) : Z * Z * string :=
  (DATE (UserEvent.timestamp j.1), j.2.1, Channel.name j.2.2).

Definition daily_channel_performance (db : database) : list ChannelPerf.row :=
  fmap (λ '((d, chid, chname), g),
         let evs := (fst <$> g : list UserEvent.t) in
         let clicks := count_where (λ e, UserEvent.name e = "click"%string) evs in
         let impressions := count_where (λ e, UserEvent.name e = "impression"%string) evs in
         ChannelPerf.mk d chid chname
           (Z.of_nat (length evs))
           (count_distinct (UserEvent.user_id <$> evs))
           clicks impressions
           (ratio_or_zero (Qc_of_Z clicks) impressions))
      (group_by channel_key (channel_join db)).

(** *** analytics.segment_performance *)

Definition segment_join (db : database) : list (Conversion.t * (Z * Segment.t)) :=
  c ← conversions db;
  sid ← segments_of db (Conversion.user_id c);
  s ← option_list (join_pk (segments db) (Some sid));
  [(c, s)].

Definition segment_key (j : Conversion.t * (Z * Segment.t)) : Z * Z * string :=
  (DATE (Conversion.timestamp j.1), j.2.1, Segment.name j.2.2).

Definition segment_performance (db : database) : list SegmentPerf.row :=
  fmap (λ '((d, sid, sname), g),
         let cs := (fst <$> g : list Conversion.t) in
         let n := count_distinct (Conversion.user_id <$> cs) in
         let total := Qc_sum (Conversion.value <$> cs) in
         SegmentPerf.mk d sid sname n total (ratio_or_zero total n))
      (group_by segment_key (segment_join db)).

(** *** analytics.segment_cac *)

Record segment_costs_row := mk_sc {
  sc_date : Z;
  sc_segment_id : Z;
  sc_segment_name : string;
  sc_campaign_id : Z;
  sc_daily_spend : Qc }.

Record segment_acquisitions_row := mk_sa {
  sa_date : Z;
  sa_segment_id : Z;
  sa_acquisitions : Z }.

Definition segment_costs_join (db : database)
    : list (UserEvent.t * (Z * Campaign.t) * (Z * Segment.t)) :=
  e ← user_events db;
  ca ← option_list (join_pk (campaigns db) (UserEvent.campaign_id e));
  sid ← segments_of db (UserEvent.user_id e);
  s ← option_list (join_pk (segments db) (Some sid));
  [(e, ca, s)].

Definition segment_costs_key (j : UserEvent.t * (Z * Campaign.t) * (Z * Segment.t))
    : Z * Z * string * Z * Qc :=
  let '(e, ca, s) := j in
  (DATE (UserEvent.timestamp e), s.1, Segment.name s.2, ca.1, Campaign.spend ca.2).

(** WITH segment_costs AS (... SUM(ca.spend) / 30.0 AS daily_spend ...) *)
Definition segment_costs (db : database) : list segment_costs_row :=
  fmap (λ '((d, sid, sname, cid, _), g),
         mk_sc d sid sname cid
           (Qc_sum ((λ j : UserEvent.t * (Z * Campaign.t) * (Z * Segment.t),
                       Campaign.spend j.1.2.2) <$> g) / Qc_of_Z 30)%Qc)
      (group_by segment_costs_key (segment_costs_join db)).

Definition segment_acquisitions_join (db : database) : list (Conversion.t * Z) :=
  c ← filter (λ c, Conversion.type c = "purchase"%string) (conversions db);
  sid ← segments_of db (Conversion.user_id c);
  [(c, sid)].

Definition segment_acquisitions (db : database) : list segment_acquisitions_row :=
  fmap (λ '((d, sid), g),
         mk_sa d sid
           (count_distinct ((λ j : Conversion.t * Z, Conversion.user_id j.1) <$> g)))
      (group_by (λ j : Conversion.t * Z, (DATE (Conversion.timestamp j.1), j.2))
         (segment_acquisitions_join db)).

Definition segment_cac_key (j : segment_costs_row * option segment_acquisitions_row)
    : Z * Z * string * option Z :=
  (sc_date j.1, sc_segment_id j.1, sc_segment_name j.1, sa_acquisitions <$> j.2).

Definition segment_cac (db : database) : list (SegmentCac.row Qc) :=
  fmap (λ '((d, sid, sname, acq), g),
         let spend := Qc_sum ((λ j : segment_costs_row * option segment_acquisitions_row,
                                 sc_daily_spend j.1) <$> g) in
         SegmentCac.mk d sid sname
           (if decide (0 < default 0 acq) then (spend / Qc_of_Z (default 0%Z acq))%Qc
            else 0%Qc))
      (group_by segment_cac_key
         (left_join (λ sc sa, sc_date sc = sa_date sa ∧ sc_segment_id sc = sa_segment_id sa)
            (segment_costs db) (segment_acquisitions db))).

(** *** analytics.channel_roas *)

Record channel_spend_row := mk_cs {
  cs_date : Z;
  cs_channel_id : Z;
  cs_channel_name : string;
  cs_daily_spend : Qc }.

Record channel_revenue_row := mk_cr {
  cr_date : Z;
  cr_channel_id : Z;
  cr_revenue : Qc }.

Definition channel_spend_join (db : database)
    : list (UserEvent.t * (Z * Campaign.t) * (Z * Channel.t)) :=
  e ← user_events db;
  ca ← option_list (join_pk (campaigns db) (UserEvent.campaign_id e));
  ch ← option_list (join_pk (channels db) (UserEvent.channel_id e));
  [(e, ca, ch)].

Definition channel_spend_key (j : UserEvent.t * (Z * Campaign.t) * (Z * Channel.t))
    : Z * Z * string * Qc :=
  let '(e, ca, ch) := j in
  (DATE (UserEvent.timestamp e), ch.1, Channel.name ch.2, Campaign.spend ca.2).

Definition channel_spend (db : database) : list channel_spend_row :=
  fmap (λ '((d, chid, chname, _), g),
         mk_cs d chid chname
           (Qc_sum ((λ j : UserEvent.t * (Z * Campaign.t) * (Z * Channel.t),
                       Campaign.spend j.1.2.2) <$> g) / Qc_of_Z 30)%Qc)
      (group_by channel_spend_key (channel_spend_join db)).

Definition channel_revenue_join (db : database) : list (Conversion.t * (Z * Channel.t)) :=
  c ← conversions db;
  ch ← option_list (join_pk (channels db) (Conversion.channel_id c));
  [(c, ch)].

Definition channel_revenue (db : database) : list channel_revenue_row :=
  fmap (λ '((d, chid), g),
         mk_cr d chid
           (Qc_sum ((λ j : Conversion.t * (Z * Channel.t), Conversion.value j.1) <$> g)))
      (group_by (λ j : Conversion.t * (Z * Channel.t),
                   (DATE (Conversion.timestamp j.1), j.2.1))
         (channel_revenue_join db)).

Definition channel_roas_key (j : channel_spend_row * option channel_revenue_row)
    : Z * Z * string * option Qc :=
  (cs_date j.1, cs_channel_id j.1, cs_channel_name j.1, cr_revenue <$> j.2).

Definition channel_roas (db : database) : list (ChannelRoas.row Qc) :=
  fmap (λ '((d, chid, chname, rev), g),
         let spend := Qc_sum ((λ j : channel_spend_row * option channel_revenue_row,
                                 cs_daily_spend j.1) <$> g) in
         ChannelRoas.mk d chid chname
           (if decide (0 < spend)%Qc then (default 0%Qc rev / spend)%Qc else 0%Qc))
      (group_by channel_roas_key
         (left_join (λ cs cr, cs_date cs = cr_date cr ∧ cs_channel_id cs = cr_channel_id cr)
            (channel_spend db) (channel_revenue db))).

(** The state [create_materialized_views] leaves behind: the five stored
    views. The function itself returns nothing. *)
Record t := mk {
  v_campaign_performance : list CampaignPerf.row;
  v_channel_performance : list ChannelPerf.row;
  v_segment_performance : list SegmentPerf.row;
  v_segment_cac : list (SegmentCac.row Qc);
  v_channel_roas : list (ChannelRoas.row Qc) }.

Definition create_materialized_views (db : database) : t * unit :=
  (mk (daily_campaign_performance db) (daily_channel_performance db)
      (segment_performance db) (segment_cac db) (channel_roas db), tt).

End Views.

(** ** The hourly ETL of marketing_etl_dag.py

    The DAG is written against the column names of app/models/database.py:
    [event_id], [event_name], [event_timestamp] are the fields [id], [name],
    [timestamp] of [UserEvent.t]; [conversion_type], [conversion_value],
    [conversion_timestamp] those of [Conversion.t]; [spend_to_date] is
    [Campaign.spend]; [channel_name] and [segment_name] are the [name]s. *)

Module Dag.

(** extract_events_data: the events of the hour before [execution_date]. *)
Definition extract_events_data (execution_date : Z) (events : list UserEvent.t)
    : list UserEvent.t :=
  filter (λ e, execution_date - 3600 ≤ UserEvent.timestamp e
               ∧ UserEvent.timestamp e < execution_date) events.

(** A row of the transformed frame, and of the CSV file [load_events_data]
    reads back. *)
Record bucket := mk_bucket {
  b_campaign_id : option Z;
  b_channel_id : option Z;
  b_event_date : Z;
  b_event_hour : Z;
  b_event_name : string;
  b_unique_users : Z;
  b_event_count : Z }.

(** transform_events_data does not get the rows of the table but the file
    that extract_events_data wrote with to_csv, and reads it with
    pd.read_csv. A NULL is written as an empty field, and read_csv reads as
    missing (NaN) the empty field and every field that holds one of its
    default na_values (those of pandas 2), in a text column too: an event
    whose name is empty or is NA has no event_name in the frame. The rows
    and fields of the file are taken to come back as they were written; the
    quoting of to_csv is not modelled. *)
Definition na_values : list string :=
  [EmptyString; "#N/A"; "#N/A N/A"; "#NA"; "-1.#IND"; "-1.#QNAN"; "-NaN"; "-nan";
   "1.#IND"; "1.#QNAN"; "<NA>"; "N/A"; "NA"; "NULL"; "NaN"; "None"; "n/a"; "nan";
   "null"]%string.

(** A text field as read_csv hands it over. *)
Definition read_field (s : string) : option string :=
  if decide (s ∈ na_values) then None else Some s.

(** read_csv also gives every column a type from what it holds: a text
    column all of whose fields read as numbers, or as booleans, comes back
    as numbers or booleans, so that the fields 007 and 7 become one value.
    The model keeps the text of a field. [textual] holds of the texts that
    read_csv leaves as they are whatever else their column holds: the words
    of letters, digits and underscores that begin with a letter and are not
    a word for a missing value, a boolean or an infinity. The statements
    that depend on which names or which users are the same are made for
    batches of such texts; the counts of events do not depend on it. *)
Definition letter (c : Ascii.ascii) : bool :=
  let n := Ascii.N_of_ascii c in
  ((65 <=? n) && (n <=? 90) || (97 <=? n) && (n <=? 122))%N.

Definition word_char (c : Ascii.ascii) : bool :=
  let n := Ascii.N_of_ascii c in
  letter c || ((48 <=? n) && (n <=? 57))%N || (n =? 95)%N.

Definition lower (c : Ascii.ascii) : Ascii.ascii :=
  let n := Ascii.N_of_ascii c in
  if ((65 <=? n) && (n <=? 90))%N then Ascii.ascii_of_N (n + 32) else c.

Fixpoint lowercase (s : string) : string :=
  match s with
  | EmptyString => EmptyString
  | String c s => String (lower c) (lowercase s)
  end.

Definition reserved : list string :=
  ["na"; "nan"; "null"; "none"; "true"; "false"; "inf"; "infinity"]%string.

Definition textual (s : string) : Prop :=
  match s with
  | EmptyString => False
  | String c _ => letter c
  end
  ∧ forallb word_char (list_ascii_of_string s)
  ∧ lowercase s ∉ reserved.

#[global] Instance textual_dec s : Decision (textual s).
Proof. unfold textual. destruct s; apply _. Defined.

(** The grouping key of an event; pandas' groupby leaves out a row with a
    missing value in a key column (dropna is on by default). The date and
    the hour come from the timestamp, which is never missing. *)
Definition bucket_key (e : UserEvent.t) : option (Z * Z * Z * Z * string) :=
  ca ← UserEvent.campaign_id e;
  ch ← UserEvent.channel_id e;
  n ← read_field (UserEvent.name e);
  Some (ca, ch, DATE (UserEvent.timestamp e), HOUR (UserEvent.timestamp e), n).

(** All grouping keys of the event are present in the frame. *)
Definition keys_present (e : UserEvent.t) : Prop :=
  is_Some (UserEvent.campaign_id e) ∧ is_Some (UserEvent.channel_id e)
  ∧ is_Some (read_field (UserEvent.name e)).

Definition keyed (df : list UserEvent.t) : list ((Z * Z * Z * Z * string) * UserEvent.t) :=
  omap (λ e, (λ k, (k, e)) <$> bucket_key e) df.

(** groupby sorts the groups by key, column after column. *)
Definition key_leb (k1 k2 : Z * Z * Z * Z * string) : bool :=
  let '(a1, b1, c1, d1, n1) := k1 in
  let '(a2, b2, c2, d2, n2) := k2 in
  match a1 ?= a2 with
  | Lt => true | Gt => false
  | Eq =>
    match b1 ?= b2 with
    | Lt => true | Gt => false
    | Eq =>
      match c1 ?= c2 with
      | Lt => true | Gt => false
      | Eq =>
        match d1 ?= d2 with
        | Lt => true | Gt => false
        | Eq => String.leb n1 n2
        end
      end
    end
  end.

Definition group_le {V : Type} (g1 g2 : (Z * Z * Z * Z * string) * V) : Prop :=
  key_leb g1.1 g2.1.

(** transform_events_data: unique users ('nunique', which does not count a
    missing user_id) and events ('count' of event_id, which is never missing)
    per (campaign_id, channel_id, event_date, event_hour, event_name). *)
Definition transform_events_data (df : list UserEvent.t) : list bucket :=
  fmap (λ '((ca, ch, d, h, n), g),
         mk_bucket (Some ca) (Some ch) d h n
           (count_distinct (omap (λ r : (Z * Z * Z * Z * string) * UserEvent.t,
                                    read_field (UserEvent.user_id r.2)) g))
           (Z.of_nat (length g)))
      (merge_sort group_le (group_by fst (keyed df))).

(** analytics.hourly_events: a serial [id] is the only key of the table. *)
Record hourly_event := mk_hourly_event {
  h_id : Z;
  h_campaign_id : option Z;
  h_channel_id : option Z;
  h_event_date : Z;
  h_event_hour : Z;
  h_event_name : string;
  h_unique_users : Z;
  h_event_count : Z;
  h_created_at : Z }.

Record hourly_events := mk_hourly_events {
  rows : list hourly_event;
  next_id : Z }.

(** CREATE TABLE IF NOT EXISTS analytics.hourly_events *)
Definition create_table_if_not_exists (t : option hourly_events) : hourly_events :=
  default (mk_hourly_events [] 1) t.

(** INSERT INTO analytics.hourly_events (...) VALUES (...) *)
Definition insert (now : Z) (t : hourly_events) (b : bucket) : hourly_events :=
  mk_hourly_events
    (rows t ++ [mk_hourly_event (next_id t) (b_campaign_id b) (b_channel_id b)
                  (b_event_date b) (b_event_hour b) (b_event_name b)
                  (b_unique_users b) (b_event_count b) now])
    (next_id t + 1).

(** load_events_data: one INSERT per row of the transformed file. [now] is
    the value CURRENT_TIMESTAMP has during the load. *)
Definition load_events_data (now : Z) (df : list bucket) (t : option hourly_events)
    : option hourly_events * string :=
  (Some (foldl (insert now) (create_table_if_not_exists t) df),
   "Data loaded successfully"%string).

(** The tasks extract >> transform >> load of one hourly run. *)
Definition run_slice (execution_date now : Z) (events : list UserEvent.t)
    (t : option hourly_events) : option hourly_events :=
  (load_events_data now
     (transform_events_data (extract_events_data execution_date events)) t).1.

(** The rows of the table, none while it does not exist. *)
Definition table_rows (t : option hourly_events) : list hourly_event :=
  rows (create_table_if_not_exists t).

(** The bucket columns of a stored row, without [id] and [created_at]. *)
Definition stored_bucket (h : hourly_event) : bucket :=
  mk_bucket (h_campaign_id h) (h_channel_id h) (h_event_date h) (h_event_hour h)
    (h_event_name h) (h_unique_users h) (h_event_count h).


(** NULLIF(x, 0) *)
Definition NULLIF_Z (x : Z) : option Z := if decide (x = 0) then None else Some x.
Definition NULLIF_Qc (x : Qc) : option Qc := if decide (x = 0%Qc) then None else Some x.

(** *** analytics.segment_cac as calculate_metrics defines it *)

Definition segment_cac_join (db : database)
    : list (Conversion.t * (Z * Segment.t) * (Z * Campaign.t)) :=
  c ← filter (λ c, Conversion.type c = "new_customer"%string) (conversions db);
  sid ← segments_of db (Conversion.user_id c);
  s ← option_list (join_pk (segments db) (Some sid));
  ca ← option_list (join_pk (campaigns db) (Conversion.campaign_id c));
  [(c, s, ca)].

Definition segment_cac_key (j : Conversion.t * (Z * Segment.t) * (Z * Campaign.t))
    : Z * string * Z :=
  (j.1.2.1, Segment.name j.1.2.2, DATE (Conversion.timestamp j.1.1)).

Definition segment_cac (db : database) : list (SegmentCac.row (option Qc)) :=
  fmap (λ '((sid, sname, d), g),
         let spend := Qc_sum ((λ j : Conversion.t * (Z * Segment.t) * (Z * Campaign.t),
                                 Campaign.spend j.2.2) <$> g) in
         let users := (λ j : Conversion.t * (Z * Segment.t) * (Z * Campaign.t),
                         Conversion.user_id j.1.1) <$> g in
         SegmentCac.mk d sid sname
           ((λ n, spend / Qc_of_Z n)%Qc <$> NULLIF_Z (count_distinct users)))
      (group_by segment_cac_key (segment_cac_join db)).

(** *** analytics.channel_roas as calculate_metrics defines it *)

Definition channel_roas_join (db : database)
    : list (Conversion.t * (Z * Campaign.t) * (Z * Channel.t)) :=
  c ← conversions db;
  ca ← option_list (join_pk (campaigns db) (Conversion.campaign_id c));
  ch ← option_list (join_pk (channels db) (Campaign.channel_id ca.2));
  [(c, ca, ch)].

Definition channel_roas_key (j : Conversion.t * (Z * Campaign.t) * (Z * Channel.t))
    : Z * string * Z :=
  (j.2.1, Channel.name j.2.2, DATE (Conversion.timestamp j.1.1)).

Definition channel_roas (db : database) : list (ChannelRoas.row (option Qc)) :=
  fmap (λ '((chid, chname, d), g),
         let revenue := Qc_sum ((λ j : Conversion.t * (Z * Campaign.t) * (Z * Channel.t),
                                   Conversion.value j.1.1) <$> g) in
         let spend := Qc_sum ((λ j : Conversion.t * (Z * Campaign.t) * (Z * Channel.t),
                                 Campaign.spend j.1.2.2) <$> g) in
         ChannelRoas.mk d chid chname ((λ s, revenue / s)%Qc <$> NULLIF_Qc spend))
      (group_by channel_roas_key (channel_roas_join db)).

(** calculate_metrics: the three materialized views are refreshed from
    their stored definitions, [segment_cac] and [channel_roas] are replaced
    by the two views above, and a fixed message is returned. *)
Definition calculate_metrics (db : database)
    : (list (SegmentCac.row (option Qc)) * list (ChannelRoas.row (option Qc))) * string :=
  ((segment_cac db, channel_roas db), "Metrics calculated successfully"%string).

End Dag.

(** ** The divisions as PostgreSQL evaluates them

    [Views] and [Dag] give the rows that the views hold. The division of SQL
    is not total: a zero divisor raises "division by zero", the statement is
    aborted and its view is not created. This module evaluates the select
    lists of the same queries, over the same joins and groups, with that
    division; [None] is the error "division by zero". *)

Module Checked.

(** x / y *)
Definition divide (x y : Qc) : option Qc :=
  if decide (y = 0%Qc) then None else Some (x / y)%Qc.

(** CASE WHEN n > 0 THEN total / n ELSE 0 END; a CASE evaluates the branch it
    takes and no other. *)
Definition ratio_or_zero (total : Qc) (n : Z) : option Qc :=
  if decide (0 < n) then divide total (Qc_of_Z n) else Some 0%Qc.

Definition daily_campaign_performance (db : database) : option (list CampaignPerf.row) :=
  mapM (λ '((d, cid, cname, chid, chname), g),
          let users := (λ j : Conversion.t * (Z * Campaign.t) * (Z * Channel.t),
                          Conversion.user_id j.1.1) <$> g in
          let total := Qc_sum ((λ j : Conversion.t * (Z * Campaign.t) * (Z * Channel.t),
                                  Conversion.value j.1.1) <$> g) in
          avg ← ratio_or_zero total (count_distinct users);
          Some (CampaignPerf.mk d cid cname chid chname (count_distinct users) total avg))
       (group_by Views.campaign_key (Views.campaign_join db)).

Definition daily_channel_performance (db : database) : option (list ChannelPerf.row) :=
  mapM (λ '((d, chid, chname), g),
          let evs := (fst <$> g : list UserEvent.t) in
          let clicks := count_where (λ e, UserEvent.name e = "click"%string) evs in
          let impressions := count_where (λ e, UserEvent.name e = "impression"%string) evs in
          ctr ← ratio_or_zero (Qc_of_Z clicks) impressions;
          Some (ChannelPerf.mk d chid chname
                  (Z.of_nat (length evs))
                  (count_distinct (UserEvent.user_id <$> evs))
                  clicks impressions ctr))
       (group_by Views.channel_key (Views.channel_join db)).

Definition segment_performance (db : database) : option (list SegmentPerf.row) :=
  mapM (λ '((d, sid, sname), g),
          let cs := (fst <$> g : list Conversion.t) in
          let n := count_distinct (Conversion.user_id <$> cs) in
          let total := Qc_sum (Conversion.value <$> cs) in
          avg ← ratio_or_zero total n;
          Some (SegmentPerf.mk d sid sname n total avg))
       (group_by Views.segment_key (Views.segment_join db)).

(** WITH segment_costs AS (... SUM(ca.spend) / 30.0 AS daily_spend ...) *)
Definition segment_costs (db : database) : option (list Views.segment_costs_row) :=
  mapM (λ '((d, sid, sname, cid, _), g),
          daily_spend ←
            divide (Qc_sum ((λ j : UserEvent.t * (Z * Campaign.t) * (Z * Segment.t),
                               Campaign.spend j.1.2.2) <$> g)) (Qc_of_Z 30);
          Some (Views.mk_sc d sid sname cid daily_spend))
       (group_by Views.segment_costs_key (Views.segment_costs_join db)).

(** CASE WHEN COALESCE(sa.acquisitions, 0) > 0
         THEN SUM(sc.daily_spend) / sa.acquisitions ELSE 0 END *)
Definition segment_cac (db : database) : option (list (SegmentCac.row Qc)) :=
  costs ← segment_costs db;
  mapM (λ '((d, sid, sname, acq), g),
          let spend :=
            Qc_sum ((λ j : Views.segment_costs_row * option Views.segment_acquisitions_row,
                       Views.sc_daily_spend j.1) <$> g) in
          cac ← (if decide (0 < default 0 acq)
                 then divide spend (Qc_of_Z (default 0%Z acq)) else Some 0%Qc);
          Some (SegmentCac.mk d sid sname cac))
       (group_by Views.segment_cac_key
          (left_join (λ sc sa, Views.sc_date sc = Views.sa_date sa
                               ∧ Views.sc_segment_id sc = Views.sa_segment_id sa)
             costs (Views.segment_acquisitions db))).

(** WITH channel_spend AS (... SUM(ca.spend) / 30.0 AS daily_spend ...) *)
Definition channel_spend (db : database) : option (list Views.channel_spend_row) :=
  mapM (λ '((d, chid, chname, _), g),
          daily_spend ←
            divide (Qc_sum ((λ j : UserEvent.t * (Z * Campaign.t) * (Z * Channel.t),
                               Campaign.spend j.1.2.2) <$> g)) (Qc_of_Z 30);
          Some (Views.mk_cs d chid chname daily_spend))
       (group_by Views.channel_spend_key (Views.channel_spend_join db)).

(** CASE WHEN SUM(cs.daily_spend) > 0
         THEN COALESCE(cr.revenue, 0) / SUM(cs.daily_spend) ELSE 0 END *)
Definition channel_roas (db : database) : option (list (ChannelRoas.row Qc)) :=
  spends ← channel_spend db;
  mapM (λ '((d, chid, chname, rev), g),
          let spend :=
            Qc_sum ((λ j : Views.channel_spend_row * option Views.channel_revenue_row,
                       Views.cs_daily_spend j.1) <$> g) in
          roas ← (if decide (0 < spend)%Qc
                  then divide (default 0%Qc rev) spend else Some 0%Qc);
          Some (ChannelRoas.mk d chid chname roas))
       (group_by Views.channel_roas_key
          (left_join (λ cs cr, Views.cs_date cs = Views.cr_date cr
                               ∧ Views.cs_channel_id cs = Views.cr_channel_id cr)
             spends (Views.channel_revenue db))).

(** create_materialized_views: the five statements, one after the other; an
    error in one of them leaves the function with an exception. *)
Definition create_materialized_views (db : database) : option (Views.t * unit) :=
  campaigns ← daily_campaign_performance db;
  channels ← daily_channel_performance db;
  segments ← segment_performance db;
  cac ← segment_cac db;
  roas ← channel_roas db;
  Some (Views.mk campaigns channels segments cac roas, tt).

(** x / NULLIF(y, 0): a division by NULL is NULL and raises nothing. *)
Definition divide_nullable (x : Qc) (y : option Qc) : option (option Qc) :=
  match y with
  | None => Some None
  | Some y => Some <$> divide x y
  end.

(** The two views of calculate_metrics:
    SUM(ca.spend_to_date) / NULLIF(COUNT(DISTINCT c.user_id), 0) *)
Definition dag_segment_cac (db : database) : option (list (SegmentCac.row (option Qc))) :=
  mapM (λ '((sid, sname, d), g),
          let spend := Qc_sum ((λ j : Conversion.t * (Z * Segment.t) * (Z * Campaign.t),
                                  Campaign.spend j.2.2) <$> g) in
          let users := (λ j : Conversion.t * (Z * Segment.t) * (Z * Campaign.t),
                          Conversion.user_id j.1.1) <$> g in
          cac ← divide_nullable spend (Qc_of_Z <$> Dag.NULLIF_Z (count_distinct users));
          Some (SegmentCac.mk d sid sname cac))
       (group_by Dag.segment_cac_key (Dag.segment_cac_join db)).

(** SUM(c.conversion_value) / NULLIF(SUM(ca.spend_to_date), 0) *)
Definition dag_channel_roas (db : database) : option (list (ChannelRoas.row (option Qc))) :=
  mapM (λ '((chid, chname, d), g),
          let revenue := Qc_sum ((λ j : Conversion.t * (Z * Campaign.t) * (Z * Channel.t),
                                    Conversion.value j.1.1) <$> g) in
          let spend := Qc_sum ((λ j : Conversion.t * (Z * Campaign.t) * (Z * Channel.t),
                                  Campaign.spend j.1.2.2) <$> g) in
          roas ← divide_nullable revenue (Dag.NULLIF_Qc spend);
          Some (ChannelRoas.mk d chid chname roas))
       (group_by Dag.channel_roas_key (Dag.channel_roas_join db)).

End Checked.

(** ** Serving the metrics *)

(** The values of the dictionary that [get_metrics] returns. *)
Module Kpi.
Record t := mk {
  cac : Qc;
  clv : Qc;
  roas : Qc;
  conversion_rate : Qc;
  cac_change : Qc;
  clv_change : Qc;
  roas_change : Qc;
  conversion_rate_change : Qc }.
End Kpi.

Inductive metric_value (V : Type) :=
  | CampaignRows (l : list CampaignPerf.row)
  | ChannelRows (l : list ChannelPerf.row)
  | SegmentRows (l : list SegmentPerf.row)
  | CacRows (l : list (SegmentCac.row V))
  | RoasRows (l : list (ChannelRoas.row V))
  | KpiSummary (k : Kpi.t).
Arguments CampaignRows {V}. Arguments ChannelRows {V}. Arguments SegmentRows {V}.
Arguments CacRows {V}. Arguments RoasRows {V}. Arguments KpiSummary {V}.

(** The five stored views a server reads. *)
Record stored_views (V : Type) := mk_stored_views {
  sv_campaign_performance : list CampaignPerf.row;
  sv_channel_performance : list ChannelPerf.row;
  sv_segment_performance : list SegmentPerf.row;
  sv_segment_cac : list (SegmentCac.row V);
  sv_channel_roas : list (ChannelRoas.row V) }.
Arguments mk_stored_views {V}. Arguments sv_campaign_performance {V}.
Arguments sv_channel_performance {V}. Arguments sv_segment_performance {V}.
Arguments sv_segment_cac {V}. Arguments sv_channel_roas {V}.

(** WHERE date BETWEEN :start_date AND :end_date, with the optional
    " AND <id column> = <id>" that is added when [if id:] holds, that is for an
    id that is given and is not 0. *)
Definition id_given (i : option Z) : Prop := ∃ k, i = Some k ∧ k ≠ 0.

#[global] Instance id_given_dec i : Decision (id_given i).
Proof.
  destruct i as [k|].
  - destruct (decide (k = 0)) as [->|Hk].
    + right. intros (k' & Hk' & Hne). congruence.
    + left. by exists k.
  - right. intros (k' & Hk' & _). congruence.
Defined.

Definition selected {R : Type} (key : R → Z * Z) (start_date end_date : Z)
    (i : option Z) (r : R) : Prop :=
  (start_date ≤ (key r).1 ∧ (key r).1 ≤ end_date)
  ∧ (id_given i → i = Some (key r).2).

Definition where_ {R : Type} (key : R → Z * Z) (start_date end_date : Z)
    (i : option Z) (rows : list R) : list R :=
  filter (selected key start_date end_date i) rows.

(** ORDER BY date, <id column> *)
Definition key_le (k1 k2 : Z * Z) : Prop := k1.1 < k2.1 ∨ (k1.1 = k2.1 ∧ k1.2 ≤ k2.2).

Definition row_le {R : Type} (key : R → Z * Z) (r1 r2 : R) : Prop := key_le (key r1) (key r2).

Definition order_by {R : Type} (key : R → Z * Z) (rows : list R) : list R :=
  merge_sort (row_le key) rows.

(** *** app/models/database.py and app/api/main.py *)

Module Database.

Definition get_metrics {V : Type} (sv : stored_views V) (start_date end_date : Z)
    (channel_id segment_id : option Z) : gmap string (metric_value V) :=
  let campaign_result :=
    order_by CampaignPerf.key
      (where_ (λ r, (CampaignPerf.date r, CampaignPerf.channel_id r))
         start_date end_date channel_id (sv_campaign_performance sv)) in
  let channel_result :=
    order_by ChannelPerf.key
      (where_ ChannelPerf.key start_date end_date channel_id
         (sv_channel_performance sv)) in
  let segment_result :=
    order_by SegmentPerf.key
      (where_ SegmentPerf.key start_date end_date segment_id
         (sv_segment_performance sv)) in
  let cac_result :=
    order_by SegmentCac.key
      (where_ SegmentCac.key start_date end_date segment_id (sv_segment_cac sv)) in
  let roas_result :=
    order_by ChannelRoas.key
      (where_ ChannelRoas.key start_date end_date channel_id (sv_channel_roas sv)) in
  <["campaign_performance"%string := CampaignRows campaign_result]>
  (<["channel_performance"%string := ChannelRows channel_result]>
  (<["segment_performance"%string := SegmentRows segment_result]>
  (<["segment_cac"%string := CacRows cac_result]>
  (<["channel_roas"%string := RoasRows roas_result]> ∅)))).

End Database.

Module Main.

(** The fields of the response model [MetricsResponse]. *)
Definition MetricsResponse : gset string :=
  {[ "campaign_performance"%string; "channel_performance"%string;
     "segment_performance"%string; "segment_cac"%string; "channel_roas"%string ]}.

(** GET /metrics/ *)
Definition get_all_metrics {V : Type} (today : Z) (sv : stored_views V)
    (start_date end_date channel_id segment_id : option Z)
    : gmap string (metric_value V) :=
  let start_date := default (today - 30) start_date in
  let end_date := default today end_date in
  filter (λ kv, kv.1 ∈ MetricsResponse)
    (Database.get_metrics sv start_date end_date channel_id segment_id).

End Main.

(** *** app/api/mock_server.py *)

Module MockServer.

(** round(x, 2) on exact rationals: to the nearest hundredth, a tie going to
    the even one. Python rounds the binary double, which can fall on the
    other side of a tie of the exact value; see [PyFloat]. *)
Definition round_half_even (x : Qc) : Z :=
  let n := Qfloor x in
  let f := (x - Qc_of_Z n)%Qc in
  if decide (f < Q2Qc (1 # 2))%Qc then n
  else if decide (Q2Qc (1 # 2) < f)%Qc then n + 1
  else if Z.even n then n else n + 1.

Definition round2 (x : Qc) : Qc :=
  (Qc_of_Z (round_half_even (x * Qc_of_Z 100)) / Qc_of_Z 100)%Qc.

(** random.uniform(a, b): the next sample of the unit interval, scaled. *)
Definition uniform (a b : Qc) (samples : list Qc) : Qc * list Qc :=
  match samples with
  | u :: rest => ((a + (b - a) * u)%Qc, rest)
  | [] => (a, [])
  end.

(** The lists of a metrics dictionary; [metrics.get(k)] of an absent key is
    None, which is falsy like the empty list. *)
Definition campaign_rows (m : gmap string (metric_value Qc)) : list CampaignPerf.row :=
  match m !! "campaign_performance"%string with Some (CampaignRows l) => l | _ => [] end.
Definition channel_rows (m : gmap string (metric_value Qc)) : list ChannelPerf.row :=
  match m !! "channel_performance"%string with Some (ChannelRows l) => l | _ => [] end.
Definition cac_rows (m : gmap string (metric_value Qc)) : list (SegmentCac.row Qc) :=
  match m !! "segment_cac"%string with Some (CacRows l) => l | _ => [] end.
Definition roas_rows (m : gmap string (metric_value Qc)) : list (ChannelRoas.row Qc) :=
  match m !! "channel_roas"%string with Some (RoasRows l) => l | _ => [] end.

Definition len {A : Type} (l : list A) : Qc := Qc_of_Z (Z.of_nat (length l)).

Definition generate_kpi_summary (samples : list Qc) (metrics : gmap string (metric_value Qc))
    : Kpi.t * list Qc :=
  (* Calculate CAC *)
  let '(cac, cac_change, samples) :=
    match SegmentCac.cac <$> cac_rows metrics with
    | [] => (0%Qc, 0%Qc, samples)
    | cac_values =>
      let '(u, samples) := uniform (Qc_of_Z (-15)) (Qc_of_Z 15) samples in
      (round2 (Qc_sum cac_values / len cac_values), round2 u, samples)
    end in
  (* Calculate CLV *)
  let '(clv, clv_change, samples) :=
    match CampaignPerf.avg_conversion_value <$> campaign_rows metrics with
    | [] => (0%Qc, 0%Qc, samples)
    | conversion_values =>
      let avg_value := (Qc_sum conversion_values / len conversion_values)%Qc in
      let '(u, samples) := uniform (Qc_of_Z (-10)) (Qc_of_Z 20) samples in
      (round2 (avg_value * Qc_of_Z 3), round2 u, samples)
    end in
  (* Calculate ROAS *)
  let '(roas, roas_change, samples) :=
    match ChannelRoas.roas <$> roas_rows metrics with
    | [] => (0%Qc, 0%Qc, samples)
    | roas_values =>
      let '(u, samples) := uniform (Qc_of_Z (-20)) (Qc_of_Z 40) samples in
      (round2 (Qc_sum roas_values / len roas_values), round2 u, samples)
    end in
  (* Calculate Conversion Rate *)
  let '(conversion_rate, conversion_rate_change, samples) :=
    match channel_rows metrics, campaign_rows metrics with
    | _ :: _, _ :: _ =>
      let total_clicks := Z_sum (ChannelPerf.clicks <$> channel_rows metrics) in
      let total_conversions :=
        Z_sum (CampaignPerf.conversions <$> campaign_rows metrics) in
      if decide (0 < total_clicks) then
        let '(u, samples) := uniform (Qc_of_Z (-5)) (Qc_of_Z 25) samples in
        (round2 (Qc_of_Z total_conversions / Qc_of_Z total_clicks * Qc_of_Z 100),
         round2 u, samples)
      else (0%Qc, 0%Qc, samples)
    | _, _ => (0%Qc, 0%Qc, samples)
    end in
  (Kpi.mk cac clv roas conversion_rate
     cac_change clv_change roas_change conversion_rate_change, samples).

(** GET /metrics/ : the same five selections, without ORDER BY, and the
    KPI summary. *)
Definition get_metrics (today : Z) (samples : list Qc) (sv : stored_views Qc)
    (start_date end_date channel_id segment_id : option Z)
    : gmap string (metric_value Qc) * list Qc :=
  let start_date := default (today - 30) start_date in
  let end_date := default today end_date in
  let metrics : gmap string (metric_value Qc) :=
    <["channel_roas"%string :=
        RoasRows (where_ ChannelRoas.key start_date end_date channel_id
                    (sv_channel_roas sv))]>
    (<["segment_cac"%string :=
        CacRows (where_ SegmentCac.key start_date end_date segment_id
                   (sv_segment_cac sv))]>
    (<["segment_performance"%string :=
        SegmentRows (where_ SegmentPerf.key start_date end_date segment_id
                       (sv_segment_performance sv))]>
    (<["channel_performance"%string :=
        ChannelRows (where_ ChannelPerf.key start_date end_date channel_id
                       (sv_channel_performance sv))]>
    (<["campaign_performance"%string :=
        CampaignRows (where_ (λ r, (CampaignPerf.date r, CampaignPerf.channel_id r))
                        start_date end_date channel_id
                        (sv_campaign_performance sv))]> ∅)))) in
  let '(kpi, samples) := generate_kpi_summary samples metrics in
  (<["kpi_summary"%string := KpiSummary kpi]> metrics, samples).

(** The stored views the mock server reads are the materialized views. *)
Definition stored (v : Views.t) : stored_views Qc :=
  mk_stored_views (Views.v_campaign_performance v) (Views.v_channel_performance v)
    (Views.v_segment_performance v) (Views.v_segment_cac v) (Views.v_channel_roas v).

End MockServer.

(** *** The summary on the numbers of Python

    generate_kpi_summary computes on Python floats. pd.read_sql hands the
    NUMERIC and FLOAT columns of the views over as binary doubles; sum, /
    and * round their results to a double, and round(x, 2) rounds the binary
    value, not the decimal one, so that round(0.015, 2) is 0.01. What these
    operations return depends on the binary representation, and for sum on
    the version of Python as well. [MockServer] computes on exact rationals,
    with ties of round going to the even hundredth; here the operations are
    a parameter, and [exact] is the arithmetic of [MockServer]. *)

Module PyFloat.

Record arithmetic := mk_arithmetic {
  float : Type;
  (** the seed of the pseudo-random numbers *)
  random : Type;
  (** the float that pd.read_sql makes of a NUMERIC value *)
  of_decimal : Qc → float;
  (** an int where a float is expected: 0, 3, 100, len(values) *)
  of_int : Z → float;
  (** sum(values), / of two floats, / of two ints, * *)
  sum : list float → float;
  truediv : float → float → float;
  int_truediv : Z → Z → float;
  mul : float → float → float;
  (** round(x, 2) *)
  round2 : float → float;
  (** random.uniform(a, b) *)
  uniform : Z → Z → random → float * random }.

(** kpi_summary *)
Record summary (F : Type) := mk_summary {
  cac : F;
  clv : F;
  roas : F;
  conversion_rate : F;
  cac_change : F;
  clv_change : F;
  roas_change : F;
  conversion_rate_change : F }.
Arguments mk_summary {F}. Arguments cac {F}. Arguments clv {F}. Arguments roas {F}.
Arguments conversion_rate {F}. Arguments cac_change {F}. Arguments clv_change {F}.
Arguments roas_change {F}. Arguments conversion_rate_change {F}.

Section generate_kpi_summary.
Context (A : arithmetic).

Definition generate_kpi_summary (seed : random A) (metrics : gmap string (metric_value Qc))
    : summary (float A) * random A :=
  (* Calculate CAC *)
  let '(cac, cac_change, seed) :=
    match of_decimal A <$> (SegmentCac.cac <$> MockServer.cac_rows metrics) with
    | [] => (of_int A 0, of_int A 0, seed)
    | cac_values =>
      let '(u, seed) := uniform A (-15) 15 seed in
      (round2 A (truediv A (sum A cac_values) (of_int A (Z.of_nat (length cac_values)))),
       round2 A u, seed)
    end in
  (* Calculate CLV *)
  let '(clv, clv_change, seed) :=
    match of_decimal A
            <$> (CampaignPerf.avg_conversion_value <$> MockServer.campaign_rows metrics) with
    | [] => (of_int A 0, of_int A 0, seed)
    | conversion_values =>
      let avg_value :=
        truediv A (sum A conversion_values)
          (of_int A (Z.of_nat (length conversion_values))) in
      let '(u, seed) := uniform A (-10) 20 seed in
      (round2 A (mul A avg_value (of_int A 3)), round2 A u, seed)
    end in
  (* Calculate ROAS *)
  let '(roas, roas_change, seed) :=
    match of_decimal A <$> (ChannelRoas.roas <$> MockServer.roas_rows metrics) with
    | [] => (of_int A 0, of_int A 0, seed)
    | roas_values =>
      let '(u, seed) := uniform A (-20) 40 seed in
      (round2 A (truediv A (sum A roas_values) (of_int A (Z.of_nat (length roas_values)))),
       round2 A u, seed)
    end in
  (* Calculate Conversion Rate *)
  let '(conversion_rate, conversion_rate_change, seed) :=
    match MockServer.channel_rows metrics, MockServer.campaign_rows metrics with
    | _ :: _, _ :: _ =>
      let total_clicks := Z_sum (ChannelPerf.clicks <$> MockServer.channel_rows metrics) in
      let total_conversions :=
        Z_sum (CampaignPerf.conversions <$> MockServer.campaign_rows metrics) in
      if decide (0 < total_clicks) then
        let '(u, seed) := uniform A (-5) 25 seed in
        (round2 A (mul A (int_truediv A total_conversions total_clicks) (of_int A 100)),
         round2 A u, seed)
      else (of_int A 0, of_int A 0, seed)
    | _, _ => (of_int A 0, of_int A 0, seed)
    end in
  (mk_summary cac clv roas conversion_rate
     cac_change clv_change roas_change conversion_rate_change, seed).

End generate_kpi_summary.

(** The arithmetic of [MockServer]: exact rationals. *)
Definition exact : arithmetic :=
  mk_arithmetic Qc (list Qc) id Qc_of_Z Qc_sum Qcdiv
    (λ a b, (Qc_of_Z a / Qc_of_Z b)%Qc) Qcmult MockServer.round2
    (λ a b, MockServer.uniform (Qc_of_Z a) (Qc_of_Z b)).

(** The summary as a [Kpi.t]. *)
Definition kpi (s : summary Qc) : Kpi.t :=
  Kpi.mk (cac s) (clv s) (roas s) (conversion_rate s)
    (cac_change s) (clv_change s) (roas_change s) (conversion_rate_change s).

End PyFloat.

(** ** The aggregates stated directly on the facts

    These are the quantities the views are meant to compute, written as
    plain selections over the fact tables, without joins and groups. *)

Module Facts.

Definition member (db : database) (u : string) (s : Z) : Prop :=
  (u, s) ∈ user_segments db.

#[global] Instance member_dec db u s : Decision (member db u s).
Proof. unfold member. apply _. Defined.

(** The campaign rows of the events that touch segment [s] on day [d]: one
    entry for each event of that day by a user of the segment that
    references an existing campaign. *)
Definition touching (db : database) (d s : Z) : list (Z * Campaign.t) :=
  omap (λ e, if decide (DATE (UserEvent.timestamp e) = d
                        ∧ member db (UserEvent.user_id e) s)
             then join_pk (campaigns db) (UserEvent.campaign_id e) else None)
       (user_events db).




(** The same, counted once for every touching event. *)
Definition amortized_event_spend (db : database) (d s : Z) : Qc :=
  (Qc_sum ((λ ca : Z * Campaign.t, Campaign.spend ca.2) <$> touching db d s)
   / Qc_of_Z 30)%Qc.

(** The distinct users of segment [s] with a purchase on day [d]. *)
Definition acquirers (db : database) (d s : Z) : list string :=
  remove_dups
    (Conversion.user_id <$>
       filter (λ c, Conversion.type c = "purchase"%string
                    ∧ DATE (Conversion.timestamp c) = d
                    ∧ member db (Conversion.user_id c) s)
              (conversions db)).

Definition acquisitions (db : database) (d s : Z) : Z :=
  Z.of_nat (length (acquirers db d s)).

(** The events of day [d] on channel [ch] that reference an existing
    campaign, with that campaign. *)
Definition channel_events (db : database) (d ch : Z) : list (Z * Campaign.t) :=
  omap (λ e, if decide (DATE (UserEvent.timestamp e) = d
                        ∧ UserEvent.channel_id e = Some ch)
             then join_pk (campaigns db) (UserEvent.campaign_id e) else None)
       (user_events db).

Definition channel_daily_spend (db : database) (d ch : Z) : Qc :=
  (Qc_sum ((λ ca : Z * Campaign.t, Campaign.spend ca.2) <$> channel_events db d ch)
   / Qc_of_Z 30)%Qc.

(** The conversions of day [d] on channel [ch], and their revenue. *)
Definition channel_conversions (db : database) (d ch : Z) : list Conversion.t :=
  filter (λ c, DATE (Conversion.timestamp c) = d ∧ Conversion.channel_id c = Some ch)
         (conversions db).

Definition channel_revenue (db : database) (d ch : Z) : Qc :=
  Qc_sum (Conversion.value <$> channel_conversions db d ch).

(** The conversions of campaign [cid] on day [d]. *)
Definition day_conversions (db : database) (d cid : Z) : list Conversion.t :=
  filter (λ c, DATE (Conversion.timestamp c) = d ∧ Conversion.campaign_id c = Some cid)
         (conversions db).



(** The return on the amortized spend of a channel and day. *)
Definition spend_return (db : database) (d ch : Z) : Qc :=
  if decide (0 < channel_daily_spend db d ch)%Qc
  then (channel_revenue db d ch / channel_daily_spend db d ch)%Qc else 0%Qc.

(** The conversions of type new_customer of day [d] by users of segment
    [s] that reference an existing campaign, with that campaign. *)
Definition new_customer_rows (db : database) (d s : Z)
    : list (Conversion.t * (Z * Campaign.t)) :=
  omap (λ c, if decide (Conversion.type c = "new_customer"%string
                        ∧ DATE (Conversion.timestamp c) = d
                        ∧ member db (Conversion.user_id c) s)
             then (λ ca, (c, ca)) <$> join_pk (campaigns db) (Conversion.campaign_id c)
             else None)
       (conversions db).

(** The conversions of day [d] whose campaign exists and runs on channel
    [ch], with that campaign. *)
Definition campaign_channel_rows (db : database) (d ch : Z)
    : list (Conversion.t * (Z * Campaign.t)) :=
  omap (λ c, if decide (DATE (Conversion.timestamp c) = d)
             then ca ← join_pk (campaigns db) (Conversion.campaign_id c);
                  if decide (Campaign.channel_id ca.2 = Some ch)
                  then Some (c, ca) else None
             else None)
       (conversions db).


(** The spend of the campaigns of the conversions of a channel and day,
    counted once per conversion, and the value of these conversions. *)
Definition conversion_spend (db : database) (d ch : Z) : Qc :=
  Qc_sum ((λ j : Conversion.t * (Z * Campaign.t), Campaign.spend j.2.2)
            <$> campaign_channel_rows db d ch).

Definition conversion_revenue (db : database) (d ch : Z) : Qc :=
  Qc_sum ((λ j : Conversion.t * (Z * Campaign.t), Conversion.value j.1)
            <$> campaign_channel_rows db d ch).

(** A fact is malformed when it names a campaign or a channel that does
    not exist. *)
Definition dangling {T : Type} (tbl : gmap Z T) (fk : option Z) : Prop :=
  ∃ k, fk = Some k ∧ tbl !! k = None.

#[global] Instance dangling_dec {T} (tbl : gmap Z T) fk : Decision (dangling tbl fk).
Proof.
  destruct fk as [k|].
  - destruct (tbl !! k) as [r|] eqn:E.
    + right. intros (k' & [= <-] & Hk). congruence.
    + left. by exists k.
  - right. intros (k' & Hk & _). congruence.
Defined.

Definition malformed_event (db : database) (e : UserEvent.t) : Prop :=
  dangling (campaigns db) (UserEvent.campaign_id e)
  ∨ dangling (channels db) (UserEvent.channel_id e).

Definition malformed_conversion (db : database) (c : Conversion.t) : Prop :=
  dangling (campaigns db) (Conversion.campaign_id c)
  ∨ dangling (channels db) (Conversion.channel_id c).

(** The number of malformed facts of a database. *)
Definition malformed (db : database) : nat :=
  length (filter (malformed_event db) (user_events db))
  + length (filter (malformed_conversion db) (conversions db)).

(** The arithmetic mean of a list of amounts. *)
Definition mean (l : list Qc) : Qc :=
  (Qc_sum l / Qc_of_Z (Z.of_nat (length l)))%Qc.

End Facts.

(** Appending a fact to a fact table. *)
Definition add_event (e : UserEvent.t) (db : database) : database :=
  mk_database (channels db) (segments db) (campaigns db) (user_segments db)
    (user_events db ++ [e]) (conversions db).

Definition add_conversion (c : Conversion.t) (db : database) : database :=
  mk_database (channels db) (segments db) (campaigns db) (user_segments db)
    (user_events db) (conversions db ++ [c]).

(** ** Equality of rows is decidable *)

#[global] Instance campaign_perf_row_eq_dec : EqDecision CampaignPerf.row.
Proof. solve_decision. Defined.
#[global] Instance channel_perf_row_eq_dec : EqDecision ChannelPerf.row.
Proof. solve_decision. Defined.
#[global] Instance segment_perf_row_eq_dec : EqDecision SegmentPerf.row.
Proof. solve_decision. Defined.
#[global] Instance segment_cac_row_eq_dec {V} `{EqDecision V} : EqDecision (SegmentCac.row V).
Proof. solve_decision. Defined.
#[global] Instance channel_roas_row_eq_dec {V} `{EqDecision V} : EqDecision (ChannelRoas.row V).
Proof. solve_decision. Defined.
#[global] Instance bucket_eq_dec : EqDecision Dag.bucket.
Proof. solve_decision. Defined.
#[global] Instance hourly_event_eq_dec : EqDecision Dag.hourly_event.
Proof. solve_decision. Defined.
#[global] Instance hourly_events_eq_dec : EqDecision Dag.hourly_events.
Proof. solve_decision. Defined.
#[global] Instance kpi_eq_dec : EqDecision Kpi.t.
Proof. solve_decision. Defined.
#[global] Instance metric_value_eq_dec {V} `{EqDecision V} : EqDecision (metric_value V).
Proof. solve_decision. Defined.
#[global] Instance views_eq_dec : EqDecision Views.t.
Proof. solve_decision. Defined.

(** ** Sample data *)

Module Sample.

Definition event (i : Z) (u n : string) (ts : Z) (ca ch : option Z) : UserEvent.t :=
  UserEvent.mk i u n ts ca ch None None None None None.

Definition facebook : Channel.t := Channel.mk "Facebook Ads" "Social" (Some "CPC"%string).
Definition new_visitors : Segment.t := Segment.mk "New Visitors" None.
Definition spring (spend : Z) : Campaign.t :=
  Campaign.mk "Spring 2024 Shoes Campaign" (Some 1) 0 None (Qc_of_Z 1000) (Qc_of_Z spend)
    "active".

(** One channel, one campaign with a spend of 300, one segment with the
    user u1. *)
Definition reference (events : list UserEvent.t) (convs : list Conversion.t) : database :=
  mk_database {[ 1 := facebook ]} {[ 1 := new_visitors ]} {[ 1 := spring 300 ]}
    {[ ("u1"%string, 1) ]} events convs.


(** u1 sees the campaign and clicks on it on day 0, and purchases that day. *)
Definition two_events : database :=
  reference [event 1 "u1" "impression" 100 (Some 1) (Some 1);
             event 2 "u1" "click" 200 (Some 1) (Some 1)]
    [Conversion.mk 1 "u1" "purchase" (Qc_of_Z 50) (Some 1) (Some 1) 300].

(** u1 clicks on day 0; nobody converts. *)
Definition no_conversion : database :=
  reference [event 1 "u1" "click" 100 (Some 1) (Some 1)] [].

(** Two conversions of campaign 1 on day 0, of 50 and 70. *)
Definition two_conversions (u1 u2 : string) : database :=
  reference []
    [Conversion.mk 1 u1 "purchase" (Qc_of_Z 50) (Some 1) (Some 1) 300;
     Conversion.mk 2 u2 "purchase" (Qc_of_Z 70) (Some 1) (Some 1) 400].

(** A conversion of a campaign that has not spent anything yet. *)
Definition unspent : database :=
  mk_database {[ 1 := facebook ]} {[ 1 := new_visitors ]} {[ 1 := spring 0 ]}
    {[ ("u1"%string, 1) ]} []
    [Conversion.mk 1 "u1" "new_customer" (Qc_of_Z 50) (Some 1) (Some 1) 300].

(** A conversion on day 1 stored before one on day 0. *)
Definition late_first : database :=
  reference []
    [Conversion.mk 1 "u1" "purchase" (Qc_of_Z 50) (Some 1) (Some 1) 86500;
     Conversion.mk 2 "u1" "purchase" (Qc_of_Z 70) (Some 1) (Some 1) 400].

(** An event that names campaign 9 and channel 9, which do not exist. *)
Definition stray : UserEvent.t := event 7 "u1" "click" 100 (Some 9) (Some 9).

(** A conversion that names campaign 9 and channel 9. *)
Definition stray_conversion : Conversion.t :=
  Conversion.mk 7 "u1" "purchase" (Qc_of_Z 50) (Some 9) (Some 9) 300.

Definition empty : database := reference [] [].

(** Stored views in which analytics.daily_campaign_performance holds the
    row of day 1 before the row of day 0. *)
Definition day_one_first : stored_views Qc :=
  mk_stored_views
    [CampaignPerf.mk 1 1 "Spring 2024 Shoes Campaign" 1 "Facebook Ads" 1
       (Qc_of_Z 50) (Qc_of_Z 50);
     CampaignPerf.mk 0 1 "Spring 2024 Shoes Campaign" 1 "Facebook Ads" 1
       (Qc_of_Z 70) (Qc_of_Z 70)]
    [] [] [] [].

(** The events of the hour that ends at second 3600: two clicks of
    campaign 1, and a page view without a campaign. *)
Definition first_hour : list UserEvent.t :=
  [event 1 "u1" "click" 100 (Some 1) (Some 1);
   event 2 "u2" "click" 200 (Some 1) (Some 1);
   event 3 "u1" "page_view" 300 None (Some 1)].

(** Two events of campaign 1 and channel 1, one with the name NA and one
    with the empty name. *)
Definition nameless : list UserEvent.t :=
  [event 1 "u1" "NA" 100 (Some 1) (Some 1);
   event 2 "u2" EmptyString 200 (Some 1) (Some 1)].

(** Metrics with three segment-day rows, of cac 1, 0 and 0. *)
Definition thirds : gmap string (metric_value Qc) :=
  {[ "segment_cac"%string :=
       CacRows [SegmentCac.mk 0 1 "New Visitors"%string (Qc_of_Z 1);
                SegmentCac.mk 0 2 "Returning Visitors"%string (Qc_of_Z 0);
                SegmentCac.mk 0 3 "High-Value Customers"%string (Qc_of_Z 0)] ]}.

End Sample.

(** ** Filling the tables (generate_synthetic_data.py)

    create_tables declares a primary key for every table and FOREIGN KEY
    constraints ([REFERENCES]) on [campaigns.channel_id],
    [user_segments.segment_id] and on the [campaign_id] and [channel_id] of
    [raw.user_events] and [analytics.conversions]. An INSERT that breaks one
    of them raises an error; every insert function runs in one transaction
    ([with engine.begin()]), so the error undoes the rows it had inserted and
    leaves the function. [None] is that error. The rows are taken to fit the
    types of their columns. *)

Module Generator.

(** REFERENCES: the column is NULL or holds the key of a row of the table. *)
Definition references {T : Type} (tbl : gmap Z T) (fk : option Z) : Prop :=
  match fk with
  | Some k => is_Some (tbl !! k)
  | None => True
  end.

#[global] Instance references_dec {T} (tbl : gmap Z T) fk : Decision (references tbl fk).
Proof. destruct fk; simpl; apply _. Defined.

(** The tables after drop_tables_if_exist and create_tables. *)
Definition create_tables : database := mk_database ∅ ∅ ∅ ∅ [] [].

Definition insert_channel (db : database) (row : Z * Channel.t) : option database :=
  if decide (is_Some (channels db !! row.1)) then None
  else Some (mk_database (<[row.1 := row.2]> (channels db)) (segments db) (campaigns db)
               (user_segments db) (user_events db) (conversions db)).

Definition insert_segment (db : database) (row : Z * Segment.t) : option database :=
  if decide (is_Some (segments db !! row.1)) then None
  else Some (mk_database (channels db) (<[row.1 := row.2]> (segments db)) (campaigns db)
               (user_segments db) (user_events db) (conversions db)).

Definition insert_campaign (db : database) (row : Z * Campaign.t) : option database :=
  if decide (is_Some (campaigns db !! row.1)) then None
  else if decide (references (channels db) (Campaign.channel_id row.2)) then
    Some (mk_database (channels db) (segments db) (<[row.1 := row.2]> (campaigns db))
            (user_segments db) (user_events db) (conversions db))
  else None.

Definition insert_user_segment (db : database) (row : string * Z) : option database :=
  if decide (row ∈ user_segments db) then None
  else if decide (is_Some (segments db !! row.2)) then
    Some (mk_database (channels db) (segments db) (campaigns db)
            ({[ row ]} ∪ user_segments db) (user_events db) (conversions db))
  else None.

Definition insert_user_event (db : database) (e : UserEvent.t) : option database :=
  if decide (UserEvent.id e ∈ (UserEvent.id <$> user_events db)) then None
  else if decide (references (campaigns db) (UserEvent.campaign_id e)
                  ∧ references (channels db) (UserEvent.channel_id e)) then
    Some (add_event e db)
  else None.

Definition insert_conversion (db : database) (c : Conversion.t) : option database :=
  if decide (Conversion.id c ∈ (Conversion.id <$> conversions db)) then None
  else if decide (references (campaigns db) (Conversion.campaign_id c)
                  ∧ references (channels db) (Conversion.channel_id c)) then
    Some (add_conversion c db)
  else None.

(** One transaction that inserts the rows one after the other. *)
Definition transaction {A : Type} (insert : database → A → option database)
    (rows : list A) (db : database) : option database :=
  foldl (λ state row, state ≫= λ db, insert db row) (Some db) rows.

Definition insert_channels_data := transaction insert_channel.
Definition insert_segments_data := transaction insert_segment.
Definition insert_campaigns_data := transaction insert_campaign.
Definition insert_user_segments_data := transaction insert_user_segment.
Definition insert_user_events_data := transaction insert_user_event.
Definition insert_conversions_data := transaction insert_conversion.

(** What main generates before it inserts it. *)
Record data := mk_data {
  d_channels : list (Z * Channel.t);
  d_segments : list (Z * Segment.t);
  d_campaigns : list (Z * Campaign.t);
  d_user_segments : list (string * Z);
  d_events : list UserEvent.t;
  d_conversions : list Conversion.t }.

(** main: the tables are created empty and filled, then the views are
    created. *)
Definition main (d : data) : option (database * Views.t) :=
  db ← insert_channels_data (d_channels d) create_tables;
  db ← insert_segments_data (d_segments d) db;
  db ← insert_campaigns_data (d_campaigns d) db;
  db ← insert_user_segments_data (d_user_segments d) db;
  db ← insert_user_events_data (d_events d) db;
  db ← insert_conversions_data (d_conversions d) db;
  Some (db, (Views.create_materialized_views db).1).

(** The constraints between the rows of a database. *)
Definition integrity (db : database) : Prop :=
  map_Forall (λ _ ca, references (channels db) (Campaign.channel_id ca)) (campaigns db)
  ∧ set_Forall (λ us : string * Z, is_Some (segments db !! us.2)) (user_segments db)
  ∧ Forall (λ e, references (campaigns db) (UserEvent.campaign_id e)
                 ∧ references (channels db) (UserEvent.channel_id e)) (user_events db)
  ∧ Forall (λ c, references (campaigns db) (Conversion.campaign_id c)
                 ∧ references (channels db) (Conversion.channel_id c)) (conversions db)
  ∧ NoDup (UserEvent.id <$> user_events db)
  ∧ NoDup (Conversion.id <$> conversions db).

(** The reference data of the samples, and a batch of two events of which
    the second names a campaign that does not exist. *)
Definition sample_data (events : list UserEvent.t) : data :=
  mk_data [(1, Sample.facebook)] [(1, Sample.new_visitors)] [(1, Sample.spring 300)]
    [("u1"%string, 1)] events [].

Definition with_stray : list UserEvent.t :=
  [Sample.event 1 "u1" "click" 100 (Some 1) (Some 1); Sample.stray].

End Generator.

(** ** The daily archive of marketing_etl_dag.py *)

Module DagArchive.

(** The tables of the schema [archive], by the day their name ends in:
    archive.daily_events_<day> and archive.daily_conversions_<day>. *)
Record archive := mk_archive {
  daily_events : gmap Z (list UserEvent.t);
  daily_conversions : gmap Z (list Conversion.t) }.

(** CREATE TABLE IF NOT EXISTS <name> AS SELECT ...: the rows of the query
    are stored when there is no table of that name, and nothing is done
    otherwise. *)
Definition create_table_if_not_exists_as {T : Type} (tables : gmap Z T) (name : Z)
    (query : T) : gmap Z T :=
  match tables !! name with
  | Some _ => tables
  | None => <[name := query]> tables
  end.

(** archive_daily_data: the snapshots of the day before [execution_date]. The
    function returns the message "Daily data archived for <yesterday>"; the
    model returns the day that the message names. *)
Definition archive_daily_data (execution_date : Z) (db : database) (a : archive)
    : archive * Z :=
  let yesterday := DATE (execution_date - 86400) in
  (mk_archive
     (create_table_if_not_exists_as (daily_events a) yesterday
        (filter (λ e, DATE (UserEvent.timestamp e) = yesterday) (user_events db)))
     (create_table_if_not_exists_as (daily_conversions a) yesterday
        (filter (λ c, DATE (Conversion.timestamp c) = yesterday) (conversions db))),
   yesterday).

End DagArchive.

(** ** The hourly runs of a period *)

Module DagRuns.

(** The key columns of a row of the transformed frame. *)
Definition bucket_columns (b : Dag.bucket) : option (Z * Z * Z * Z * string) :=
  ca ← Dag.b_campaign_id b;
  ch ← Dag.b_channel_id b;
  Some (ca, ch, Dag.b_event_date b, Dag.b_event_hour b, Dag.b_event_name b).

(** The events of a batch that have the key [k], and the row that counts
    them. *)
Definition events_of (df : list UserEvent.t) (k : Z * Z * Z * Z * string)
    : list UserEvent.t :=
  filter (λ e, Dag.bucket_key e = Some k) df.

Definition bucket_of (df : list UserEvent.t) (k : Z * Z * Z * Z * string) : Dag.bucket :=
  let '(ca, ch, d, h, n) := k in
  Dag.mk_bucket (Some ca) (Some ch) d h n
    (count_distinct (omap (λ e, Dag.read_field (UserEvent.user_id e)) (events_of df k)))
    (Z.of_nat (length (events_of df k))).

(** The key of an event with the name as the table holds it. *)
Definition table_key (e : UserEvent.t) : option (Z * Z * Z * Z * string) :=
  ca ← UserEvent.campaign_id e;
  ch ← UserEvent.channel_id e;
  Some (ca, ch, DATE (UserEvent.timestamp e), HOUR (UserEvent.timestamp e),
        UserEvent.name e).

(** A batch whose names and users read_csv hands back as they are. *)
Definition textual_batch (df : list UserEvent.t) : Prop :=
  Forall (λ e, Dag.textual (UserEvent.name e) ∧ Dag.textual (UserEvent.user_id e)) df.

#[global] Instance textual_batch_dec df : Decision (textual_batch df).
Proof. unfold textual_batch. apply _. Defined.

(** The execution dates of [n] consecutive hourly runs, the first of which
    covers the hour that starts at [t0]. *)
Definition execution_dates (t0 : Z) (n : nat) : list Z :=
  (λ k, t0 + 3600 * k) <$> seqZ 1 (Z.of_nat n).

(** The runs of the DAG marketing_etl_hourly at the given execution dates,
    one after the other, over the same source events. [now] gives the time of
    the load of each run. *)
Definition run_slices (now : Z → Z) (events : list UserEvent.t)
    (execution_dates : list Z) (t : option Dag.hourly_events) : option Dag.hourly_events :=
  foldl (λ t execution_date, Dag.run_slice execution_date (now execution_date) events t)
        t execution_dates.

(** The loads of a sequence of transformed frames. *)
Definition loads (frames : list (Z * list Dag.bucket)) (t : option Dag.hourly_events)
    : option Dag.hourly_events :=
  foldl (λ t f, (Dag.load_events_data f.1 f.2 t).1) t frames.

End DagRuns.

(** ** The other endpoints of app/api/main.py

    The object-relational classes of app/models/database.py name the key of
    a table [channel_id], [campaign_id], [segment_id]; a row is the key with
    the remaining columns. What FastAPI does with a returned value (the
    conversion to the response model) is not part of the functions. *)

Module MainApi.

Record HTTPException := mk_HTTPException { status_code : Z; detail : string }.

(** [db.query(T)], [.all()] and [.first()] *)
Definition query {T : Type} (tbl : gmap Z T) : list (Z * T) := map_to_list tbl.
Definition all {A : Type} (q : list A) : list A := q.
Definition first {A : Type} (q : list A) : option A := head q.

(** GET /channels/ *)
Definition get_channels (db : database) : list (Z * Channel.t) :=
  all (query (channels db)).

(** GET /channels/{channel_id} *)
Definition get_channel (channel_id : Z) (db : database) : HTTPException + (Z * Channel.t) :=
  match first (filter (λ r, r.1 = channel_id) (query (channels db))) with
  | None => inl (mk_HTTPException 404 "Channel not found")
  | Some channel => inr channel
  end.

(** GET /campaigns/ *)
Definition get_campaigns (channel_id : option Z) (db : database) : list (Z * Campaign.t) :=
  let query_ := query (campaigns db) in
  let query_ :=
    if decide (id_given channel_id)
    then filter (λ r, Campaign.channel_id r.2 = channel_id) query_
    else query_ in
  all query_.

(** GET /campaigns/{campaign_id} *)
Definition get_campaign (campaign_id : Z) (db : database)
    : HTTPException + (Z * Campaign.t) :=
  match first (filter (λ r, r.1 = campaign_id) (query (campaigns db))) with
  | None => inl (mk_HTTPException 404 "Campaign not found")
  | Some campaign => inr campaign
  end.

(** GET /segments/ *)
Definition get_segments (db : database) : list (Z * Segment.t) :=
  all (query (segments db)).

(** GET /segments/{segment_id} *)
Definition get_segment (segment_id : Z) (db : database) : HTTPException + (Z * Segment.t) :=
  match first (filter (λ r, r.1 = segment_id) (query (segments db))) with
  | None => inl (mk_HTTPException 404 "Segment not found")
  | Some segment => inr segment
  end.

(** [metrics[k]]: a KeyError when the key is absent, which is [None] here. *)
Definition item {V : Type} (metrics : gmap string V) (k : string) : option V := metrics !! k.

(** GET /metrics/campaigns/ *)
Definition get_campaign_metrics {V : Type} (today : Z) (sv : stored_views V)
    (start_date end_date channel_id : option Z) : option (gmap string (metric_value V)) :=
  let start_date := default (today - 30) start_date in
  let end_date := default today end_date in
  let metrics := Database.get_metrics sv start_date end_date channel_id None in
  campaign_performance ← item metrics "campaign_performance";
  Some {[ "campaign_performance"%string := campaign_performance ]}.

(** GET /metrics/channels/ *)
Definition get_channel_metrics {V : Type} (today : Z) (sv : stored_views V)
    (start_date end_date channel_id : option Z) : option (gmap string (metric_value V)) :=
  let start_date := default (today - 30) start_date in
  let end_date := default today end_date in
  let metrics := Database.get_metrics sv start_date end_date channel_id None in
  channel_performance ← item metrics "channel_performance";
  channel_roas ← item metrics "channel_roas";
  Some (<["channel_performance"%string := channel_performance]>
        {[ "channel_roas"%string := channel_roas ]}).

(** GET /metrics/segments/ *)
Definition get_segment_metrics {V : Type} (today : Z) (sv : stored_views V)
    (start_date end_date segment_id : option Z) : option (gmap string (metric_value V)) :=
  let start_date := default (today - 30) start_date in
  let end_date := default today end_date in
  let metrics := Database.get_metrics sv start_date end_date None segment_id in
  segment_performance ← item metrics "segment_performance";
  segment_cac ← item metrics "segment_cac";
  Some (<["segment_performance"%string := segment_performance]>
        {[ "segment_cac"%string := segment_cac ]}).

End MainApi.

(** ** The other endpoints of app/api/mock_server.py

    The queries name the columns as create_tables does; a result row is
    turned into a dictionary, which holds the key and the columns of the
    row. *)

Module MockApi.

(** GET /channels/ *)
Definition get_channels (db : database) : list (Z * Channel.t) :=
  map_to_list (channels db).

(** GET /segments/ *)
Definition get_segments (db : database) : list (Z * Segment.t) :=
  map_to_list (segments db).

(** GET /campaigns/ : " WHERE channel_id = <id>" is added for an id that
    is given and not 0. *)
Definition get_campaigns (channel_id : option Z) (db : database) : list (Z * Campaign.t) :=
  if decide (id_given channel_id)
  then filter (λ r, Campaign.channel_id r.2 = channel_id) (map_to_list (campaigns db))
  else map_to_list (campaigns db).

End MockApi.

(** ** The performance rows stated directly on the facts *)

Module DailyFacts.

(** The events of day [d] on channel [ch]. *)
Definition channel_day_events (db : database) (d ch : Z) : list UserEvent.t :=
  filter (λ e, DATE (UserEvent.timestamp e) = d ∧ UserEvent.channel_id e = Some ch)
         (user_events db).

(** The row of a day and a channel: the events, their distinct users, the
    clicks and the impressions among them, and the clicks per impression. *)
Definition channel_row (db : database) (d ch : Z) (c : Channel.t) : ChannelPerf.row :=
  let evs := channel_day_events db d ch in
  let clicks := Z.of_nat (length (filter (λ e, UserEvent.name e = "click"%string) evs)) in
  let impressions :=
    Z.of_nat (length (filter (λ e, UserEvent.name e = "impression"%string) evs)) in
  ChannelPerf.mk d ch (Channel.name c) (Z.of_nat (length evs))
    (Z.of_nat (length (remove_dups (UserEvent.user_id <$> evs))))
    clicks impressions
    (if decide (0 < impressions) then (Qc_of_Z clicks / Qc_of_Z impressions)%Qc else 0%Qc).

(** The conversions of day [d] by the users of segment [s]. *)
Definition segment_day_conversions (db : database) (d s : Z) : list Conversion.t :=
  filter (λ c, DATE (Conversion.timestamp c) = d ∧ Facts.member db (Conversion.user_id c) s)
         (conversions db).

(** The row of a day and a segment: the distinct converting users of the
    segment, the value of their conversions, and the value per user. *)
Definition segment_row (db : database) (d s : Z) (sg : Segment.t) : SegmentPerf.row :=
  let cs := segment_day_conversions db d s in
  let n := Z.of_nat (length (remove_dups (Conversion.user_id <$> cs))) in
  let total := Qc_sum (Conversion.value <$> cs) in
  SegmentPerf.mk d s (Segment.name sg) n total (total / Qc_of_Z n)%Qc.

(** The row of a day and a campaign. *)
Definition campaign_row (db : database) (d cid : Z) (ca : Campaign.t) (chid : Z)
    (ch : Channel.t) : CampaignPerf.row :=
  let cs := Facts.day_conversions db d cid in
  let n := Z.of_nat (length (remove_dups (Conversion.user_id <$> cs))) in
  let total := Qc_sum (Conversion.value <$> cs) in
  CampaignPerf.mk d cid (Campaign.name ca) chid (Channel.name ch) n total
    (total / Qc_of_Z n)%Qc.

(** The conversions that the campaign view counts: their campaign exists and
    runs on a channel that exists. *)
Definition attributed (db : database) (c : Conversion.t) : Prop :=
  ∃ ca ch, join_pk (campaigns db) (Conversion.campaign_id c) = Some ca
           ∧ join_pk (channels db) (Campaign.channel_id ca.2) = Some ch.

#[global] Instance attributed_dec db c : Decision (attributed db c).
Proof.
  unfold attributed.
  destruct (join_pk (campaigns db) (Conversion.campaign_id c)) as [ca|].
  - destruct (join_pk (channels db) (Campaign.channel_id ca.2)) as [ch|] eqn:E.
    + left. eauto.
    + right. intros (ca' & ch' & [= <-] & Hch). congruence.
  - right. intros (ca' & ch' & Hca & _). congruence.
Defined.

(** The events that the channel view counts: their channel exists. *)
Definition on_a_channel (db : database) (e : UserEvent.t) : Prop :=
  is_Some (join_pk (channels db) (UserEvent.channel_id e)).

(** The segments of a user that exist. *)
Definition known_segments (db : database) (u : string) : list Z :=
  filter (λ s, is_Some (segments db !! s)) (segments_of db u).

End DailyFacts.

(** ** The dashboard of app/frontend/index.py

    The callbacks work on the JSON document of a metrics response. The
    model takes the documents whose fields are among the six fields of a
    response, each present or not; the cac of a segment_cac row and the roas
    of a channel_roas row may be null. The counts and the amounts of the
    other rows are never null in the views, so that the tests [is not None]
    on them always pass. A callback that raises a KeyError has no result.
    Of a figure the model keeps the data it plots; the layout and the colours
    are left out. *)

Module Frontend.

Record document := mk_document {
  d_campaign_performance : option (list CampaignPerf.row);
  d_channel_performance : option (list ChannelPerf.row);
  d_segment_performance : option (list SegmentPerf.row);
  d_segment_cac : option (list (SegmentCac.row (option Qc)));
  d_channel_roas : option (list (ChannelRoas.row (option Qc)));
  d_kpi_summary : option Kpi.t }.

(** The empty dictionary, which get_api_data returns when the request
    fails. *)
Definition no_fields : document := mk_document None None None None None None.

(** The JSON document of a response of a server. *)
Definition encode_cac (r : SegmentCac.row Qc) : SegmentCac.row (option Qc) :=
  SegmentCac.mk (SegmentCac.date r) (SegmentCac.segment_id r) (SegmentCac.segment_name r)
    (Some (SegmentCac.cac r)).

Definition encode_roas (r : ChannelRoas.row Qc) : ChannelRoas.row (option Qc) :=
  ChannelRoas.mk (ChannelRoas.date r) (ChannelRoas.channel_id r) (ChannelRoas.channel_name r)
    (Some (ChannelRoas.roas r)).

Definition json {V : Type} (cac : SegmentCac.row V → SegmentCac.row (option Qc))
    (roas : ChannelRoas.row V → ChannelRoas.row (option Qc))
    (m : gmap string (metric_value V)) : document :=
  mk_document
    (match m !! "campaign_performance"%string with
     | Some (CampaignRows l) => Some l | _ => None end)
    (match m !! "channel_performance"%string with
     | Some (ChannelRows l) => Some l | _ => None end)
    (match m !! "segment_performance"%string with
     | Some (SegmentRows l) => Some l | _ => None end)
    (match m !! "segment_cac"%string with
     | Some (CacRows l) => Some (cac <$> l) | _ => None end)
    (match m !! "channel_roas"%string with
     | Some (RoasRows l) => Some (roas <$> l) | _ => None end)
    (match m !! "kpi_summary"%string with
     | Some (KpiSummary k) => Some k | _ => None end).

(** [not data]: no document, or a document without fields. *)
Definition not_ (data : option document) : Prop :=
  data = None ∨ data = Some no_fields.

#[global] Instance document_eq_dec : EqDecision document.
Proof. solve_decision. Defined.

#[global] Instance not_dec data : Decision (not_ data).
Proof. unfold not_. apply _. Defined.

(** [data.get(field)]: the list of the field, and nothing when the field is
    absent; both an absent field and an empty list are falsy. *)
Definition get {A : Type} (field : document → option (list A)) (data : option document)
    : list A :=
  default [] (data ≫= field).

(** [data[field]]: a KeyError when the field is absent. *)
Definition item {A : Type} (field : document → option (list A)) (data : option document)
    : option (list A) :=
  data ≫= field.

(** f"{x:.<d>f}": the sign, the whole part and [d] digits after the point,
    of the value rounded to [d] decimals, a tie going to the even digit. *)
Fixpoint zeros (n : nat) : string :=
  match n with
  | O => ""
  | S n => "0" +:+ zeros n
  end.

Definition format_f (d : nat) (x : Qc) : string :=
  let n := Z.abs (MockServer.round_half_even (x * Qc_of_Z (10 ^ Z.of_nat d))) in
  let whole := pretty (n `div` 10 ^ Z.of_nat d) in
  let digits := pretty (n `mod` 10 ^ Z.of_nat d) in
  (if decide (x < 0)%Qc then "-" else "")
  +:+ whole +:+ "." +:+ zeros (d - String.length digits) +:+ digits.

(** sum(values) / len(values) if values else 0 *)
Definition average (values : list Qc) : Qc :=
  match values with
  | [] => 0%Qc
  | _ => (Qc_sum values / Qc_of_Z (Z.of_nat (length values)))%Qc
  end.

(** update_kpi_metrics: the texts of the four cards. *)
Definition update_kpi_metrics (data : option document)
    : option (string * string * string * string) :=
  if decide (not_ data ∨ get d_segment_cac data = [] ∨ get d_channel_roas data = [])
  then Some ("$0.00", "$0.00", "0.0x", "0.0%")%string
  else
    (* Calculate average CAC *)
    segment_cac ← item d_segment_cac data;
    let cac_values := omap SegmentCac.cac segment_cac in
    let avg_cac := average cac_values in
    (* Calculate CLV *)
    segment_performance ← item d_segment_performance data;
    let avg_conversion_values := SegmentPerf.avg_conversion_value <$> segment_performance in
    let avg_clv := (Qc_of_Z 3 * average avg_conversion_values)%Qc in
    (* Calculate average ROAS *)
    channel_roas ← item d_channel_roas data;
    let roas_values := omap ChannelRoas.roas channel_roas in
    let avg_roas := average roas_values in
    (* Calculate conversion rate *)
    conversion_rate ←
      match get d_channel_performance data with
      | [] => Some 0%Qc
      | channel_performance =>
        let total_clicks := Z_sum (ChannelPerf.clicks <$> channel_performance) in
        campaign_performance ← item d_campaign_performance data;
        let total_conversions :=
          Z_sum (CampaignPerf.conversions <$> campaign_performance) in
        Some (if decide (0 < total_clicks)
              then (Qc_of_Z total_conversions / Qc_of_Z total_clicks * Qc_of_Z 100)%Qc
              else 0%Qc)
      end;
    Some ("$" +:+ format_f 2 avg_cac, "$" +:+ format_f 2 avg_clv,
          format_f 1 avg_roas +:+ "x", format_f 1 conversion_rate +:+ "%")%string.

(** A dictionary keeps its keys in the order in which they were first set.
    [upsert k init f d] is [if k not in d: d[k] = init] followed by
    [d[k] = f(d[k])]. *)
Fixpoint upsert {V : Type} (k : string) (init : V) (f : V → V) (d : list (string * V))
    : list (string * V) :=
  match d with
  | [] => [(k, f init)]
  | (k', v) :: d' =>
    if decide (k' = k) then (k', f v) :: d' else (k', v) :: upsert k init f d'
  end.

(** The dictionary that a loop of upserts over the rows builds. *)
Definition tally {A V : Type} (key : A → string) (init : A → V) (f : A → V → V)
    (rows : list A) : list (string * V) :=
  foldl (λ d r, upsert (key r) (init r) (f r) d) [] rows.

(** [d[k] = f(d[k])] for a key that is in the dictionary, nothing otherwise. *)
Fixpoint update {V : Type} (k : string) (f : V → V) (d : list (string * V))
    : list (string * V) :=
  match d with
  | [] => []
  | (k', v) :: d' =>
    if decide (k' = k) then (k', f v) :: d' else (k', v) :: update k f d'
  end.

(** update_channel_performance: the bars of the clicks and the line of the
    click-through rates, in per cent, by channel name. [None] is the empty
    figure. *)
Record channel_figure := mk_channel_figure {
  cf_channel_names : list string;
  cf_clicks : list Z;
  cf_ctrs : list Qc }.

Definition channel_totals (channel_data : list ChannelPerf.row) : list (string * (Z * Z)) :=
  foldl (λ channels item,
           upsert (ChannelPerf.channel_name item) (0, 0)
             (λ v, (v.1 + ChannelPerf.clicks item, v.2 + ChannelPerf.impressions item))
             channels)
        [] channel_data.

Definition update_channel_performance (data : option document) : option channel_figure :=
  if decide (not_ data ∨ get d_channel_performance data = []) then None
  else
    let channel_data := get d_channel_performance data in
    let channels := channel_totals channel_data in
    Some (mk_channel_figure channels.*1 ((λ c, c.2.1) <$> channels)
            ((λ c, if decide (0 < c.2.2)
                   then (Qc_of_Z c.2.1 / Qc_of_Z c.2.2 * Qc_of_Z 100)%Qc else 0%Qc)
               <$> channels)).

(** update_segment_performance: the bars of the conversions and the line of
    the average cost per acquisition, by segment name. *)
Record segment_entry := mk_segment_entry {
  se_conversions : Z;
  se_total_value : Qc;
  se_segment_id : Z;
  se_cac : option (Qc * Z) }.

Record segment_figure := mk_segment_figure {
  sf_segment_names : list string;
  sf_conversions : list Z;
  sf_segment_ids : list Z;
  sf_avg_cacs : list Qc }.

Definition segment_totals (segment_performance : list SegmentPerf.row)
    : list (string * segment_entry) :=
  foldl (λ segments item,
           upsert (SegmentPerf.segment_name item)
             (mk_segment_entry 0 0%Qc (SegmentPerf.segment_id item) None)
             (λ s, mk_segment_entry
                     (se_conversions s + SegmentPerf.conversions item)
                     (se_total_value s + SegmentPerf.total_conversion_value item)%Qc
                     (se_segment_id s) (se_cac s))
             segments)
        [] segment_performance.

(** The cost of a row goes into the entry of its segment: the sum and the
    count are set to 0 first when the entry has none, and a cost that is null
    is not counted. *)
Definition add_cost (item : SegmentCac.row (option Qc)) (s : segment_entry)
    : segment_entry :=
  let '(cac, cac_count) := default (0%Qc, 0) (se_cac s) in
  mk_segment_entry (se_conversions s) (se_total_value s) (se_segment_id s)
    (Some (match SegmentCac.cac item with
           | Some c => ((cac + c)%Qc, cac_count + 1)
           | None => (cac, cac_count)
           end)).

Definition add_cac (segments : list (string * segment_entry))
    (segment_cac : list (SegmentCac.row (option Qc))) : list (string * segment_entry) :=
  foldl (λ segments item, update (SegmentCac.segment_name item) (add_cost item) segments)
        segments segment_cac.

Definition avg_cac (s : segment_entry) : Qc :=
  match se_cac s with
  | Some (cac, cac_count) =>
    if decide (0 < cac_count) then (cac / Qc_of_Z cac_count)%Qc else 0%Qc
  | None => 0%Qc
  end.

Definition update_segment_performance (data : option document) : option segment_figure :=
  if decide (not_ data ∨ get d_segment_performance data = []
             ∨ get d_segment_cac data = [])
  then None
  else
    let segments :=
      add_cac (segment_totals (get d_segment_performance data)) (get d_segment_cac data) in
    Some (mk_segment_figure segments.*1 ((λ s, se_conversions s.2) <$> segments)
            ((λ s, se_segment_id s.2) <$> segments) ((λ s, avg_cac s.2) <$> segments)).

(** update_campaign_performance: one bar for every campaign name, from the
    highest total value to the lowest; the sort keeps the bars of equal value
    in the order of the dictionary. *)
Record campaign_entry := mk_campaign_entry {
  ce_conversions : Z;
  ce_total_value : Qc;
  ce_campaign_id : Z;
  ce_channel_name : string }.

Record campaign_bar := mk_campaign_bar {
  cb_campaign : string;
  cb_value : Qc;
  cb_channel : string;
  cb_campaign_id : Z;
  cb_conversions : Z }.

Definition campaign_totals (campaign_data : list CampaignPerf.row)
    : list (string * campaign_entry) :=
  foldl (λ campaigns item,
           upsert (CampaignPerf.campaign_name item)
             (mk_campaign_entry 0 0%Qc (CampaignPerf.campaign_id item)
                (CampaignPerf.channel_name item))
             (λ c, mk_campaign_entry
                     (ce_conversions c + CampaignPerf.conversions item)
                     (ce_total_value c + CampaignPerf.total_conversion_value item)%Qc
                     (ce_campaign_id c) (ce_channel_name c))
             campaigns)
        [] campaign_data.

(** sorted(l, key, reverse): a stable sort. [before] tells that an element
    must come before another one; an element goes past the elements that must
    come before it, and stops at the first one that need not. *)
Fixpoint insert_stable {A : Type} (before : A → A → Prop) `{∀ x y, Decision (before x y)}
    (x : A) (l : list A) : list A :=
  match l with
  | [] => [x]
  | y :: l' => if decide (before y x) then y :: insert_stable before x l' else x :: l
  end.

Definition sorted_stable {A : Type} (before : A → A → Prop)
    `{∀ x y, Decision (before x y)} (l : list A) : list A :=
  foldr (insert_stable before) [] l.

(** key=lambda x: x[1]['total_value'], reverse=True *)
Definition higher_value (c1 c2 : string * campaign_entry) : Prop :=
  (ce_total_value c2.2 < ce_total_value c1.2)%Qc.

#[global] Instance higher_value_dec c1 c2 : Decision (higher_value c1 c2).
Proof. unfold higher_value. apply _. Defined.

(** key=lambda x: x['date'] *)
Definition earlier (r1 r2 : CampaignPerf.row) : Prop :=
  CampaignPerf.date r1 < CampaignPerf.date r2.

#[global] Instance earlier_dec r1 r2 : Decision (earlier r1 r2).
Proof. unfold earlier. apply _. Defined.

Definition update_campaign_performance (data : option document)
    : option (list campaign_bar) :=
  if decide (not_ data ∨ get d_campaign_performance data = []) then None
  else
    let campaigns := campaign_totals (get d_campaign_performance data) in
    let sorted_campaigns :=
      sorted_stable higher_value campaigns in
    Some ((λ c : string * campaign_entry,
             mk_campaign_bar c.1 (ce_total_value c.2) (ce_channel_name c.2)
               (ce_campaign_id c.2) (ce_conversions c.2)) <$> sorted_campaigns).

(** display_campaign_details: the click carries the campaign id and the
    campaign name of the bar; the details are the rows of that campaign id by
    date. [Some None] is the hidden card. *)
Record campaign_details := mk_campaign_details {
  cd_header : string;
  cd_dates : list Z;
  cd_values : list Qc;
  cd_conversions : list Z }.

Definition display_campaign_details (clickData : option (Z * string))
    (data : option document) : option (option campaign_details) :=
  match clickData with
  | None => Some None
  | Some (campaign_id, campaign_name) =>
    if decide (not_ data) then Some None
    else
      campaign_performance ← item d_campaign_performance data;
      let campaign_data :=
        filter (λ item, CampaignPerf.campaign_id item = campaign_id) campaign_performance in
      match campaign_data with
      | [] => Some None
      | _ =>
        let campaign_data := sorted_stable earlier campaign_data in
        Some (Some (mk_campaign_details ("Campaign Details: " +:+ campaign_name)
                      (CampaignPerf.date <$> campaign_data)
                      (CampaignPerf.total_conversion_value <$> campaign_data)
                      (CampaignPerf.conversions <$> campaign_data)))
      end
  end.

(** The click on a bar of the campaign figure. *)
Definition click (b : campaign_bar) : option (Z * string) :=
  Some (cb_campaign_id b, cb_campaign b).

#[global] Instance channel_figure_eq_dec : EqDecision channel_figure.
Proof. solve_decision. Defined.
#[global] Instance segment_entry_eq_dec : EqDecision segment_entry.
Proof. solve_decision. Defined.
#[global] Instance segment_figure_eq_dec : EqDecision segment_figure.
Proof. solve_decision. Defined.
#[global] Instance campaign_entry_eq_dec : EqDecision campaign_entry.
Proof. solve_decision. Defined.
#[global] Instance campaign_bar_eq_dec : EqDecision campaign_bar.
Proof. solve_decision. Defined.
#[global] Instance campaign_details_eq_dec : EqDecision campaign_details.
Proof. solve_decision. Defined.

(** The document of the response of the mock server for the days 0 and 1,
    over the views of a campaign with a conversion on each of the two days
    and a click on the first. *)
Definition sample_database : database :=
  Sample.reference [Sample.event 1 "u1" "impression" 100 (Some 1) (Some 1);
                    Sample.event 2 "u1" "click" 200 (Some 1) (Some 1)]
    [Conversion.mk 1 "u1" "purchase" (Qc_of_Z 50) (Some 1) (Some 1) 86500;
     Conversion.mk 2 "u1" "purchase" (Qc_of_Z 70) (Some 1) (Some 1) 400].

Definition sample_document : document :=
  json encode_cac encode_roas
    (MockServer.get_metrics 1 []
       (MockServer.stored (Views.create_materialized_views sample_database).1)
       (Some 0) (Some 1) None None).1.

End Frontend.

(** ** Tactics *)

(** Closed goals about sample data are settled by evaluation. *)
Ltac by_evaluation :=
  match goal with |- ?P => apply (bool_decide_unpack P); vm_compute; exact I end.
Ltac refute_by_evaluation :=
  match goal with
  | |- ¬ ?P => let H := fresh in intros H; apply (bool_decide_pack P) in H;
               vm_compute in H; exact H
  | |- ?x ≠ ?y => let H := fresh in intros H; apply (bool_decide_pack (x = y)) in H;
               vm_compute in H; exact H
  end.

(** * Properties of the relational operators *)

Section group_by_facts.
Context {K V : Type} `{EqDecision K} (key : V → K).

Lemma group_by_keys (rows : list V) :
  (group_by key rows).*1 = remove_dups (key <$> rows).
Proof.
  unfold group_by. rewrite <- list_fmap_compose.
  induction (remove_dups (key <$> rows)) as [|k ks IH]; simpl; [done|by f_equal].
Qed.

Lemma group_by_NoDup (rows : list V) : NoDup (group_by key rows).*1.
Proof. rewrite group_by_keys. apply NoDup_remove_dups. Qed.

Lemma elem_of_group_by (rows : list V) k g :
  (k, g) ∈ group_by key rows ↔
  g = filter (λ r, key r = k) rows ∧ ∃ r, r ∈ rows ∧ key r = k.
Proof.
  unfold group_by. rewrite list_elem_of_fmap. split.
  - intros (k' & [= -> ->] & Hk). split; [done|].
    apply elem_of_remove_dups, list_elem_of_fmap in Hk as (r & -> & Hr). eauto.
  - intros (-> & r & Hr & <-). exists (key r). split; [done|].
    apply elem_of_remove_dups, list_elem_of_fmap. eauto.
Qed.

Lemma group_by_nonempty (rows : list V) k g : (k, g) ∈ group_by key rows → g ≠ [].
Proof.
  intros (-> & r & Hr & <-)%elem_of_group_by Hnil.
  assert (r ∈ filter (λ r', key r' = key r) rows) as Hin by (by apply list_elem_of_filter).
  rewrite Hnil in Hin. by apply not_elem_of_nil in Hin.
Qed.

Lemma partition_by_keys (ks : list K) (rows : list V) :
  NoDup ks → (∀ r, r ∈ rows → key r ∈ ks) →
  concat ((λ k, filter (λ r, key r = k) rows) <$> ks) ≡ₚ rows.
Proof.
  intros Hnd. revert rows. induction Hnd as [|k ks Hk Hnd IH]; intros rows Hcov; simpl.
  - destruct rows as [|r rows]; [done|].
    specialize (Hcov r ltac:(left)). by apply not_elem_of_nil in Hcov.
  - trans (filter (λ r, key r = k) rows ++ filter (λ r, ¬ key r = k) rows);
      [|apply filter_app_complement].
    apply Permutation_app; [done|].
    etrans; [|apply (IH (filter (λ r, ¬ key r = k) rows))].
    + apply reflexive_eq. f_equal. apply list_fmap_ext.
      intros i k' Hk'%list_elem_of_lookup_2.
      rewrite list_filter_filter. apply list_filter_iff. intros r. split; [|tauto].
      intros Hr. split; [done|]. congruence.
    + intros r [Hne Hr]%list_elem_of_filter.
      specialize (Hcov r Hr). apply elem_of_cons in Hcov as [?|?]; [done|done].
Qed.

Lemma group_by_partition (rows : list V) :
  concat (group_by key rows).*2 ≡ₚ rows.
Proof.
  unfold group_by. rewrite <- list_fmap_compose.
  apply partition_by_keys; [apply NoDup_remove_dups|].
  intros r Hr. apply elem_of_remove_dups, list_elem_of_fmap. eauto.
Qed.

(** The groups whose key satisfies [P] partition the rows whose key does. *)
Lemma group_by_partition_filter (P : K → Prop)
    `{HK : ∀ kg : K * list V, Decision (P kg.1)} `{HV : ∀ r, Decision (P (key r))}
    (rows : list V) :
  concat (filter (λ kg, P kg.1) (group_by key rows)).*2
  ≡ₚ filter (λ r, P (key r)) rows.
Proof.
  assert (∀ k, Decision (P k)) as HP.
  { intros k. destruct (HK (k, [])) as [Hk|Hk]; [by left|by right]. }
  unfold group_by.
  set (ks := remove_dups (key <$> rows)).
  assert (filter (λ kg : K * list V, P kg.1)
            ((λ k, (k, filter (λ r, key r = k) rows)) <$> ks)
          = (λ k, (k, filter (λ r, key r = k) rows)) <$> filter P ks) as ->.
  { induction ks as [|k ks IH]; [done|]. rewrite fmap_cons, !filter_cons. simpl.
    repeat case_decide; simpl in *; rewrite ?IH; (done || tauto). }

  rewrite <- list_fmap_compose.
  etrans; [|apply (partition_by_keys (filter P ks) (filter (λ r, P (key r)) rows))].
  - apply reflexive_eq. f_equal. apply list_fmap_ext.
    intros i k [Hk _]%list_elem_of_lookup_2%list_elem_of_filter. simpl.
    rewrite list_filter_filter. apply list_filter_iff. intros r. split; [|tauto].
    intros <-. done.
  - apply NoDup_filter, NoDup_remove_dups.
  - intros r [Hp Hr]%list_elem_of_filter. apply list_elem_of_filter. split; [done|].
    apply elem_of_remove_dups, list_elem_of_fmap. eauto.
Qed.
End group_by_facts.

Lemma Qc_sum_cons x l : Qc_sum (x :: l) = (x + Qc_sum l)%Qc.
Proof. done. Qed.

Lemma Qc_sum_app l1 l2 : Qc_sum (l1 ++ l2) = (Qc_sum l1 + Qc_sum l2)%Qc.
Proof. induction l1 as [|x l1 IH]; simpl; [ring|]. rewrite IH. ring. Qed.

Lemma Qc_sum_Permutation l1 l2 : l1 ≡ₚ l2 → Qc_sum l1 = Qc_sum l2.
Proof.
  induction 1; simpl; [done| congruence | ring | congruence].
Qed.

Lemma Qc_sum_concat {A} (f : A → Qc) (ls : list (list A)) :
  Qc_sum (f <$> concat ls) = Qc_sum ((λ l, Qc_sum (f <$> l)) <$> ls).
Proof.
  induction ls as [|l ls IH]; simpl; [done|].
  rewrite fmap_app, Qc_sum_app, IH. done.
Qed.

Lemma Qc_sum_div (l : list Qc) (c : Qc) :
  Qc_sum ((λ x, x / c)%Qc <$> l) = (Qc_sum l / c)%Qc.
Proof.
  induction l as [|x l IH].
  - simpl. unfold Qcdiv. ring.
  - rewrite fmap_cons, !Qc_sum_cons, IH. unfold Qcdiv. ring.
Qed.

Lemma filter_eq_NoDup {A} `{EqDecision A} (a : A) (l : list A) :
  NoDup l → filter (λ x, x = a) l = if decide (a ∈ l) then [a] else [].
Proof.
  induction 1 as [|x l Hx Hnd IH].
  - rewrite filter_nil. by rewrite decide_False by apply not_elem_of_nil.
  - rewrite filter_cons. destruct (decide (x = a)) as [->|Hne].
    + rewrite IH. rewrite (decide_False (P := a ∈ l)) by done.
      rewrite decide_True by left. done.
    + rewrite IH. destruct (decide (a ∈ l)).
      * rewrite decide_True by (by right). done.
      * rewrite decide_False; [done|]. intros [?|?]%elem_of_cons; congruence.
  Qed.

Lemma elem_of_segments_of db u s : s ∈ segments_of db u ↔ Facts.member db u s.
Proof.
  unfold segments_of, Facts.member. rewrite list_elem_of_fmap. split.
  - intros ([u' s'] & -> & [Hu Hin]%list_elem_of_filter). simpl in *. subst.
    by apply elem_of_elements in Hin.
  - intros Hin. exists (u, s). split; [done|]. apply list_elem_of_filter.
    split; [done|]. by apply elem_of_elements.
Qed.

Lemma segments_of_NoDup db u : NoDup (segments_of db u).
Proof.
  unfold segments_of. apply NoDup_fmap_2_strong.
  - intros [u1 s1] [u2 s2] [H1 _]%list_elem_of_filter [H2 _]%list_elem_of_filter Hs.
    simpl in *. congruence.
  - apply NoDup_filter, NoDup_elements.
Qed.

Lemma filter_segments_of db u s :
  filter (λ sid, sid = s) (segments_of db u)
  = if decide (Facts.member db u s) then [s] else [].
Proof.
  rewrite filter_eq_NoDup by apply segments_of_NoDup.
  destruct (decide (s ∈ segments_of db u)) as [Hin|Hin];
    rewrite elem_of_segments_of in Hin.
  - by rewrite decide_True.
  - by rewrite decide_False.
Qed.

Lemma filter_bind {A B} (P : B → Prop) `{∀ b, Decision (P b)} (f : A → list B) (l : list A) :
  filter P (l ≫= f) = l ≫= (λ a, filter P (f a)).
Proof.
  induction l as [|a l IH]; [done|]. rewrite !bind_cons, filter_app, IH. done.
Qed.

Lemma elem_of_option_list {A} (x : A) (mx : option A) :
  x ∈ option_list mx ↔ mx = Some x.
Proof.
  destruct mx as [y|]; simpl.
  - rewrite list_elem_of_singleton. naive_solver.
  - split; [by intros ?%not_elem_of_nil|done].
Qed.

Lemma join_pk_Some {T} (tbl : gmap Z T) fk k r :
  join_pk tbl fk = Some (k, r) ↔ fk = Some k ∧ tbl !! k = Some r.
Proof.
  unfold join_pk. destruct fk as [k'|]; simpl; [|naive_solver].
  destruct (tbl !! k') as [r'|] eqn:E; simpl; naive_solver.
Qed.

(** The rows of the cost join of one key, as a selection of events. *)
Lemma segment_costs_join_key db d s :
  is_Some (segments db !! s) →
  (λ j : UserEvent.t * (Z * Campaign.t) * (Z * Segment.t), j.1.2)
    <$> filter (λ j, (DATE (UserEvent.timestamp j.1.1), j.2.1) = (d, s))
          (Views.segment_costs_join db)
  = Facts.touching db d s.
Proof.
  intros [sr Hsr]. unfold Views.segment_costs_join, Facts.touching.
  induction (user_events db) as [|e evs IH]; [done|].
  rewrite bind_cons, filter_app, fmap_app, IH. clear IH. simpl omap.
  destruct (join_pk (campaigns db) (UserEvent.campaign_id e)) as [ca|] eqn:Hca; simpl.
  2:{ by destruct (decide _). }
  rewrite app_nil_r.
  assert (∀ sids,
    (λ j : UserEvent.t * (Z * Campaign.t) * (Z * Segment.t), j.1.2)
      <$> filter (λ j, (DATE (UserEvent.timestamp j.1.1), j.2.1) = (d, s))
            (sids ≫= (λ sid, option_list (join_pk (segments db) (Some sid))
                               ≫= (λ s0, [(e, ca, s0)])))
    = (λ _, ca) <$> filter (λ sid, DATE (UserEvent.timestamp e) = d ∧ sid = s) sids) as Hin.
  { induction sids as [|sid sids IHs]; [done|].
    rewrite bind_cons, filter_app, fmap_app, IHs, filter_cons. clear IHs.
    unfold join_pk; simpl.
    destruct (decide (DATE (UserEvent.timestamp e) = d ∧ sid = s)) as [[Hd ->]|Hn].
    - rewrite Hsr. simpl. rewrite filter_cons_True by (simpl; by rewrite Hd). done.
    - destruct (segments db !! sid); simpl; [|done].
      rewrite filter_cons_False; [done|]. simpl. intros [= ? ?]. tauto. }
  rewrite Hin.
  destruct (decide (DATE (UserEvent.timestamp e) = d)) as [Hd|Hd].
  - rewrite (list_filter_iff _ (λ sid, sid = s)) by tauto.
    rewrite filter_segments_of.
    destruct (decide (Facts.member db (UserEvent.user_id e) s)).
    + rewrite decide_True by done. done.
    + rewrite decide_False by tauto. done.
  - rewrite decide_False by tauto.
    rewrite (list_filter_iff _ (λ _, False)) by tauto.
    assert (∀ l : list Z, filter (λ _, False) l = []) as ->; [|done].
    induction l as [|x l IHl]; [done|]. rewrite filter_cons_False by tauto. exact IHl.
Qed.

Lemma filter_fmap {A B} (f : A → B) (P : B → Prop) `{∀ b, Decision (P b)} (l : list A) :
  filter P (f <$> l) = f <$> filter (λ a, P (f a)) l.
Proof.
  induction l as [|a l IH]; [done|].
  rewrite fmap_cons, !filter_cons, IH. by destruct (decide (P (f a))).
Qed.

Lemma filter_ext_in {A} (P Q : A → Prop) `{∀ a, Decision (P a), ∀ a, Decision (Q a)}
    (l : list A) :
  (∀ a, a ∈ l → P a ↔ Q a) → filter P l = filter Q l.
Proof.
  induction l as [|a l IH]; intros Hext; [done|].
  rewrite !filter_cons, IH by (intros; apply Hext; by right).
  specialize (Hext a ltac:(left)).
  destruct (decide (P a)), (decide (Q a)); tauto || done.
Qed.

Lemma filter_key_NoDup {B K} `{EqDecision K} (kR : B → K) (R : list B) k :
  NoDup (kR <$> R) → (length (filter (λ b, kR b = k) R) ≤ 1)%nat.
Proof.
  induction R as [|b R IH]; [simpl; lia|].
  rewrite fmap_cons, NoDup_cons. intros [Hb Hnd]. rewrite filter_cons.
  destruct (decide (kR b = k)) as [<-|]; [|by apply IH].
  assert (filter (λ b0, kR b0 = kR b) R = []) as ->; [|simpl; lia].
  destruct (filter (λ b0, kR b0 = kR b) R) as [|b' l] eqn:E; [done|].
  assert (b' ∈ filter (λ b0, kR b0 = kR b) R) as [Hk Hin]%list_elem_of_filter
    by (rewrite E; left).
  destruct Hb. rewrite <- Hk. apply list_elem_of_fmap. eauto.
Qed.

Section left_join_facts.
Context {A B K N X : Type} `{EqDecision K, EqDecision N, EqDecision X}.
Context (kL : A → K) (name : A → N) (kR : B → K) (v : B → X).
Context (on : A → B → Prop) `{∀ a b, Decision (on a b)}.
Context (L : list A) (R : list B).
Hypothesis Hon : ∀ a b, on a b ↔ kL a = kR b.
Hypothesis HR : NoDup (kR <$> R).
Hypothesis Hname : ∀ a a', a ∈ L → a' ∈ L → kL a = kL a' → name a = name a'.

Lemma left_join_functional :
  left_join on L R = (λ a, (a, head (filter (λ b, kR b = kL a) R))) <$> L.
Proof.
  unfold left_join. induction L as [|a l IH]; [done|].
  rewrite bind_cons, fmap_cons, IH.
  - rewrite (list_filter_iff (on a) (λ b, kR b = kL a)) by (intros b; rewrite Hon; naive_solver).
    pose proof (filter_key_NoDup kR R (kL a) HR) as Hlen.
    destruct (filter (λ b, kR b = kL a) R) as [|b [|b' bs]]; simpl in *; [done|done|lia].
  - intros a1 a2 H1 H2. apply Hname; by right.
Qed.

Lemma left_join_group k nm x g :
  ((k, nm, x), g) ∈ group_by (λ j : A * option B, (kL j.1, name j.1, v <$> j.2))
                      (left_join on L R) →
  g.*1 = filter (λ a, kL a = k) L
  ∧ x = v <$> head (filter (λ b, kR b = k) R)
  ∧ ∃ a, a ∈ L ∧ kL a = k ∧ name a = nm.
Proof.
  rewrite elem_of_group_by, left_join_functional.
  intros (-> & j & (a & -> & Ha)%list_elem_of_fmap & [= <- <- <-]). simpl.
  split; [|split; [done|eauto]].
  rewrite filter_fmap, <- list_fmap_compose. simpl.
  rewrite list_fmap_id.
  apply filter_ext_in. intros a0 Ha0. split.
  - by intros [= -> _ _].
  - intros Hk. rewrite (Hname a0 a) by done. by rewrite Hk.
Qed.

Lemma left_join_group_complete a :
  a ∈ L →
  ∃ g, ((kL a, name a, v <$> head (filter (λ b, kR b = kL a) R)), g)
       ∈ group_by (λ j : A * option B, (kL j.1, name j.1, v <$> j.2))
           (left_join on L R).
Proof.
  intros Ha. eexists. apply elem_of_group_by. split; [done|].
  exists (a, head (filter (λ b, kR b = kL a) R)). split; [|done].
  rewrite left_join_functional. apply list_elem_of_fmap. eauto.
Qed.
End left_join_facts.

(** * The materialized views and the facts *)

Lemma count_distinct_pos {A} `{EqDecision A} (l : list A) : l ≠ [] → 0 < count_distinct l.
Proof.
  intros Hl. unfold count_distinct.
  destruct l as [|x l]; [done|].
  assert (x ∈ remove_dups (x :: l)) as Hin by (apply elem_of_remove_dups; left).
  destruct (remove_dups (x :: l)); [by apply not_elem_of_nil in Hin|simpl; lia].
Qed.

Module SegmentCostFacts.
Import Views.

(** *** segment_costs *)

Lemma elem_of_segment_costs_join db j :
j ∈ segment_costs_join db →
segments db !! j.2.1 = Some j.2.2.
Proof.
unfold segment_costs_join.
intros (e & Hj & He)%list_elem_of_bind.
apply list_elem_of_bind in Hj as (ca & Hj & Hca).
apply list_elem_of_bind in Hj as (sid & Hj & Hsid).
apply list_elem_of_bind in Hj as ([k sr] & Hj & Hs).
apply list_elem_of_singleton in Hj as ->. simpl.
apply elem_of_option_list, join_pk_Some in Hs as [[= ->] Hs]. done.
Qed.

Lemma elem_of_segment_costs db sc :
sc ∈ segment_costs db →
∃ sr, segments db !! sc_segment_id sc = Some sr ∧ sc_segment_name sc = Segment.name sr.
Proof.
unfold segment_costs.
intros ([[[[[d sid] sname] cid] sp] g] & -> & Hg)%list_elem_of_fmap.
apply elem_of_group_by in Hg as (-> & [[e ca] s] & Hj & [= <- <- <- <- <-]). simpl.
apply elem_of_segment_costs_join in Hj. simpl in Hj.
destruct s as [k sr]. simpl in *. eauto.
Qed.

Lemma segment_costs_name db sc sc' :
sc ∈ segment_costs db → sc' ∈ segment_costs db →
(sc_date sc, sc_segment_id sc) = (sc_date sc', sc_segment_id sc') →
sc_segment_name sc = sc_segment_name sc'.
Proof.
intros (sr & H1 & ->)%elem_of_segment_costs (sr' & H2 & ->)%elem_of_segment_costs [= _ Hs].
rewrite Hs in H1. congruence.
Qed.

Lemma segment_costs_sum db d s :
is_Some (segments db !! s) →
Qc_sum (sc_daily_spend <$>
          filter (λ sc, (sc_date sc, sc_segment_id sc) = (d, s)) (segment_costs db))
= Facts.amortized_event_spend db d s.
Proof.
intros Hs. unfold segment_costs, Facts.amortized_event_spend.
rewrite filter_fmap, <- list_fmap_compose.
rewrite <- (segment_costs_join_key db d s Hs), <- list_fmap_compose.
set (spend := λ j : UserEvent.t * (Z * Campaign.t) * (Z * Segment.t), Campaign.spend j.1.2.2).
set (G := group_by segment_costs_key (segment_costs_join db)).
trans (Qc_sum ((λ x, x / Qc_of_Z 30)%Qc <$>
         ((λ l, Qc_sum (spend <$> l)) <$>
            (filter (λ kg : (Z * Z * string * Z * Qc) * _, kg.1.1.1.1 = (d, s)) G).*2))).
{ f_equal. rewrite <- !list_fmap_compose.
  rewrite (filter_ext_in _ (λ kg : (Z * Z * string * Z * Qc) * _, kg.1.1.1.1 = (d, s))).
  - apply list_fmap_ext. by intros i [[[[[??]?]?]?]?] _.
  - by intros [[[[[??]?]?]?]?] _. }
rewrite Qc_sum_div. f_equal.
rewrite <- Qc_sum_concat.
apply Qc_sum_Permutation, fmap_Permutation. subst G.
etrans; [apply (group_by_partition_filter segment_costs_key (λ k, k.1.1.1 = (d, s)))|].
apply reflexive_eq, list_filter_iff. by intros [[e ca] sg].
Qed.

Lemma segment_costs_exists db d s :
is_Some (segments db !! s) → Facts.touching db d s ≠ [] →
∃ sc, sc ∈ segment_costs db ∧ (sc_date sc, sc_segment_id sc) = (d, s).
Proof.
intros Hs Ht. rewrite <- (segment_costs_join_key db d s Hs) in Ht.
destruct (filter _ (segment_costs_join db)) as [|j l] eqn:E; [done|].
assert (j ∈ filter (λ j, (DATE (UserEvent.timestamp j.1.1), j.2.1) = (d, s))
              (segment_costs_join db)) as [Hk Hj]%list_elem_of_filter
  by (rewrite E; left).
destruct j as [[e ca] sg]. simpl in Hk.
eexists (mk_sc _ _ _ _ _). split.
- unfold segment_costs. apply list_elem_of_fmap.
  exists (segment_costs_key (e, ca, sg), filter (λ r, segment_costs_key r = segment_costs_key (e, ca, sg)) (segment_costs_join db)).
  split; [reflexivity|]. apply elem_of_group_by; eauto.
- done.
Qed.
End SegmentCostFacts.

Module SegmentCacFacts.
Import Views SegmentCostFacts.

(** *** segment_acquisitions *)

Lemma segment_acquisitions_join_key db d s :
(λ j : Conversion.t * Z, Conversion.user_id j.1)
  <$> filter (λ j, (DATE (Conversion.timestamp j.1), j.2) = (d, s))
        (segment_acquisitions_join db)
= Conversion.user_id <$>
    filter (λ c, Conversion.type c = "purchase"%string
                 ∧ DATE (Conversion.timestamp c) = d
                 ∧ Facts.member db (Conversion.user_id c) s)
           (conversions db).
Proof.
unfold segment_acquisitions_join.
induction (conversions db) as [|c cs IH]; [done|].
rewrite !(filter_cons _ c).
destruct (decide (Conversion.type c = "purchase"%string)) as [Hp|Hp].
2:{ rewrite IH. rewrite decide_False by tauto. done. }
rewrite bind_cons, filter_app, fmap_app, IH. clear IH.
assert (∀ sids,
  (λ j : Conversion.t * Z, Conversion.user_id j.1)
    <$> filter (λ j, (DATE (Conversion.timestamp j.1), j.2) = (d, s))
          (sids ≫= (λ sid, [(c, sid)]))
  = (λ _, Conversion.user_id c)
      <$> filter (λ sid, DATE (Conversion.timestamp c) = d ∧ sid = s) sids) as ->.
{ induction sids as [|sid sids IHs]; [done|].
  rewrite bind_cons, filter_app, fmap_app, IHs. clear IHs.
  rewrite !filter_cons, filter_nil.
  repeat case_decide; simpl in *; try done; exfalso; naive_solver. }
destruct (decide (DATE (Conversion.timestamp c) = d)) as [Hd|Hd].
- rewrite (list_filter_iff _ (λ sid, sid = s)) by tauto.
  rewrite filter_segments_of.
  destruct (decide (Facts.member db (Conversion.user_id c) s)).
  + rewrite decide_True by done. done.
  + rewrite decide_False by tauto. done.
- rewrite decide_False by tauto.
  rewrite (list_filter_iff _ (λ _, False)) by tauto.
  assert (∀ l : list Z, filter (λ _, False) l = []) as ->; [|done].
  induction l as [|x l IHl]; [done|]. rewrite filter_cons_False by tauto. exact IHl.
Qed.

Lemma segment_acquisitions_keys db :
(λ sa, (sa_date sa, sa_segment_id sa)) <$> segment_acquisitions db
= (group_by (λ j : Conversion.t * Z, (DATE (Conversion.timestamp j.1), j.2))
     (segment_acquisitions_join db)).*1.
Proof.
unfold segment_acquisitions. rewrite <- list_fmap_compose.
apply list_fmap_ext. by intros i [[??]?] _.
Qed.

Lemma segment_acquisitions_NoDup db :
NoDup ((λ sa, (sa_date sa, sa_segment_id sa)) <$> segment_acquisitions db).
Proof. rewrite segment_acquisitions_keys. apply group_by_NoDup. Qed.

Lemma segment_acquisitions_partner db d s :
default 0 (sa_acquisitions <$>
             head (filter (λ sa, (sa_date sa, sa_segment_id sa) = (d, s))
                     (segment_acquisitions db)))
= Facts.acquisitions db d s.
Proof.
unfold Facts.acquisitions, Facts.acquirers.
rewrite <- segment_acquisitions_join_key.
unfold segment_acquisitions. rewrite filter_fmap.
rewrite (filter_ext_in _ (λ kg : (Z * Z) * list (Conversion.t * Z), kg.1 = (d, s)))
  by (by intros [[??]?] _).
generalize (segment_acquisitions_join db). intros J.
destruct (filter (λ kg : (Z * Z) * list (Conversion.t * Z), kg.1 = (d, s))
            (group_by (λ j : Conversion.t * Z, (DATE (Conversion.timestamp j.1), j.2)) J))
  as [|[[d' s'] g] l] eqn:E; simpl.
- destruct (filter (λ j : Conversion.t * Z, (DATE (Conversion.timestamp j.1), j.2) = (d, s)) J)
    as [|j l] eqn:E'; [done|].
  assert (j ∈ filter (λ j : Conversion.t * Z,
                        (DATE (Conversion.timestamp j.1), j.2) = (d, s)) J)
    as [Hk Hj]%list_elem_of_filter by (rewrite E'; left).
  assert (((d, s), filter (λ r : Conversion.t * Z,
                             (DATE (Conversion.timestamp r.1), r.2) = (d, s)) J)
          ∈ filter (λ kg : (Z * Z) * list (Conversion.t * Z), kg.1 = (d, s))
              (group_by (λ j : Conversion.t * Z, (DATE (Conversion.timestamp j.1), j.2)) J))
    as Hin.
  { apply list_elem_of_filter. split; [done|]. apply elem_of_group_by. eauto. }
  rewrite E in Hin. by apply not_elem_of_nil in Hin.
- assert (((d', s'), g)
          ∈ filter (λ kg : (Z * Z) * list (Conversion.t * Z), kg.1 = (d, s))
              (group_by (λ j : Conversion.t * Z, (DATE (Conversion.timestamp j.1), j.2)) J))
    as [[= -> ->] Hg]%list_elem_of_filter by (rewrite E; left).
  apply elem_of_group_by in Hg as [-> _]. done.
Qed.

(** *** segment_cac *)

(** What the view holds for a key: the spend of the campaign of every
  touching event, spread over 30 days, per acquisition. *)
Lemma segment_cac_row db r :
r ∈ segment_cac db →
SegmentCac.cac r
= (if decide (0 < Facts.acquisitions db (SegmentCac.date r) (SegmentCac.segment_id r))
   then (Facts.amortized_event_spend db (SegmentCac.date r) (SegmentCac.segment_id r)
         / Qc_of_Z (Facts.acquisitions db (SegmentCac.date r) (SegmentCac.segment_id r)))%Qc
   else 0%Qc)
∧ is_Some (segments db !! SegmentCac.segment_id r)
∧ Facts.touching db (SegmentCac.date r) (SegmentCac.segment_id r) ≠ [].
Proof.
unfold segment_cac.
intros ([[[[d s] nm] x] g] & -> & Hg)%list_elem_of_fmap. simpl.
apply (left_join_group (λ sc, (sc_date sc, sc_segment_id sc)) sc_segment_name
         (λ sa, (sa_date sa, sa_segment_id sa)) sa_acquisitions) in Hg
  as (Hg & -> & sc & Hsc & [= <- <-] & <-).
2:{ intros sc sa. split; [by intros [-> ->]|by intros [= -> ->]]. }
2:{ apply segment_acquisitions_NoDup. }
2:{ apply segment_costs_name. }
pose proof (elem_of_segment_costs db sc Hsc) as (sr & Hsr & _).
rewrite segment_acquisitions_partner.
assert ((λ j : segment_costs_row * option segment_acquisitions_row, sc_daily_spend j.1)
          <$> g = sc_daily_spend <$> g.*1) as ->
  by (by rewrite <- list_fmap_compose).
rewrite Hg, segment_costs_sum by eauto.
split; [done|]. split; [eauto|].
intros Hnil.
pose proof (segment_costs_sum db (sc_date sc) (sc_segment_id sc) ltac:(eauto)) as Hsum.
clear Hg.
unfold segment_costs in Hsc.
apply list_elem_of_fmap in Hsc as ([[[[[d sid] sname] cid] sp] g'] & -> & Hg').
apply elem_of_group_by in Hg' as (-> & [[e ca] sg] & Hj & [= <- <- <- <- <-]).
simpl in *.
assert (ca ∈ Facts.touching db (DATE (UserEvent.timestamp e)) sg.1) as Hin.
{ rewrite <- (segment_costs_join_key db _ _ ltac:(eauto)).
  apply list_elem_of_fmap. exists (e, ca, sg). split; [done|].
  apply list_elem_of_filter. done. }
rewrite Hnil in Hin. by apply not_elem_of_nil in Hin.
Qed.

Lemma segment_cac_complete db d s :
is_Some (segments db !! s) → Facts.touching db d s ≠ [] →
∃ r, r ∈ segment_cac db ∧ SegmentCac.key r = (d, s).
Proof.
intros Hs Ht.
destruct (segment_costs_exists db d s Hs Ht) as (sc & Hsc & Hk).
destruct (left_join_group_complete (λ sc, (sc_date sc, sc_segment_id sc)) sc_segment_name
            (λ sa, (sa_date sa, sa_segment_id sa)) sa_acquisitions
            (λ sc sa, sc_date sc = sa_date sa ∧ sc_segment_id sc = sa_segment_id sa)
            (segment_costs db) (segment_acquisitions db)) with (a := sc) as [g Hg].
{ intros sc' sa. split; [by intros [-> ->]|by intros [= -> ->]]. }
{ apply segment_acquisitions_NoDup. }
{ apply segment_costs_name. }
{ done. }
eexists. split.
- unfold segment_cac. apply list_elem_of_fmap. eexists. split; [reflexivity|exact Hg].
- done.
Qed.

End SegmentCacFacts.

Lemma filter_False {A} (l : list A) : filter (λ _, False) l = [].
Proof. induction l as [|x l IH]; [done|]. by rewrite filter_cons_False by tauto. Qed.

Module ChannelRoasFacts.
Import Views SegmentCostFacts SegmentCacFacts.

(** *** channel_spend *)

Lemma channel_spend_join_key db d ch :
is_Some (channels db !! ch) →
(λ j : UserEvent.t * (Z * Campaign.t) * (Z * Channel.t), j.1.2)
  <$> filter (λ j, (DATE (UserEvent.timestamp j.1.1), j.2.1) = (d, ch))
        (channel_spend_join db)
= Facts.channel_events db d ch.
Proof.
intros [cr Hcr]. unfold channel_spend_join, Facts.channel_events.
induction (user_events db) as [|e evs IH]; [done|].
rewrite bind_cons, filter_app, fmap_app, IH. clear IH. simpl omap.
destruct (join_pk (campaigns db) (UserEvent.campaign_id e)) as [ca|] eqn:Hca; simpl.
2:{ by destruct (decide _). }
rewrite app_nil_r. unfold join_pk.
destruct (UserEvent.channel_id e) as [k|] eqn:Hk; simpl.
2:{ rewrite decide_False; [done|]. intros [_ ?]. done. }
destruct (channels db !! k) as [r|] eqn:Hr; simpl.
- rewrite filter_cons, filter_nil. simpl.
  repeat case_decide; simpl; try done; exfalso; naive_solver.
- rewrite decide_False; [done|]. intros [_ [= ->]]. congruence.
Qed.

Lemma elem_of_channel_spend_join db j :
j ∈ channel_spend_join db → channels db !! j.2.1 = Some j.2.2.
Proof.
unfold channel_spend_join.
intros (e & Hj & He)%list_elem_of_bind.
apply list_elem_of_bind in Hj as (ca & Hj & Hca).
apply list_elem_of_bind in Hj as ([k cr] & Hj & Hch).
apply list_elem_of_singleton in Hj as ->. simpl.
apply elem_of_option_list, join_pk_Some in Hch as [_ Hch]. done.
Qed.

Lemma elem_of_channel_spend db cs :
cs ∈ channel_spend db →
∃ cr, channels db !! cs_channel_id cs = Some cr ∧ cs_channel_name cs = Channel.name cr.
Proof.
unfold channel_spend.
intros ([[[[d chid] chname] sp] g] & -> & Hg)%list_elem_of_fmap.
apply elem_of_group_by in Hg as (-> & [[e ca] ch] & Hj & [= <- <- <- <-]). simpl.
apply elem_of_channel_spend_join in Hj. simpl in Hj.
destruct ch as [k cr]. simpl in *. eauto.
Qed.

Lemma channel_spend_name db cs cs' :
cs ∈ channel_spend db → cs' ∈ channel_spend db →
(cs_date cs, cs_channel_id cs) = (cs_date cs', cs_channel_id cs') →
cs_channel_name cs = cs_channel_name cs'.
Proof.
intros (cr & H1 & ->)%elem_of_channel_spend (cr' & H2 & ->)%elem_of_channel_spend [= _ Hs].
rewrite Hs in H1. congruence.
Qed.

Lemma channel_spend_sum db d ch :
is_Some (channels db !! ch) →
Qc_sum (cs_daily_spend <$>
          filter (λ cs, (cs_date cs, cs_channel_id cs) = (d, ch)) (channel_spend db))
= Facts.channel_daily_spend db d ch.
Proof.
intros Hs. unfold channel_spend, Facts.channel_daily_spend.
rewrite filter_fmap, <- list_fmap_compose.
rewrite <- (channel_spend_join_key db d ch Hs), <- list_fmap_compose.
set (spend := λ j : UserEvent.t * (Z * Campaign.t) * (Z * Channel.t), Campaign.spend j.1.2.2).
trans (Qc_sum ((λ x, x / Qc_of_Z 30)%Qc <$>
         ((λ l, Qc_sum (spend <$> l)) <$>
            (filter (λ kg : (Z * Z * string * Qc) * _, kg.1.1.1 = (d, ch))
               (group_by channel_spend_key (channel_spend_join db))).*2))).
{ f_equal. rewrite <- !list_fmap_compose.
  rewrite (filter_ext_in _ (λ kg : (Z * Z * string * Qc) * _, kg.1.1.1 = (d, ch))).
  - apply list_fmap_ext. by intros i [[[[??]?]?]?] _.
  - by intros [[[[??]?]?]?] _. }
rewrite Qc_sum_div. f_equal.
rewrite <- Qc_sum_concat.
apply Qc_sum_Permutation, fmap_Permutation.
etrans; [apply (group_by_partition_filter channel_spend_key (λ k, k.1.1 = (d, ch)))|].
apply reflexive_eq, list_filter_iff. by intros [[e ca] c].
Qed.

Lemma channel_spend_exists db d ch :
is_Some (channels db !! ch) → Facts.channel_events db d ch ≠ [] →
∃ cs, cs ∈ channel_spend db ∧ (cs_date cs, cs_channel_id cs) = (d, ch).
Proof.
intros Hs Ht. rewrite <- (channel_spend_join_key db d ch Hs) in Ht.
destruct (filter _ (channel_spend_join db)) as [|j l] eqn:E; [done|].
assert (j ∈ filter (λ j, (DATE (UserEvent.timestamp j.1.1), j.2.1) = (d, ch))
              (channel_spend_join db)) as [Hk Hj]%list_elem_of_filter
  by (rewrite E; left).
destruct j as [[e ca] c]. simpl in Hk.
eexists (mk_cs _ _ _ _). split.
- unfold channel_spend. apply list_elem_of_fmap.
  exists (channel_spend_key (e, ca, c),
          filter (λ r, channel_spend_key r = channel_spend_key (e, ca, c))
            (channel_spend_join db)).
  split; [reflexivity|]. apply elem_of_group_by; eauto.
- done.
Qed.

(** *** channel_revenue *)

Lemma channel_revenue_join_key db d ch :
is_Some (channels db !! ch) →
fst <$> filter (λ j : Conversion.t * (Z * Channel.t),
                  (DATE (Conversion.timestamp j.1), j.2.1) = (d, ch))
          (channel_revenue_join db)
= Facts.channel_conversions db d ch.
Proof.
intros [cr Hcr]. unfold channel_revenue_join, Facts.channel_conversions.
induction (conversions db) as [|c cs IH]; [done|].
rewrite bind_cons, filter_app, fmap_app, IH. clear IH.
rewrite (filter_cons _ c). unfold join_pk.
destruct (Conversion.channel_id c) as [k|] eqn:Hk; simpl.
2:{ rewrite decide_False; [done|]. intros [_ ?]. done. }
destruct (channels db !! k) as [r|] eqn:Hr; simpl.
- rewrite filter_cons, filter_nil. simpl.
  repeat case_decide; simpl; try done; exfalso; naive_solver.
- rewrite decide_False; [done|]. intros [_ [= ->]]. congruence.
Qed.

Lemma channel_revenue_keys db :
(λ cr, (cr_date cr, cr_channel_id cr)) <$> channel_revenue db
= (group_by (λ j : Conversion.t * (Z * Channel.t),
               (DATE (Conversion.timestamp j.1), j.2.1))
     (channel_revenue_join db)).*1.
Proof.
unfold channel_revenue. rewrite <- list_fmap_compose.
apply list_fmap_ext. by intros i [[??]?] _.
Qed.

Lemma channel_revenue_NoDup db :
NoDup ((λ cr, (cr_date cr, cr_channel_id cr)) <$> channel_revenue db).
Proof. rewrite channel_revenue_keys. apply group_by_NoDup. Qed.

Lemma channel_revenue_partner db d ch :
is_Some (channels db !! ch) →
default 0%Qc (cr_revenue <$>
                head (filter (λ cr, (cr_date cr, cr_channel_id cr) = (d, ch))
                        (channel_revenue db)))
= Facts.channel_revenue db d ch.
Proof.
intros Hch. unfold Facts.channel_revenue.
rewrite <- (channel_revenue_join_key db d ch Hch).
unfold channel_revenue. rewrite filter_fmap.
rewrite (filter_ext_in _ (λ kg : (Z * Z) * list (Conversion.t * (Z * Channel.t)),
                            kg.1 = (d, ch)))
  by (by intros [[??]?] _).
generalize (channel_revenue_join db). intros J.
destruct (filter (λ kg : (Z * Z) * list (Conversion.t * (Z * Channel.t)), kg.1 = (d, ch))
            (group_by (λ j : Conversion.t * (Z * Channel.t),
                         (DATE (Conversion.timestamp j.1), j.2.1)) J))
  as [|[[d' s'] g] l] eqn:E; simpl.
- destruct (filter (λ j : Conversion.t * (Z * Channel.t),
                      (DATE (Conversion.timestamp j.1), j.2.1) = (d, ch)) J)
    as [|j l] eqn:E'; [done|].
  assert (j ∈ filter (λ j : Conversion.t * (Z * Channel.t),
                        (DATE (Conversion.timestamp j.1), j.2.1) = (d, ch)) J)
    as [Hk Hj]%list_elem_of_filter by (rewrite E'; left).
  assert (((d, ch), filter (λ r : Conversion.t * (Z * Channel.t),
                             (DATE (Conversion.timestamp r.1), r.2.1) = (d, ch)) J)
          ∈ filter (λ kg : (Z * Z) * list (Conversion.t * (Z * Channel.t)), kg.1 = (d, ch))
              (group_by (λ j : Conversion.t * (Z * Channel.t),
                           (DATE (Conversion.timestamp j.1), j.2.1)) J))
    as Hin.
  { apply list_elem_of_filter. split; [done|]. apply elem_of_group_by. eauto. }
  rewrite E in Hin. by apply not_elem_of_nil in Hin.
- assert (((d', s'), g)
          ∈ filter (λ kg : (Z * Z) * list (Conversion.t * (Z * Channel.t)), kg.1 = (d, ch))
              (group_by (λ j : Conversion.t * (Z * Channel.t),
                           (DATE (Conversion.timestamp j.1), j.2.1)) J))
    as [[= -> ->] Hg]%list_elem_of_filter by (rewrite E; left).
  apply elem_of_group_by in Hg as [-> _].
  by rewrite <- list_fmap_compose.
Qed.

(** *** channel_roas *)

Lemma channel_roas_row db r :
r ∈ channel_roas db →
ChannelRoas.roas r
= (if decide (0 < Facts.channel_daily_spend db (ChannelRoas.date r) (ChannelRoas.channel_id r))%Qc
   then (Facts.channel_revenue db (ChannelRoas.date r) (ChannelRoas.channel_id r)
         / Facts.channel_daily_spend db (ChannelRoas.date r) (ChannelRoas.channel_id r))%Qc
   else 0%Qc)
∧ is_Some (channels db !! ChannelRoas.channel_id r)
∧ Facts.channel_events db (ChannelRoas.date r) (ChannelRoas.channel_id r) ≠ [].
Proof.
unfold channel_roas.
intros ([[[[d s] nm] x] g] & -> & Hg)%list_elem_of_fmap. simpl.
apply (left_join_group (λ cs, (cs_date cs, cs_channel_id cs)) cs_channel_name
         (λ cr, (cr_date cr, cr_channel_id cr)) cr_revenue) in Hg
  as (Hg & -> & cs & Hcs & [= <- <-] & <-).
2:{ intros cs cr. split; [by intros [-> ->]|by intros [= -> ->]]. }
2:{ apply channel_revenue_NoDup. }
2:{ apply channel_spend_name. }
pose proof (elem_of_channel_spend db cs Hcs) as (cr & Hcr & _).
rewrite channel_revenue_partner by eauto.
assert ((λ j : channel_spend_row * option channel_revenue_row, cs_daily_spend j.1)
          <$> g = cs_daily_spend <$> g.*1) as ->
  by (by rewrite <- list_fmap_compose).
rewrite Hg, channel_spend_sum by eauto.
split; [done|]. split; [eauto|].
intros Hnil. clear Hg.
unfold channel_spend in Hcs.
apply list_elem_of_fmap in Hcs as ([[[[d chid] chname] sp] g'] & -> & Hg').
apply elem_of_group_by in Hg' as (-> & [[e ca] c] & Hj & [= <- <- <- <-]).
simpl in *.
assert (ca ∈ Facts.channel_events db (DATE (UserEvent.timestamp e)) c.1) as Hin.
{ rewrite <- (channel_spend_join_key db _ _ ltac:(eauto)).
  apply list_elem_of_fmap. exists (e, ca, c). split; [done|].
  apply list_elem_of_filter. done. }
rewrite Hnil in Hin. by apply not_elem_of_nil in Hin.
Qed.

Lemma channel_roas_complete db d ch :
is_Some (channels db !! ch) → Facts.channel_events db d ch ≠ [] →
∃ r, r ∈ channel_roas db ∧ ChannelRoas.key r = (d, ch).
Proof.
intros Hs Ht.
destruct (channel_spend_exists db d ch Hs Ht) as (cs & Hcs & Hk).
destruct (left_join_group_complete (λ cs, (cs_date cs, cs_channel_id cs)) cs_channel_name
            (λ cr, (cr_date cr, cr_channel_id cr)) cr_revenue
            (λ cs cr, cs_date cs = cr_date cr ∧ cs_channel_id cs = cr_channel_id cr)
            (channel_spend db) (channel_revenue db)) with (a := cs) as [g Hg].
{ intros cs' cr. split; [by intros [-> ->]|by intros [= -> ->]]. }
{ apply channel_revenue_NoDup. }
{ apply channel_spend_name. }
{ done. }
eexists. split.
- unfold channel_roas. apply list_elem_of_fmap. eexists. split; [reflexivity|exact Hg].
- done.
Qed.

End ChannelRoasFacts.

(** * The views of calculate_metrics and the facts *)

Module DagFacts.
Import Dag.

Lemma dag_segment_cac_join_key db d s :
is_Some (segments db !! s) →
(λ j : Conversion.t * (Z * Segment.t) * (Z * Campaign.t), (j.1.1, j.2))
  <$> filter (λ j, (j.1.2.1, DATE (Conversion.timestamp j.1.1)) = (s, d))
        (segment_cac_join db)
= Facts.new_customer_rows db d s.
Proof.
intros [sr Hsr]. unfold segment_cac_join, Facts.new_customer_rows.
induction (conversions db) as [|c cs IH]; [done|].
destruct (decide (Conversion.type c = "new_customer"%string)) as [Hp|Hp].
2:{ rewrite filter_cons_False by done. simpl omap. rewrite IH.
    rewrite decide_False by tauto. done. }
rewrite filter_cons_True by done. simpl omap.
rewrite bind_cons, filter_app, fmap_app, IH. clear IH.
assert (∀ sids,
  (λ j : Conversion.t * (Z * Segment.t) * (Z * Campaign.t), (j.1.1, j.2))
    <$> filter (λ j, (j.1.2.1, DATE (Conversion.timestamp j.1.1)) = (s, d))
          (sids ≫= (λ sid, option_list (join_pk (segments db) (Some sid))
             ≫= (λ s0, option_list (join_pk (campaigns db) (Conversion.campaign_id c))
                ≫= (λ ca, [(c, s0, ca)]))))
  = (filter (λ sid, DATE (Conversion.timestamp c) = d ∧ sid = s) sids)
      ≫= (λ _, option_list ((λ ca, (c, ca)) <$>
                 join_pk (campaigns db) (Conversion.campaign_id c)))) as ->.
{ induction sids as [|sid sids IHs]; [done|].
  rewrite bind_cons, filter_app, fmap_app, IHs. clear IHs.
  rewrite (filter_cons _ sid).
  destruct (join_pk (campaigns db) (Conversion.campaign_id c)) as [ca|] eqn:Hca;
    unfold join_pk; simpl;
    destruct (segments db !! sid) as [sr'|] eqn:Hsid; simpl;
    rewrite ?filter_cons, ?filter_nil; simpl;
    repeat case_decide; simpl; rewrite ?bind_cons; simpl; try done;
    try (exfalso; naive_solver). }
destruct (decide (DATE (Conversion.timestamp c) = d)) as [Hd|Hd].
- rewrite (list_filter_iff _ (λ sid, sid = s)) by tauto.
  rewrite filter_segments_of.
  destruct (decide (Facts.member db (Conversion.user_id c) s)).
  + rewrite decide_True by done. rewrite bind_cons. simpl. rewrite app_nil_r.
    by destruct (join_pk _ _).
  + rewrite decide_False by tauto. done.
- rewrite decide_False by tauto.
  rewrite (list_filter_iff _ (λ _, False)) by tauto.
  rewrite filter_False. done.
Qed.

Lemma dag_segment_cac_join_elem db j :
j ∈ segment_cac_join db → segments db !! j.1.2.1 = Some j.1.2.2.
Proof.
unfold segment_cac_join.
intros (c & Hj & Hc)%list_elem_of_bind.
apply list_elem_of_bind in Hj as (sid & Hj & Hsid).
apply list_elem_of_bind in Hj as ([k sr] & Hj & Hs).
apply list_elem_of_bind in Hj as (ca & Hj & Hca).
apply list_elem_of_singleton in Hj as ->. simpl.
apply elem_of_option_list, join_pk_Some in Hs as [[= ->] Hs]. done.
Qed.

(** What the view of calculate_metrics holds for a key. *)
Lemma dag_segment_cac_row db r :
r ∈ segment_cac db →
let rows := Facts.new_customer_rows db (SegmentCac.date r) (SegmentCac.segment_id r) in
rows ≠ []
∧ SegmentCac.cac r
  = Some (Qc_sum ((λ j : Conversion.t * (Z * Campaign.t), Campaign.spend j.2.2) <$> rows)
          / Qc_of_Z (count_distinct
                       ((λ j : Conversion.t * (Z * Campaign.t),
                           Conversion.user_id j.1) <$> rows)))%Qc.
Proof.
unfold segment_cac.
intros ([[[s nm] d] g] & -> & Hg)%list_elem_of_fmap. simpl.
apply elem_of_group_by in Hg as (-> & j0 & Hj0 & Hk0).
pose proof (dag_segment_cac_join_elem db j0 Hj0) as Hs0.
injection Hk0 as Hs Hnm Hd. rewrite Hs in Hs0.
rewrite <- (dag_segment_cac_join_key db d s) by eauto.
rewrite (filter_ext_in (λ r, segment_cac_key r = (s, nm, d))
           (λ j, (j.1.2.1, DATE (Conversion.timestamp j.1.1)) = (s, d))).
2:{ intros j Hj. unfold segment_cac_key. split; [by intros [= -> _ ->]|].
    intros [= Hs' Hd']. apply dag_segment_cac_join_elem in Hj.
    rewrite Hs' in Hj. rewrite Hs', Hd', <- Hnm. do 2 f_equal. congruence. }
set (g := filter _ _).
assert (j0 ∈ g) as Hin.
{ apply list_elem_of_filter. split; [|done]. simpl. by rewrite Hs, Hd. }
split.
{ intros Hnil. apply fmap_nil_inv in Hnil. rewrite Hnil in Hin.
  by apply not_elem_of_nil in Hin. }
rewrite <- !list_fmap_compose.
unfold NULLIF_Z. rewrite decide_False; [done|].
assert (0 < count_distinct
              ((λ j : Conversion.t * (Z * Segment.t) * (Z * Campaign.t),
                  Conversion.user_id j.1.1) <$> g)); [|lia].
apply count_distinct_pos. intros Hnil%fmap_nil_inv. rewrite Hnil in Hin.
by apply not_elem_of_nil in Hin.
Qed.

Lemma dag_channel_roas_join_key db d ch :
is_Some (channels db !! ch) →
fst <$> filter (λ j : Conversion.t * (Z * Campaign.t) * (Z * Channel.t),
                  (j.2.1, DATE (Conversion.timestamp j.1.1)) = (ch, d))
          (channel_roas_join db)
= Facts.campaign_channel_rows db d ch.
Proof.
intros [cr Hcr]. unfold channel_roas_join, Facts.campaign_channel_rows.
induction (conversions db) as [|c cs IH]; [done|].
rewrite bind_cons, filter_app, fmap_app, IH. clear IH. simpl omap.
destruct (join_pk (campaigns db) (Conversion.campaign_id c)) as [ca|] eqn:Hca; simpl.
2:{ by destruct (decide _). }
rewrite app_nil_r. unfold join_pk.
destruct (Campaign.channel_id ca.2) as [k|] eqn:Hk; simpl.
2:{ repeat case_decide; simpl; try done; exfalso; naive_solver. }
destruct (channels db !! k) as [r|] eqn:Hr; simpl.
- rewrite filter_cons, filter_nil. simpl.
  repeat case_decide; simpl; try done; exfalso; naive_solver.
- repeat case_decide; simpl; try done; exfalso; naive_solver.
Qed.

Lemma dag_channel_roas_join_elem db j :
j ∈ channel_roas_join db → channels db !! j.2.1 = Some j.2.2.
Proof.
unfold channel_roas_join.
intros (c & Hj & Hc)%list_elem_of_bind.
apply list_elem_of_bind in Hj as (ca & Hj & Hca).
apply list_elem_of_bind in Hj as ([k cr] & Hj & Hch).
apply list_elem_of_singleton in Hj as ->. simpl.
apply elem_of_option_list, join_pk_Some in Hch as [_ Hch]. done.
Qed.

Lemma dag_channel_roas_row db r :
r ∈ channel_roas db →
let rows := Facts.campaign_channel_rows db (ChannelRoas.date r) (ChannelRoas.channel_id r) in
rows ≠ []
∧ ChannelRoas.roas r
  = (λ s, Qc_sum ((λ j : Conversion.t * (Z * Campaign.t), Conversion.value j.1) <$> rows)
          / s)%Qc
    <$> NULLIF_Qc (Qc_sum ((λ j : Conversion.t * (Z * Campaign.t),
                              Campaign.spend j.2.2) <$> rows)).
Proof.
unfold channel_roas.
intros ([[[ch nm] d] g] & -> & Hg)%list_elem_of_fmap. simpl.
apply elem_of_group_by in Hg as (-> & j0 & Hj0 & Hk0).
pose proof (dag_channel_roas_join_elem db j0 Hj0) as Hs0.
injection Hk0 as Hs Hnm Hd. rewrite Hs in Hs0.
rewrite <- (dag_channel_roas_join_key db d ch) by eauto.
rewrite (filter_ext_in (λ r, channel_roas_key r = (ch, nm, d))
           (λ j, (j.2.1, DATE (Conversion.timestamp j.1.1)) = (ch, d))).
2:{ intros j Hj. unfold channel_roas_key. split; [by intros [= -> _ ->]|].
    intros [= Hs' Hd']. apply dag_channel_roas_join_elem in Hj.
    rewrite Hs' in Hj. rewrite Hs', Hd', <- Hnm. do 2 f_equal. congruence. }
set (g := filter _ _).
assert (j0 ∈ g) as Hin.
{ apply list_elem_of_filter. split; [|done]. simpl. by rewrite Hs, Hd. }
split.
{ intros Hnil. apply fmap_nil_inv in Hnil. rewrite Hnil in Hin.
  by apply not_elem_of_nil in Hin. }
by rewrite <- !list_fmap_compose.
Qed.

End DagFacts.

(** * The claims about the aggregates *)



Lemma ratio_or_zero_0 total : Views.ratio_or_zero total 0 = 0%Qc.
Proof. done. Qed.

(** ** Segment CAC *)





(** ** The ratios of the views *)

Lemma campaign_performance_ratio db r :
  r ∈ Views.daily_campaign_performance db →
  CampaignPerf.avg_conversion_value r
  = Views.ratio_or_zero (CampaignPerf.total_conversion_value r) (CampaignPerf.conversions r)
  ∧ 0 < CampaignPerf.conversions r.
Proof.
  unfold Views.daily_campaign_performance.
  intros ([[[[[d cid] cname] chid] chname] g] & -> & Hg)%list_elem_of_fmap. simpl.
  split; [done|]. apply count_distinct_pos.
  intros Hnil%fmap_nil_inv. by apply group_by_nonempty in Hg.
Qed.

Lemma segment_performance_ratio db r :
  r ∈ Views.segment_performance db →
  SegmentPerf.avg_conversion_value r
  = Views.ratio_or_zero (SegmentPerf.total_conversion_value r) (SegmentPerf.conversions r)
  ∧ 0 < SegmentPerf.conversions r.
Proof.
  unfold Views.segment_performance.
  intros ([[[d sid] sname] g] & -> & Hg)%list_elem_of_fmap. simpl.
  split; [done|]. apply count_distinct_pos.
  intros Hnil%fmap_nil_inv%fmap_nil_inv. by apply group_by_nonempty in Hg.
Qed.

Lemma channel_performance_ratio db r :
  r ∈ Views.daily_channel_performance db →
  ChannelPerf.ctr r
  = Views.ratio_or_zero (Qc_of_Z (ChannelPerf.clicks r)) (ChannelPerf.impressions r).
Proof.
  unfold Views.daily_channel_performance.
  by intros ([[[d chid] chname] g] & -> & Hg)%list_elem_of_fmap.
Qed.

(** ** No statement divides by zero *)

Lemma Qc_of_Z_nonzero (n : Z) : n ≠ 0 → Qc_of_Z n ≠ 0%Qc.
Proof.
  intros Hn H. apply Hn. unfold Qc_of_Z in H.
  change 0%Qc with (Q2Qc (inject_Z 0)) in H.
  apply Q2Qc_eq_iff in H. by apply inject_Z_injective.
Qed.

Lemma divide_nonzero (x y : Qc) : y ≠ 0%Qc → Checked.divide x y = Some (x / y)%Qc.
Proof. intros Hy. unfold Checked.divide. by rewrite decide_False. Qed.

Lemma ratio_or_zero_checked (total : Qc) (n : Z) :
  Checked.ratio_or_zero total n = Some (Views.ratio_or_zero total n).
Proof.
  unfold Checked.ratio_or_zero, Views.ratio_or_zero.
  case_decide; [|done]. apply divide_nonzero, Qc_of_Z_nonzero. lia.
Qed.

Lemma mapM_rows {A B} (f : A → option B) (g : A → B) (l : list A) :
  (∀ x, x ∈ l → f x = Some (g x)) → mapM f l = Some (g <$> l).
Proof.
  intros Hf. apply mapM_Some_2, Forall2_fmap_r, Forall_Forall2_diag, Forall_forall.
  exact Hf.
Qed.

Module CheckedFacts.
Import Checked.

Lemma campaign_performance_checked db :
daily_campaign_performance db = Some (Views.daily_campaign_performance db).
Proof.
apply mapM_rows. intros [[[[[d cid] cname] chid] chname] g] _.
cbv beta iota zeta. by rewrite ratio_or_zero_checked.
Qed.

Lemma channel_performance_checked db :
daily_channel_performance db = Some (Views.daily_channel_performance db).
Proof.
apply mapM_rows. intros [[[d chid] chname] g] _.
cbv beta iota zeta. by rewrite ratio_or_zero_checked.
Qed.

Lemma segment_performance_checked db :
segment_performance db = Some (Views.segment_performance db).
Proof.
apply mapM_rows. intros [[[d sid] sname] g] _.
cbv beta iota zeta. by rewrite ratio_or_zero_checked.
Qed.

Lemma segment_costs_checked db : segment_costs db = Some (Views.segment_costs db).
Proof.
apply mapM_rows. intros [[[[[d sid] sname] cid] sp] g] _.
cbv beta iota zeta. by rewrite divide_nonzero by (by apply Qc_of_Z_nonzero).
Qed.

Lemma segment_cac_checked db : segment_cac db = Some (Views.segment_cac db).
Proof.
unfold segment_cac. rewrite segment_costs_checked. simpl.
apply mapM_rows. intros [[[[d sid] sname] acq] g] _.
cbv beta iota zeta. case_decide; [|done].
rewrite divide_nonzero; [done|]. apply Qc_of_Z_nonzero. lia.
Qed.

Lemma channel_spend_checked db : channel_spend db = Some (Views.channel_spend db).
Proof.
apply mapM_rows. intros [[[[d chid] chname] sp] g] _.
cbv beta iota zeta. by rewrite divide_nonzero by (by apply Qc_of_Z_nonzero).
Qed.

Lemma channel_roas_checked db : channel_roas db = Some (Views.channel_roas db).
Proof.
unfold channel_roas. rewrite channel_spend_checked. simpl.
apply mapM_rows. intros [[[[d chid] chname] rev] g] _.
cbv beta iota zeta. case_decide as Hpos; [|done].
rewrite divide_nonzero; [done|]. intros Hz. rewrite Hz in Hpos.
by apply Qclt_not_eq in Hpos.
Qed.

Lemma dag_segment_cac_checked db : dag_segment_cac db = Some (Dag.segment_cac db).
Proof.
apply mapM_rows. intros [[[sid sname] d] g] _.
cbv beta iota zeta. unfold Dag.NULLIF_Z. case_decide as Hz; [done|]. simpl.
by rewrite divide_nonzero by (by apply Qc_of_Z_nonzero).
Qed.

Lemma dag_channel_roas_checked db : dag_channel_roas db = Some (Dag.channel_roas db).
Proof.
apply mapM_rows. intros [[[chid chname] d] g] _.
cbv beta iota zeta. unfold Dag.NULLIF_Qc. case_decide as Hz; [done|]. simpl.
by rewrite divide_nonzero.
Qed.

End CheckedFacts.

(** Claim C2, as amended: no statement of create_materialized_views divides
    by zero. Evaluated with the division of SQL, which raises an error on a
    zero divisor, the five statements succeed on every database and store the
    views of [Views]: the CASE guards keep every division away from a zero
    divisor, and a ratio is 0 when its denominator is 0 (the average
    conversion value is the guarded quotient; its denominator, a count of
    distinct users of a group, is positive in every row). In the views that
    calculate_metrics defines the division is guarded by NULLIF instead: it
    raises no error either, but roas is NULL, not 0, when the summed spend is
    0, while cac is never NULL. *)
Theorem zero_denominator_ratios (db : database) :
  Checked.create_materialized_views db = Some (Views.create_materialized_views db)
  ∧ (∀ x, Checked.divide x 0%Qc = None)
  ∧ (∀ total n, Checked.ratio_or_zero total n = Some (Views.ratio_or_zero total n))
  ∧ (∀ total, Checked.ratio_or_zero total 0 = Some 0%Qc)
  ∧ (∀ r, r ∈ Views.daily_campaign_performance db →
       CampaignPerf.avg_conversion_value r
       = Views.ratio_or_zero (CampaignPerf.total_conversion_value r)
           (CampaignPerf.conversions r)
       ∧ 0 < CampaignPerf.conversions r)
  ∧ (∀ r, r ∈ Views.segment_performance db →
       SegmentPerf.avg_conversion_value r
       = Views.ratio_or_zero (SegmentPerf.total_conversion_value r)
           (SegmentPerf.conversions r)
       ∧ 0 < SegmentPerf.conversions r)
  ∧ (∀ r, r ∈ Views.daily_channel_performance db →
       ChannelPerf.impressions r = 0 → ChannelPerf.ctr r = 0%Qc)
  ∧ (∀ r, r ∈ Views.segment_cac db →
       Facts.acquisitions db (SegmentCac.date r) (SegmentCac.segment_id r) = 0 →
       SegmentCac.cac r = 0%Qc)
  ∧ (∀ r, r ∈ Views.channel_roas db →
       Facts.channel_daily_spend db (ChannelRoas.date r) (ChannelRoas.channel_id r) = 0%Qc →
       ChannelRoas.roas r = 0%Qc)
  ∧ Checked.dag_segment_cac db = Some (Dag.segment_cac db)
  ∧ Checked.dag_channel_roas db = Some (Dag.channel_roas db)
  ∧ (∀ r, r ∈ Dag.segment_cac db → is_Some (SegmentCac.cac r))
  ∧ (∀ r, r ∈ Dag.channel_roas db →
       Facts.conversion_spend db (ChannelRoas.date r) (ChannelRoas.channel_id r) = 0%Qc →
       ChannelRoas.roas r = None).
Proof.
  split; [|split; [|split; [|split]]].
  - unfold Checked.create_materialized_views.
    rewrite CheckedFacts.campaign_performance_checked,
      CheckedFacts.channel_performance_checked,
      CheckedFacts.segment_performance_checked, CheckedFacts.segment_cac_checked,
      CheckedFacts.channel_roas_checked. done.
  - done.
  - apply ratio_or_zero_checked.
  - done.
  - split; [|split; [|split; [|split; [|split; [|split; [|split; [|split]]]]]]].
    + intros r Hr. by apply (campaign_performance_ratio db).
    + intros r Hr. by apply (segment_performance_ratio db).
    + intros r Hr Hz. rewrite (channel_performance_ratio db r Hr), Hz. done.
    + intros r Hr Hz. apply SegmentCacFacts.segment_cac_row in Hr as [-> _].
      rewrite Hz. done.
    + intros r Hr Hz. apply ChannelRoasFacts.channel_roas_row in Hr as [-> _].
      rewrite Hz. done.
    + apply CheckedFacts.dag_segment_cac_checked.
    + apply CheckedFacts.dag_channel_roas_checked.
    + intros r Hr. apply DagFacts.dag_segment_cac_row in Hr as [_ ->]. done.
    + intros r Hr Hz. apply DagFacts.dag_channel_roas_row in Hr as [_ ->].
      unfold Facts.conversion_spend in Hz. rewrite Hz. done.
Qed.

Lemma zero_denominator_ratios_witness :
  ChannelPerf.ctr (ChannelPerf.mk 0 1 "Facebook Ads"%string 1 1 1 0 (Qc_of_Z 0)) = 0%Qc
  ∧ SegmentCac.cac (SegmentCac.mk 0 1 "New Visitors"%string (Qc_of_Z 0)) = 0%Qc
  ∧ ChannelRoas.roas
      (ChannelRoas.mk 0 1 "Facebook Ads"%string
         (Views.ratio_or_zero (Qc_of_Z 0) 0)) = 0%Qc
  ∧ ChannelRoas.roas (ChannelRoas.mk 0 1 "Facebook Ads"%string (@None Qc)) = None.
Proof.
  pose proof (zero_denominator_ratios Sample.no_conversion)
    as (_ & _ & _ & _ & _ & _ & Hctr & Hcac & _).
  pose proof (zero_denominator_ratios Sample.unspent)
    as (_ & _ & _ & _ & _ & _ & _ & _ & _ & _ & _ & _ & Hnull).
  pose proof (zero_denominator_ratios
                (mk_database {[ 1 := Sample.facebook ]} {[ 1 := Sample.new_visitors ]}
                   {[ 1 := Sample.spring 0 ]} {[ ("u1"%string, 1) ]}
                   [Sample.event 1 "u1" "click" 100 (Some 1) (Some 1)] []))
    as (_ & _ & _ & _ & _ & _ & _ & _ & Hroas & _).
  split; [|split; [|split]].
  - apply Hctr; [by_evaluation|reflexivity].
  - apply Hcac; [by_evaluation|reflexivity].
  - apply Hroas; [by_evaluation|by_evaluation].
  - apply Hnull; [by_evaluation|by_evaluation].
Defined.

(** Claim C2 as stated fails for the channel_roas view of calculate_metrics:
    a conversion of a campaign without spend gives a NULL roas, not 0. *)
Lemma roas_null_without_spend :
  ∃ r, r ∈ Dag.channel_roas Sample.unspent
       ∧ Facts.conversion_spend Sample.unspent (ChannelRoas.date r) (ChannelRoas.channel_id r)
         = 0%Qc
       ∧ ChannelRoas.roas r ≠ Some 0%Qc.
Proof.
  exists (ChannelRoas.mk 0 1 "Facebook Ads"%string None).
  split; [by_evaluation|]. split; [by_evaluation|done].
Qed.

(** ** Keys with spend and without acquisitions or revenue *)

Lemma channel_revenue_no_conversions db d ch :
  Facts.channel_conversions db d ch = [] → Facts.channel_revenue db d ch = 0%Qc.
Proof. unfold Facts.channel_revenue. by intros ->. Qed.

Lemma spend_return_no_revenue db d ch :
  Facts.channel_revenue db d ch = 0%Qc → Facts.spend_return db d ch = 0%Qc.
Proof.
  intros Hz. unfold Facts.spend_return. rewrite Hz. case_decide; [|done].
  unfold Qcdiv. ring.
Qed.

(** Claim C3, as amended: in the materialized views every (date, segment)
    touched by an event of an existing campaign and without a purchase has a
    segment_cac row with cac 0, and every (date, channel) with such an event
    and without a conversion has a channel_roas row with roas 0; the views
    that calculate_metrics defines are computed from the conversions alone,
    so that a key without a conversion of theirs has no row there. *)
Theorem spend_without_acquisitions (db : database) (d k : Z) :
  (is_Some (segments db !! k) → Facts.touching db d k ≠ [] →
   Facts.acquisitions db d k = 0 →
   ∃ r, r ∈ Views.segment_cac db ∧ SegmentCac.key r = (d, k) ∧ SegmentCac.cac r = 0%Qc)
  ∧ (is_Some (channels db !! k) → Facts.channel_events db d k ≠ [] →
     Facts.channel_conversions db d k = [] →
     ∃ r, r ∈ Views.channel_roas db ∧ ChannelRoas.key r = (d, k)
          ∧ ChannelRoas.roas r = 0%Qc)
  ∧ (Facts.new_customer_rows db d k = [] →
     ∀ r, r ∈ Dag.segment_cac db → SegmentCac.key r ≠ (d, k))
  ∧ (Facts.campaign_channel_rows db d k = [] →
     ∀ r, r ∈ Dag.channel_roas db → ChannelRoas.key r ≠ (d, k)).
Proof.
  repeat split.
  - intros Hs Ht Hz.
    destruct (SegmentCacFacts.segment_cac_complete db d k Hs Ht) as (r & Hr & Hk).
    exists r. split; [done|]. split; [done|].
    apply SegmentCacFacts.segment_cac_row in Hr as [-> _].
    injection Hk as -> ->. rewrite Hz. done.
  - intros Hs Ht Hz.
    destruct (ChannelRoasFacts.channel_roas_complete db d k Hs Ht) as (r & Hr & Hk).
    exists r. split; [done|]. split; [done|].
    apply ChannelRoasFacts.channel_roas_row in Hr as [-> _].
    injection Hk as -> ->.
    apply spend_return_no_revenue, channel_revenue_no_conversions, Hz.
  - intros Hnil r Hr [= <- <-]. by apply DagFacts.dag_segment_cac_row in Hr as [? _].
  - intros Hnil r Hr [= <- <-]. by apply DagFacts.dag_channel_roas_row in Hr as [? _].
Qed.

Lemma spend_without_acquisitions_witness :
  (∃ r, r ∈ Views.segment_cac Sample.no_conversion ∧ SegmentCac.key r = (0, 1)
        ∧ SegmentCac.cac r = 0%Qc)
  ∧ (∃ r, r ∈ Views.channel_roas Sample.no_conversion ∧ ChannelRoas.key r = (0, 1)
          ∧ ChannelRoas.roas r = 0%Qc)
  ∧ (∀ r, r ∈ Dag.segment_cac Sample.no_conversion → SegmentCac.key r ≠ (0, 1))
  ∧ (∀ r, r ∈ Dag.channel_roas Sample.no_conversion → ChannelRoas.key r ≠ (0, 1)).
Proof.
  destruct (spend_without_acquisitions Sample.no_conversion 0 1) as (H1 & H2 & H3 & H4).
  split; [|split; [|split]].
  - apply H1; [by_evaluation|by_evaluation|reflexivity].
  - apply H2; [by_evaluation|by_evaluation|reflexivity].
  - apply H3. reflexivity.
  - apply H4. reflexivity.
Defined.

(** Claim C3 as stated fails for the segment_cac view of calculate_metrics:
    a segment touched by an event of a campaign with spend, and without a
    conversion, has no row for that day. *)
Lemma no_row_without_conversion :
  is_Some (segments Sample.no_conversion !! 1)
  ∧ Facts.touching Sample.no_conversion 0 1 ≠ []
  ∧ Facts.acquisitions Sample.no_conversion 0 1 = 0
  ∧ ¬ ∃ r, r ∈ Dag.segment_cac Sample.no_conversion ∧ SegmentCac.key r = (0, 1).
Proof.
  split; [by_evaluation|]. split; [by_evaluation|]. split; [reflexivity|].
  intros (r & Hr & _). vm_compute in Hr. by apply not_elem_of_nil in Hr.
Qed.

(** ** Campaign performance *)

Module CampaignFacts.
Import Views.

Lemma elem_of_campaign_join db j :
j ∈ campaign_join db →
campaigns db !! j.1.2.1 = Some j.1.2.2
∧ Campaign.channel_id j.1.2.2 = Some j.2.1
∧ channels db !! j.2.1 = Some j.2.2.
Proof.
unfold campaign_join.
intros (c & Hj & Hc)%list_elem_of_bind.
apply list_elem_of_bind in Hj as ([cid ca] & Hj & Hca).
apply list_elem_of_bind in Hj as ([chid ch] & Hj & Hch).
apply list_elem_of_singleton in Hj as ->. simpl in *.
apply elem_of_option_list, join_pk_Some in Hca as [_ Hca].
apply elem_of_option_list, join_pk_Some in Hch as [Hk Hch]. done.
Qed.

Lemma campaign_join_key db d cid ca chid ch :
campaigns db !! cid = Some ca → Campaign.channel_id ca = Some chid →
channels db !! chid = Some ch →
(λ j : Conversion.t * (Z * Campaign.t) * (Z * Channel.t), j.1.1)
  <$> filter (λ j, (DATE (Conversion.timestamp j.1.1), j.1.2.1) = (d, cid))
        (campaign_join db)
= Facts.day_conversions db d cid.
Proof.
intros Hca Hchid Hch. unfold campaign_join, Facts.day_conversions.
induction (conversions db) as [|c cs IH]; [done|].
rewrite bind_cons, filter_app, fmap_app, IH. clear IH.
rewrite (filter_cons _ c). unfold join_pk.
destruct (Conversion.campaign_id c) as [k|] eqn:Hk; simpl.
2:{ rewrite decide_False; [done|]. by intros [_ ?]. }
destruct (decide (k = cid)) as [->|Hne].
- rewrite Hca. simpl. rewrite Hchid. simpl. rewrite Hch. simpl.
  rewrite filter_cons, filter_nil. simpl.
  repeat case_decide; simpl; try done; exfalso; naive_solver.
- rewrite (decide_False (P := _ ∧ _)) by (intros [_ [= ?]]; done).
  destruct (campaigns db !! k) as [ca'|]; simpl; [|done].
  destruct (Campaign.channel_id ca') as [k'|]; simpl; [|done].
  destruct (channels db !! k') as [ch'|]; simpl; [|done].
  rewrite filter_cons_False; [done|]. simpl. intros [= _ ?]. done.
Qed.

(** Every field of a row is determined by its date and campaign. *)
Lemma campaign_performance_row db r :
r ∈ daily_campaign_performance db →
∃ ca ch,
  campaigns db !! CampaignPerf.campaign_id r = Some ca
  ∧ Campaign.channel_id ca = Some (CampaignPerf.channel_id r)
  ∧ channels db !! CampaignPerf.channel_id r = Some ch
  ∧ Facts.day_conversions db (CampaignPerf.date r) (CampaignPerf.campaign_id r) ≠ []
  ∧ r = CampaignPerf.mk (CampaignPerf.date r) (CampaignPerf.campaign_id r)
          (Campaign.name ca) (CampaignPerf.channel_id r) (Channel.name ch)
          (count_distinct (Conversion.user_id <$>
             Facts.day_conversions db (CampaignPerf.date r) (CampaignPerf.campaign_id r)))
          (Qc_sum (Conversion.value <$>
             Facts.day_conversions db (CampaignPerf.date r) (CampaignPerf.campaign_id r)))
          (ratio_or_zero
             (Qc_sum (Conversion.value <$>
                Facts.day_conversions db (CampaignPerf.date r) (CampaignPerf.campaign_id r)))
             (count_distinct (Conversion.user_id <$>
                Facts.day_conversions db (CampaignPerf.date r) (CampaignPerf.campaign_id r)))).
Proof.
unfold daily_campaign_performance.
intros ([[[[[d cid] cname] chid] chname] g] & -> & Hg)%list_elem_of_fmap. simpl.
apply elem_of_group_by in Hg as (-> & [[c [cid' ca]] [chid' ch]] & Hj & Hk).
pose proof (elem_of_campaign_join db _ Hj) as (Hca & Hchid & Hch). simpl in *.
injection Hk as <- -> <- -> <-.
exists ca, ch. split; [done|]. split; [done|]. split; [done|].
rewrite <- (campaign_join_key db _ cid ca chid ch) by done.
rewrite (filter_ext_in (λ r, campaign_key r = _)
           (λ j, (DATE (Conversion.timestamp j.1.1), j.1.2.1)
                 = (DATE (Conversion.timestamp c), cid))).
2:{ intros [[c' [cid' ca']] [chid' ch']] Hj'. simpl.
    apply elem_of_campaign_join in Hj' as (Hca' & Hchid' & Hch'). simpl in *.
    split; [by intros [= -> -> _ _ _]|]. intros [= -> ->].
    rewrite Hca in Hca'. injection Hca' as <-.
    rewrite Hchid in Hchid'. injection Hchid' as <-.
    rewrite Hch in Hch'. injection Hch' as <-. done. }
split.
- intros Hnil%fmap_nil_inv.
  assert ((c, (cid, ca), (chid, ch))
          ∈ filter (λ j : Conversion.t * (Z * Campaign.t) * (Z * Channel.t),
                      (DATE (Conversion.timestamp j.1.1), j.1.2.1)
                      = (DATE (Conversion.timestamp c), cid))
              (campaign_join db)) as Hin by (by apply list_elem_of_filter).
  rewrite Hnil in Hin. by apply not_elem_of_nil in Hin.
- by rewrite <- !list_fmap_compose.
Qed.

Lemma campaign_performance_complete db d cid ca chid ch :
campaigns db !! cid = Some ca → Campaign.channel_id ca = Some chid →
channels db !! chid = Some ch → Facts.day_conversions db d cid ≠ [] →
∃ r, r ∈ daily_campaign_performance db ∧ CampaignPerf.key r = (d, cid).
Proof.
intros Hca Hchid Hch Hne.
rewrite <- (campaign_join_key db d cid ca chid ch) in Hne by done.
destruct (filter _ (campaign_join db)) as [|j l] eqn:E; [done|].
assert (j ∈ filter (λ j, (DATE (Conversion.timestamp j.1.1), j.1.2.1) = (d, cid))
              (campaign_join db)) as [Hk Hj]%list_elem_of_filter
  by (rewrite E; left).
destruct j as [[c [cid' ca']] [chid' ch']]. simpl in Hk. injection Hk as <- <-.
eexists (CampaignPerf.mk _ _ _ _ _ _ _ _). split.
- unfold daily_campaign_performance. apply list_elem_of_fmap.
  exists (campaign_key (c, (cid', ca'), (chid', ch')),
          filter (λ r, campaign_key r = campaign_key (c, (cid', ca'), (chid', ch')))
            (campaign_join db)).
  split; [reflexivity|]. apply elem_of_group_by; eauto.
- done.
Qed.

Lemma campaign_performance_key_inj db r r' :
r ∈ daily_campaign_performance db → r' ∈ daily_campaign_performance db →
CampaignPerf.key r = CampaignPerf.key r' → r = r'.
Proof.
intros (ca & ch & Hca & Hchid & Hch & _ & Hr)%campaign_performance_row
       (ca' & ch' & Hca' & Hchid' & Hch' & _ & Hr')%campaign_performance_row Hk.
destruct r as [d cid cn chid chn n t a], r' as [d' cid' cn' chid' chn' n' t' a'].
simpl in *. injection Hk as <- <-.
rewrite Hca in Hca'. injection Hca' as <-.
rewrite Hchid in Hchid'. injection Hchid' as <-.
rewrite Hch in Hch'. injection Hch' as <-.
congruence.
Qed.

End CampaignFacts.

Lemma two_distinct (u1 u2 : string) :
  count_distinct [u1; u2] = if decide (u1 = u2) then 1 else 2.
Proof.
  unfold count_distinct. simpl.
  destruct (decide_rel elem_of u1 [u2]) as [Hin|Hin].
  - apply list_elem_of_singleton in Hin. by rewrite decide_True.
  - rewrite decide_False; [|by intros ->; apply Hin; left].
    destruct (decide_rel elem_of u2 []) as [Hin'|_]; [by apply not_elem_of_nil in Hin'|done].
Qed.

Lemma Permutation_pair {A} (l : list A) (x y : A) :
  l ≡ₚ [x; y] → l = [x; y] ∨ l = [y; x].
Proof.
  intros Hp. pose proof (Permutation_length Hp) as Hlen.
  destruct l as [|a [|b [|??]]]; simpl in Hlen; try lia.
  assert (a ∈ [x; y]) as Ha by (rewrite <- Hp; left).
  assert (b ∈ [x; y]) as Hb by (rewrite <- Hp; right; left).
  assert (x ∈ [a; b]) as Hx by (rewrite Hp; left).
  assert (y ∈ [a; b]) as Hy by (rewrite Hp; right; left).
  set_unfold. naive_solver.
Qed.

(** Claim C6, as amended: when campaign 1 and its channel exist and the
    conversions of campaign 1 on a day are exactly two, of 50 and 70, the one
    row of that (date, campaign) has a total of 120 and counts the distinct
    users: 2 conversions and an average of 60 when the two conversions are by
    different users, 1 conversion and an average of 120 when the same user
    converted twice. *)
Theorem two_conversions_row (db : database) (d chid : Z) (ca : Campaign.t) (ch : Channel.t)
    (c1 c2 : Conversion.t) :
  campaigns db !! 1 = Some ca → Campaign.channel_id ca = Some chid →
  channels db !! chid = Some ch →
  Facts.day_conversions db d 1 ≡ₚ [c1; c2] →
  Conversion.value c1 = Qc_of_Z 50 → Conversion.value c2 = Qc_of_Z 70 →
  let n := if decide (Conversion.user_id c1 = Conversion.user_id c2) then 1 else 2 in
  let row := CampaignPerf.mk d 1 (Campaign.name ca) chid (Channel.name ch)
               n (Qc_of_Z 120) (Qc_of_Z 120 / Qc_of_Z n)%Qc in
  row ∈ Views.daily_campaign_performance db
  ∧ (∀ r, r ∈ Views.daily_campaign_performance db → CampaignPerf.key r = (d, 1) → r = row)
  ∧ (Conversion.user_id c1 ≠ Conversion.user_id c2 →
     CampaignPerf.conversions row = 2
     ∧ CampaignPerf.total_conversion_value row = Qc_of_Z 120
     ∧ CampaignPerf.avg_conversion_value row = Qc_of_Z 60).
Proof.
  intros Hca Hchid Hch Hp Hv1 Hv2 n row.
  assert (∀ r, r ∈ Views.daily_campaign_performance db → CampaignPerf.key r = (d, 1) →
               r = row) as Huniq.
  { intros r Hr [= Hd Hc].
    apply CampaignFacts.campaign_performance_row in Hr
      as (ca' & ch' & Hca' & Hchid' & Hch' & _ & ->).
    rewrite Hd, Hc in *. rewrite Hca in Hca'. injection Hca' as <-.
    rewrite Hchid in Hchid'. injection Hchid' as Hk. rewrite <- Hk in *.
    rewrite Hch in Hch'. injection Hch' as <-.
    assert (count_distinct (Conversion.user_id <$> Facts.day_conversions db d 1) = n)
      as ->.
    { apply Permutation_pair in Hp as [-> | ->]; simpl fmap; rewrite two_distinct; subst n.
      - done.
      - repeat case_decide; congruence. }
    assert (Qc_sum (Conversion.value <$> Facts.day_conversions db d 1) = Qc_of_Z 120)
      as ->.
    { rewrite (Qc_sum_Permutation _ (Conversion.value <$> [c1; c2]))
        by (by apply fmap_Permutation).
      simpl. rewrite Hv1, Hv2. by_evaluation. }
    unfold row. f_equal. unfold Views.ratio_or_zero. subst n.
    repeat case_decide; done || lia. }
  split; [|split; [done|]].
  - destruct (CampaignFacts.campaign_performance_complete db d 1 ca chid ch)
      as (r & Hr & Hk); [done..| |].
    { intros Hnil. rewrite Hnil in Hp. by apply Permutation_nil_l in Hp. }
    by rewrite <- (Huniq r Hr Hk).
  - intros Hne. subst row n. simpl. rewrite decide_False by done.
    split; [done|]. split; [done|]. by_evaluation.
Qed.

Lemma two_conversions_row_witness :
  let row := CampaignPerf.mk 0 1 "Spring 2024 Shoes Campaign" 1 "Facebook Ads" 2
               (Qc_of_Z 120) (Qc_of_Z 120 / Qc_of_Z 2)%Qc in
  row ∈ Views.daily_campaign_performance (Sample.two_conversions "u1" "u2")
  ∧ CampaignPerf.conversions row = 2
  ∧ CampaignPerf.total_conversion_value row = Qc_of_Z 120
  ∧ CampaignPerf.avg_conversion_value row = Qc_of_Z 60.
Proof.
  destruct (two_conversions_row (Sample.two_conversions "u1" "u2") 0 1
              (Sample.spring 300) Sample.facebook
              (Conversion.mk 1 "u1" "purchase" (Qc_of_Z 50) (Some 1) (Some 1) 300)
              (Conversion.mk 2 "u2" "purchase" (Qc_of_Z 70) (Some 1) (Some 1) 400))
    as (Hin & _ & Hrow); [reflexivity..|].
  split; [exact Hin|]. apply Hrow. simpl. discriminate.
Defined.

(** Claim C6 as stated fails: two conversions of 50 and 70 by the same user
    give a row with 1 conversion and an average of 120. *)
Lemma same_user_counts_once :
  CampaignPerf.mk 0 1 "Spring 2024 Shoes Campaign" 1 "Facebook Ads" 1
    (Qc_of_Z 120) (Qc_of_Z 120)
  ∈ Views.daily_campaign_performance (Sample.two_conversions "u1" "u1")
  ∧ ∀ r, r ∈ Views.daily_campaign_performance (Sample.two_conversions "u1" "u1") →
         ¬ (CampaignPerf.conversions r = 2
            ∧ CampaignPerf.avg_conversion_value r = Qc_of_Z 60).
Proof.
  split; [by_evaluation|].
  assert (Forall (λ r, CampaignPerf.conversions r ≠ 2)
            (Views.daily_campaign_performance (Sample.two_conversions "u1" "u1")))
    as HF by by_evaluation.
  rewrite Forall_forall in HF. intros r Hr [Hc _]. by apply (HF r Hr).
Qed.

(** ** Facts without a partner row *)

Lemma bind_snoc_nil {A B} (f : A → list B) (l : list A) (a : A) :
  f a = [] → (l ++ [a]) ≫= f = l ≫= f.
Proof. intros Hf. by rewrite bind_app, bind_singleton, Hf, app_nil_r. Qed.

Module LeftOut.
Import Views.

Lemma segment_costs_join_event db e :
join_pk (campaigns db) (UserEvent.campaign_id e) = None →
segment_costs_join (add_event e db) = segment_costs_join db.
Proof.
intros Hj. unfold segment_costs_join, add_event. simpl.
apply bind_snoc_nil. by rewrite Hj.
Qed.

Lemma channel_spend_join_event db e :
join_pk (campaigns db) (UserEvent.campaign_id e) = None
∨ join_pk (channels db) (UserEvent.channel_id e) = None →
channel_spend_join (add_event e db) = channel_spend_join db.
Proof.
intros Hj. unfold channel_spend_join, add_event. simpl.
apply bind_snoc_nil. destruct Hj as [Hj|Hj]; rewrite Hj; [done|].
destruct (join_pk (campaigns db) (UserEvent.campaign_id e)); done.
Qed.

Lemma channel_join_event db e :
join_pk (channels db) (UserEvent.channel_id e) = None →
channel_join (add_event e db) = channel_join db.
Proof.
intros Hj. unfold channel_join, add_event. simpl.
apply bind_snoc_nil. by rewrite Hj.
Qed.

Lemma campaign_join_conversion db c :
join_pk (campaigns db) (Conversion.campaign_id c) = None →
campaign_join (add_conversion c db) = campaign_join db.
Proof.
intros Hj. unfold campaign_join, add_conversion. simpl.
apply bind_snoc_nil. by rewrite Hj.
Qed.

Lemma channel_revenue_join_conversion db c :
join_pk (channels db) (Conversion.channel_id c) = None →
channel_revenue_join (add_conversion c db) = channel_revenue_join db.
Proof.
intros Hj. unfold channel_revenue_join, add_conversion. simpl.
apply bind_snoc_nil. by rewrite Hj.
Qed.

Lemma dag_segment_cac_join_conversion db c :
join_pk (campaigns db) (Conversion.campaign_id c) = None →
Dag.segment_cac_join (add_conversion c db) = Dag.segment_cac_join db.
Proof.
intros Hj. unfold Dag.segment_cac_join, add_conversion. simpl.
rewrite filter_app, filter_cons, filter_nil.
case_decide; [|by rewrite app_nil_r].
apply bind_snoc_nil. rewrite Hj. simpl.
induction (segments_of _ _) as [|sid sids IH]; [done|].
rewrite bind_cons, IH, app_nil_r. unfold join_pk. simpl.
by destruct (segments db !! sid).
Qed.

Lemma dag_channel_roas_join_conversion db c :
join_pk (campaigns db) (Conversion.campaign_id c) = None →
Dag.channel_roas_join (add_conversion c db) = Dag.channel_roas_join db.
Proof.
intros Hj. unfold Dag.channel_roas_join, add_conversion. simpl.
apply bind_snoc_nil. by rewrite Hj.
Qed.

End LeftOut.

(** ** Facts and the foreign keys *)

Lemma dangling_references {T} (tbl : gmap Z T) fk :
  Facts.dangling tbl fk ↔ ¬ Generator.references tbl fk.
Proof.
  destruct fk as [k|]; simpl.
  - rewrite <- eq_None_not_Some. split; [by intros (k' & [= <-] & ?)|]. intros ?. by exists k.
  - split; [by intros (k & ? & _)|tauto].
Qed.

Lemma filter_none {A} (P : A → Prop) `{∀ x, Decision (P x)} (l : list A) :
  Forall (λ x, ¬ P x) l → filter P l = [].
Proof.
  induction 1 as [|x l Hx _ IH]; [done|]. by rewrite filter_cons_False.
Qed.

Module GeneratorFacts.
Import Generator.

Section transaction.
Context {A : Type} (insert : database → A → option database).

Lemma transaction_failed (rows : list A) :
foldl (λ state row, state ≫= λ db, insert db row) None rows = None.
Proof. by induction rows. Qed.

Lemma transaction_cons (r : A) (rows : list A) (db : database) :
transaction insert (r :: rows) db = insert db r ≫= transaction insert rows.
Proof.
unfold transaction. simpl. destruct (insert db r); [done|]. apply transaction_failed.
Qed.

Lemma transaction_invariant (P : database → Prop) (rows : list A) (db db' : database) :
(∀ db r db', P db → insert db r = Some db' → P db') →
P db → transaction insert rows db = Some db' → P db'.
Proof.
intros Hstep. revert db. induction rows as [|r rows IH]; intros db HP Hrun.
- by injection Hrun as <-.
- rewrite transaction_cons in Hrun.
  destruct (insert db r) as [db1|] eqn:E; [|done]. simpl in Hrun. eauto.
Qed.

End transaction.

Lemma insert_user_event_Some db e db' :
insert_user_event db e = Some db' →
db' = add_event e db
∧ (UserEvent.id e ∉ UserEvent.id <$> user_events db)
∧ references (campaigns db) (UserEvent.campaign_id e)
∧ references (channels db) (UserEvent.channel_id e).
Proof.
unfold insert_user_event. repeat case_decide; naive_solver.
Qed.

Lemma insert_conversion_Some db c db' :
insert_conversion db c = Some db' →
db' = add_conversion c db
∧ (Conversion.id c ∉ Conversion.id <$> conversions db)
∧ references (campaigns db) (Conversion.campaign_id c)
∧ references (channels db) (Conversion.channel_id c).
Proof.
unfold insert_conversion. repeat case_decide; naive_solver.
Qed.

Lemma insert_user_events_data_Some events db db' :
insert_user_events_data events db = Some db' →
db' = mk_database (channels db) (segments db) (campaigns db) (user_segments db)
        (user_events db ++ events) (conversions db).
Proof.
unfold insert_user_events_data. revert db.
induction events as [|e events IH]; intros db Hrun.
- injection Hrun as <-. rewrite app_nil_r. by destruct db.
- rewrite transaction_cons in Hrun.
  destruct (insert_user_event db e) as [db1|] eqn:E; [|done].
  apply insert_user_event_Some in E as (-> & _). simpl in Hrun.
  rewrite (IH _ Hrun). simpl. by rewrite <- app_assoc.
Qed.

Lemma insert_conversions_data_Some convs db db' :
insert_conversions_data convs db = Some db' →
db' = mk_database (channels db) (segments db) (campaigns db) (user_segments db)
        (user_events db) (conversions db ++ convs).
Proof.
unfold insert_conversions_data. revert db.
induction convs as [|c convs IH]; intros db Hrun.
- injection Hrun as <-. rewrite app_nil_r. by destruct db.
- rewrite transaction_cons in Hrun.
  destruct (insert_conversion db c) as [db1|] eqn:E; [|done].
  apply insert_conversion_Some in E as (-> & _). simpl in Hrun.
  rewrite (IH _ Hrun). simpl. by rewrite <- app_assoc.
Qed.

Lemma malformed_event_rejected events db :
Exists (Facts.malformed_event db) events → insert_user_events_data events db = None.
Proof.
unfold insert_user_events_data. revert db.
induction events as [|e events IH]; intros db Hex; [by apply Exists_nil in Hex|].
rewrite transaction_cons.
destruct (insert_user_event db e) as [db1|] eqn:E; [|done]. simpl.
apply insert_user_event_Some in E as (-> & _ & Hca & Hch).
apply Exists_cons in Hex as [[Hm|Hm]|Hex].
- by apply dangling_references in Hm.
- by apply dangling_references in Hm.
- by apply IH.
Qed.

Lemma malformed_conversion_rejected convs db :
Exists (Facts.malformed_conversion db) convs → insert_conversions_data convs db = None.
Proof.
unfold insert_conversions_data. revert db.
induction convs as [|c convs IH]; intros db Hex; [by apply Exists_nil in Hex|].
rewrite transaction_cons.
destruct (insert_conversion db c) as [db1|] eqn:E; [|done]. simpl.
apply insert_conversion_Some in E as (-> & _ & Hca & Hch).
apply Exists_cons in Hex as [[Hm|Hm]|Hex].
- by apply dangling_references in Hm.
- by apply dangling_references in Hm.
- by apply IH.
Qed.

Lemma references_insert {T} (tbl : gmap Z T) k v fk :
references tbl fk → references (<[k := v]> tbl) fk.
Proof.
destruct fk as [k'|]; simpl; [|done]. intros [x Hx].
destruct (decide (k = k')) as [->|Hne].
- rewrite lookup_insert_eq. eauto.
- rewrite lookup_insert_ne by done. eauto.
Qed.

Lemma integrity_create_tables : integrity create_tables.
Proof.
unfold integrity, create_tables. simpl.
split; [apply map_Forall_empty|]. split; [apply set_Forall_empty|].
repeat split; constructor.
Qed.

Lemma integrity_insert_channel db row db' :
integrity db → insert_channel db row = Some db' → integrity db'.
Proof.
unfold insert_channel. intros (Hca & Hus & He & Hc & Hie & Hic) Hins.
case_decide; [done|]. injection Hins as <-. unfold integrity. simpl.
split; [|split; [done|split; [|split; [|done]]]].
- intros k ca Hk. apply references_insert. by apply (Hca k).
- eapply Forall_impl; [exact He|]. intros e [? ?]. split; [done|]. by apply references_insert.
- eapply Forall_impl; [exact Hc|]. intros c [? ?]. split; [done|]. by apply references_insert.
Qed.

Lemma integrity_insert_segment db row db' :
integrity db → insert_segment db row = Some db' → integrity db'.
Proof.
unfold insert_segment. intros (Hca & Hus & He & Hc & Hie & Hic) Hins.
case_decide; [done|]. injection Hins as <-. unfold integrity. simpl.
split; [done|]. split; [|done].
intros us Hin. specialize (Hus us Hin). simpl in *.
destruct Hus as [x Hx]. destruct (decide (row.1 = us.2)) as [->|Hne].
- rewrite lookup_insert_eq. eauto.
- rewrite lookup_insert_ne by done. eauto.
Qed.

Lemma integrity_insert_campaign db row db' :
integrity db → insert_campaign db row = Some db' → integrity db'.
Proof.
unfold insert_campaign. intros (Hca & Hus & He & Hc & Hie & Hic) Hins.
repeat case_decide; try done. injection Hins as <-. unfold integrity. simpl.
split; [|split; [done|split; [|split; [|done]]]].
- by apply map_Forall_insert_2.
- eapply Forall_impl; [exact He|]. intros e [? ?]. split; [|done]. by apply references_insert.
- eapply Forall_impl; [exact Hc|]. intros c [? ?]. split; [|done]. by apply references_insert.
Qed.

Lemma integrity_insert_user_segment db row db' :
integrity db → insert_user_segment db row = Some db' → integrity db'.
Proof.
unfold insert_user_segment. intros (Hca & Hus & He & Hc & Hie & Hic) Hins.
repeat case_decide; try done. injection Hins as <-. unfold integrity. simpl.
split; [done|]. split; [|done].
apply set_Forall_union; [by apply set_Forall_singleton|done].
Qed.

Lemma integrity_insert_user_event db e db' :
integrity db → insert_user_event db e = Some db' → integrity db'.
Proof.
intros (Hca & Hus & He & Hc & Hie & Hic) (-> & Hid & Hrca & Hrch)%insert_user_event_Some.
unfold integrity, add_event. simpl.
split; [done|]. split; [done|]. split; [|split; [done|split; [|done]]].
- apply Forall_app. split; [done|]. by repeat constructor.
- rewrite fmap_app. apply NoDup_app. split; [done|]. split.
  + intros i Hi [->|[]%elem_of_nil]%elem_of_cons. done.
  + apply NoDup_singleton.
Qed.

Lemma integrity_insert_conversion db c db' :
integrity db → insert_conversion db c = Some db' → integrity db'.
Proof.
intros (Hca & Hus & He & Hc & Hie & Hic) (-> & Hid & Hrca & Hrch)%insert_conversion_Some.
unfold integrity, add_conversion. simpl.
split; [done|]. split; [done|]. split; [done|]. split; [|split; [done|]].
- apply Forall_app. split; [done|]. by repeat constructor.
- rewrite fmap_app. apply NoDup_app. split; [done|]. split.
  + intros i Hi [->|[]%elem_of_nil]%elem_of_cons. done.
  + apply NoDup_singleton.
Qed.

Lemma integrity_not_malformed db : integrity db → Facts.malformed db = 0%nat.
Proof.
intros (_ & _ & He & Hc & _). unfold Facts.malformed.
assert (filter (Facts.malformed_event db) (user_events db) = []) as ->.
{ apply filter_none. eapply Forall_impl; [exact He|].
  intros e [Hca Hch] [Hm|Hm]; by apply dangling_references in Hm. }
assert (filter (Facts.malformed_conversion db) (conversions db) = []) as ->; [|done].
apply filter_none. eapply Forall_impl; [exact Hc|].
intros c [Hca Hch] [Hm|Hm]; by apply dangling_references in Hm.
Qed.

Lemma no_facts_insert_channel db row db' :
user_events db = [] ∧ conversions db = [] → insert_channel db row = Some db' →
user_events db' = [] ∧ conversions db' = [].
Proof. unfold insert_channel. intros Hdb Hins. case_decide; [done|]. by injection Hins as <-. Qed.

Lemma no_facts_insert_segment db row db' :
user_events db = [] ∧ conversions db = [] → insert_segment db row = Some db' →
user_events db' = [] ∧ conversions db' = [].
Proof. unfold insert_segment. intros Hdb Hins. case_decide; [done|]. by injection Hins as <-. Qed.

Lemma no_facts_insert_campaign db row db' :
user_events db = [] ∧ conversions db = [] → insert_campaign db row = Some db' →
user_events db' = [] ∧ conversions db' = [].
Proof.
unfold insert_campaign. intros Hdb Hins. repeat case_decide; try done.
by injection Hins as <-.
Qed.

Lemma no_facts_insert_user_segment db row db' :
user_events db = [] ∧ conversions db = [] → insert_user_segment db row = Some db' →
user_events db' = [] ∧ conversions db' = [].
Proof.
unfold insert_user_segment. intros Hdb Hins. repeat case_decide; try done.
by injection Hins as <-.
Qed.

Lemma main_Some d db v :
main d = Some (db, v) →
integrity db
∧ user_events db = d_events d ∧ conversions db = d_conversions d
∧ v = (Views.create_materialized_views db).1.
Proof.
unfold main. intros Hmain.
destruct (insert_channels_data _ _) as [db1|] eqn:E1; [|done]. simpl in Hmain.
destruct (insert_segments_data _ _) as [db2|] eqn:E2; [|done]. simpl in Hmain.
destruct (insert_campaigns_data _ _) as [db3|] eqn:E3; [|done]. simpl in Hmain.
destruct (insert_user_segments_data _ _) as [db4|] eqn:E4; [|done]. simpl in Hmain.
destruct (insert_user_events_data _ _) as [db5|] eqn:E5; [|done]. simpl in Hmain.
destruct (insert_conversions_data _ _) as [db6|] eqn:E6; [|done]. simpl in Hmain.
injection Hmain as <- <-.
pose proof (transaction_invariant _ integrity _ _ _ integrity_insert_channel
              integrity_create_tables E1) as H1.
pose proof (transaction_invariant _ integrity _ _ _ integrity_insert_segment H1 E2) as H2.
pose proof (transaction_invariant _ integrity _ _ _ integrity_insert_campaign H2 E3) as H3.
pose proof (transaction_invariant _ integrity _ _ _ integrity_insert_user_segment H3 E4)
  as H4.
pose proof (transaction_invariant _ integrity _ _ _ integrity_insert_user_event H4 E5) as H5.
pose proof (transaction_invariant _ integrity _ _ _ integrity_insert_conversion H5 E6) as H6.
split; [done|].
assert (user_events db4 = [] ∧ conversions db4 = []) as [Hev Hcv].
{ pose (P := λ db, user_events db = [] ∧ conversions db = []).
  assert (P create_tables) as P0 by done.
  assert (P db1) as P1.
  { apply (transaction_invariant _ P _ _ _ no_facts_insert_channel P0 E1). }
  assert (P db2) as P2.
  { apply (transaction_invariant _ P _ _ _ no_facts_insert_segment P1 E2). }
  assert (P db3) as P3.
  { apply (transaction_invariant _ P _ _ _ no_facts_insert_campaign P2 E3). }
  apply (transaction_invariant _ P _ _ _ no_facts_insert_user_segment P3 E4). }
apply insert_user_events_data_Some in E5 as ->.
apply insert_conversions_data_Some in E6 as ->. simpl.
by rewrite Hev, Hcv.
Qed.

End GeneratorFacts.

(** Claim C7, as amended: a fact that names a campaign or a channel that does
    not exist is never stored, and so never reaches aggregation. The foreign
    keys of raw.user_events and analytics.conversions make the insert of a
    batch that holds such a fact fail, and nothing of the batch is stored;
    when main gets through its inserts, the tables hold the generated facts,
    every one of which names an existing campaign and an existing channel, or
    none, and the number of malformed facts is 0. What the views leave out,
    without an error and without counting, are the facts without a campaign
    (a channel): the views whose queries join on that column are those of the
    tables without the fact. *)
Theorem foreign_keys_keep_malformed_facts_out (db : database) :
  (∀ events, Exists (Facts.malformed_event db) events →
     Generator.insert_user_events_data events db = None)
  ∧ (∀ convs, Exists (Facts.malformed_conversion db) convs →
       Generator.insert_conversions_data convs db = None)
  ∧ (∀ d v, Generator.main d = Some (db, v) →
       Generator.integrity db
       ∧ user_events db = Generator.d_events d
       ∧ conversions db = Generator.d_conversions d
       ∧ v = (Views.create_materialized_views db).1)
  ∧ (Generator.integrity db → Facts.malformed db = 0%nat)
  ∧ (∀ e, UserEvent.campaign_id e = None →
       Views.segment_cac (add_event e db) = Views.segment_cac db
       ∧ Views.channel_roas (add_event e db) = Views.channel_roas db)
  ∧ (∀ e, UserEvent.channel_id e = None →
       Views.daily_channel_performance (add_event e db)
       = Views.daily_channel_performance db
       ∧ Views.channel_roas (add_event e db) = Views.channel_roas db)
  ∧ (∀ c, Conversion.campaign_id c = None →
       Views.daily_campaign_performance (add_conversion c db)
       = Views.daily_campaign_performance db
       ∧ Dag.segment_cac (add_conversion c db) = Dag.segment_cac db
       ∧ Dag.channel_roas (add_conversion c db) = Dag.channel_roas db)
  ∧ (∀ c, Conversion.channel_id c = None →
       Views.channel_roas (add_conversion c db) = Views.channel_roas db).
Proof.
  split; [intros events; apply GeneratorFacts.malformed_event_rejected|].
  split; [intros convs; apply GeneratorFacts.malformed_conversion_rejected|].
  split; [intros d v; apply GeneratorFacts.main_Some|].
  split; [apply GeneratorFacts.integrity_not_malformed|].
  split; [|split; [|split]].
  - intros e He. split.
    + unfold Views.segment_cac, Views.segment_costs.
      by rewrite LeftOut.segment_costs_join_event by (by rewrite He).
    + unfold Views.channel_roas, Views.channel_spend.
      by rewrite LeftOut.channel_spend_join_event by (left; by rewrite He).
  - intros e He. split.
    + unfold Views.daily_channel_performance.
      by rewrite LeftOut.channel_join_event by (by rewrite He).
    + unfold Views.channel_roas, Views.channel_spend.
      by rewrite LeftOut.channel_spend_join_event by (right; by rewrite He).
  - intros c Hc. split; [|split].
    + unfold Views.daily_campaign_performance.
      by rewrite LeftOut.campaign_join_conversion by (by rewrite Hc).
    + unfold Dag.segment_cac.
      by rewrite LeftOut.dag_segment_cac_join_conversion by (by rewrite Hc).
    + unfold Dag.channel_roas.
      by rewrite LeftOut.dag_channel_roas_join_conversion by (by rewrite Hc).
  - intros c Hc. unfold Views.channel_roas, Views.channel_revenue.
    by rewrite LeftOut.channel_revenue_join_conversion by (by rewrite Hc).
Qed.

Lemma foreign_keys_keep_malformed_facts_out_witness :
  Generator.insert_user_events_data Generator.with_stray Sample.empty = None
  ∧ Generator.insert_conversions_data [Sample.stray_conversion] Sample.empty = None
  ∧ Generator.integrity Sample.no_conversion
  ∧ Facts.malformed Sample.no_conversion = 0%nat
  ∧ Views.segment_cac
      (add_event (Sample.event 3 "u1" "page_view" 300 None (Some 1)) Sample.no_conversion)
    = Views.segment_cac Sample.no_conversion.
Proof.
  pose proof (foreign_keys_keep_malformed_facts_out Sample.empty) as (Hrej & Hrej' & _).
  pose proof (foreign_keys_keep_malformed_facts_out Sample.no_conversion)
    as (_ & _ & Hmain & Hmal & Hnull & _).
  assert (Generator.integrity Sample.no_conversion) as Hint.
  { apply (Hmain (Generator.sample_data [Sample.event 1 "u1" "click" 100 (Some 1) (Some 1)])
             (Views.create_materialized_views Sample.no_conversion).1).
    vm_compute. reflexivity. }
  split; [apply Hrej; by_evaluation|]. split; [apply Hrej'; by_evaluation|].
  split; [exact Hint|].
  split; [exact (Hmal Hint)|]. apply Hnull. reflexivity.
Defined.

(** Claim C7 as stated fails: a batch with an event that names campaign 9,
    which does not exist, is not stored with that event skipped. The insert
    raises, none of the batch is stored, and main does not get as far as the
    views. *)
Lemma malformed_fact_is_fatal :
  Facts.malformed_event Sample.empty Sample.stray
  ∧ Generator.insert_user_events_data Generator.with_stray Sample.empty = None
  ∧ Generator.main (Generator.sample_data Generator.with_stray) = None.
Proof. split; [by_evaluation|]. split; vm_compute; reflexivity. Qed.

(** * Keys and order *)

(** ** One row per key *)

Lemma view_keys_NoDup {K V R : Type} `{EqDecision K} (key : V → K)
    (agg : K * list V → R) (rk : R → Z * Z) (rows : list V) :
  (∀ kg kg', kg ∈ group_by key rows → kg' ∈ group_by key rows →
     rk (agg kg) = rk (agg kg') → kg.1 = kg'.1) →
  NoDup (rk <$> (agg <$> group_by key rows)).
Proof.
  intros Hinj. rewrite <- list_fmap_compose.
  apply NoDup_fmap_2_strong.
  - intros [k g] [k' g'] Hin Hin' Heq.
    pose proof (Hinj _ _ Hin Hin' Heq) as Hk. simpl in Hk. subst k'.
    apply elem_of_group_by in Hin as [-> _], Hin' as [-> _]. done.
  - eapply NoDup_fmap_1, group_by_NoDup.
Qed.

Lemma elem_of_channel_join db j :
  j ∈ Views.channel_join db → channels db !! j.2.1 = Some j.2.2.
Proof.
  unfold Views.channel_join.
  intros (e & Hj & He)%list_elem_of_bind.
  apply list_elem_of_bind in Hj as ([k ch] & Hj & Hch).
  apply list_elem_of_singleton in Hj as ->. simpl.
  by apply elem_of_option_list, join_pk_Some in Hch as [_ Hch].
Qed.

Lemma elem_of_segment_join db j :
  j ∈ Views.segment_join db → segments db !! j.2.1 = Some j.2.2.
Proof.
  unfold Views.segment_join.
  intros (c & Hj & Hc)%list_elem_of_bind.
  apply list_elem_of_bind in Hj as (sid & Hj & Hsid).
  apply list_elem_of_bind in Hj as ([k s] & Hj & Hs).
  apply list_elem_of_singleton in Hj as ->. simpl.
  by apply elem_of_option_list, join_pk_Some in Hs as [_ Hs].
Qed.

Lemma campaign_performance_keys_NoDup db :
  NoDup (CampaignPerf.key <$> Views.daily_campaign_performance db).
Proof.
  apply NoDup_fmap_2_strong.
  - intros r r'. apply CampaignFacts.campaign_performance_key_inj.
  - unfold Views.daily_campaign_performance.
    apply NoDup_fmap_2_strong; [|eapply NoDup_fmap_1, group_by_NoDup].
    intros [[[[[d cid] cn] chid] chn] g] [[[[[d' cid'] cn'] chid'] chn'] g'] Hin Hin' Heq.
    injection Heq as <- <- <- <- <-.
    apply elem_of_group_by in Hin as [-> _], Hin' as [-> _]. done.
Qed.

Lemma channel_performance_keys_NoDup db :
  NoDup (ChannelPerf.key <$> Views.daily_channel_performance db).
Proof.
  unfold Views.daily_channel_performance. apply view_keys_NoDup.
  intros [[[d chid] chn] g] [[[d' chid'] chn'] g'] Hin Hin' [= <- <-]. simpl.
  apply elem_of_group_by in Hin as (_ & j & Hj & Hk), Hin' as (_ & j' & Hj' & Hk').
  apply elem_of_channel_join in Hj, Hj'.
  injection Hk as _ Hc <-. injection Hk' as _ Hc' <-.
  rewrite Hc in Hj. rewrite Hc' in Hj'. congruence.
Qed.

Lemma segment_performance_keys_NoDup db :
  NoDup (SegmentPerf.key <$> Views.segment_performance db).
Proof.
  unfold Views.segment_performance. apply view_keys_NoDup.
  intros [[[d sid] sn] g] [[[d' sid'] sn'] g'] Hin Hin' [= <- <-]. simpl.
  apply elem_of_group_by in Hin as (_ & j & Hj & Hk), Hin' as (_ & j' & Hj' & Hk').
  apply elem_of_segment_join in Hj, Hj'.
  injection Hk as _ Hc <-. injection Hk' as _ Hc' <-.
  rewrite Hc in Hj. rewrite Hc' in Hj'. congruence.
Qed.

Lemma segment_cac_keys_NoDup db : NoDup (SegmentCac.key <$> Views.segment_cac db).
Proof.
  unfold Views.segment_cac. apply view_keys_NoDup.
  intros [[[[d s] nm] x] g] [[[[d' s'] nm'] x'] g'] Hin Hin' [= <- <-]. simpl.
  apply (left_join_group (λ sc, (Views.sc_date sc, Views.sc_segment_id sc))
           Views.sc_segment_name
           (λ sa, (Views.sa_date sa, Views.sa_segment_id sa)) Views.sa_acquisitions) in Hin
    as (_ & -> & sc & Hsc & Hk & <-);
    [|by (intros ??; split; [intros [-> ->]|intros [= -> ->]])
     |apply SegmentCacFacts.segment_acquisitions_NoDup|apply SegmentCostFacts.segment_costs_name].
  apply (left_join_group (λ sc, (Views.sc_date sc, Views.sc_segment_id sc))
           Views.sc_segment_name
           (λ sa, (Views.sa_date sa, Views.sa_segment_id sa)) Views.sa_acquisitions) in Hin'
    as (_ & -> & sc' & Hsc' & Hk' & <-);
    [|by (intros ??; split; [intros [-> ->]|intros [= -> ->]])
     |apply SegmentCacFacts.segment_acquisitions_NoDup|apply SegmentCostFacts.segment_costs_name].
  rewrite (SegmentCostFacts.segment_costs_name db sc sc') by congruence. done.
Qed.

Lemma channel_roas_keys_NoDup db : NoDup (ChannelRoas.key <$> Views.channel_roas db).
Proof.
  unfold Views.channel_roas. apply view_keys_NoDup.
  intros [[[[d s] nm] x] g] [[[[d' s'] nm'] x'] g'] Hin Hin' [= <- <-]. simpl.
  apply (left_join_group (λ cs, (Views.cs_date cs, Views.cs_channel_id cs))
           Views.cs_channel_name
           (λ cr, (Views.cr_date cr, Views.cr_channel_id cr)) Views.cr_revenue) in Hin
    as (_ & -> & cs & Hcs & Hk & <-);
    [|by (intros ??; split; [intros [-> ->]|intros [= -> ->]])
     |apply ChannelRoasFacts.channel_revenue_NoDup|apply ChannelRoasFacts.channel_spend_name].
  apply (left_join_group (λ cs, (Views.cs_date cs, Views.cs_channel_id cs))
           Views.cs_channel_name
           (λ cr, (Views.cr_date cr, Views.cr_channel_id cr)) Views.cr_revenue) in Hin'
    as (_ & -> & cs' & Hcs' & Hk' & <-);
    [|by (intros ??; split; [intros [-> ->]|intros [= -> ->]])
     |apply ChannelRoasFacts.channel_revenue_NoDup|apply ChannelRoasFacts.channel_spend_name].
  rewrite (ChannelRoasFacts.channel_spend_name db cs cs') by congruence. done.
Qed.

Lemma dag_segment_cac_keys_NoDup db : NoDup (SegmentCac.key <$> Dag.segment_cac db).
Proof.
  unfold Dag.segment_cac. apply view_keys_NoDup.
  intros [[[s nm] d] g] [[[s' nm'] d'] g'] Hin Hin' [= <- <-]. simpl.
  apply elem_of_group_by in Hin as (_ & j & Hj & Hk), Hin' as (_ & j' & Hj' & Hk').
  apply DagFacts.dag_segment_cac_join_elem in Hj, Hj'.
  injection Hk as Hc <- _. injection Hk' as Hc' <- _.
  rewrite Hc in Hj. rewrite Hc' in Hj'. congruence.
Qed.

Lemma dag_channel_roas_keys_NoDup db : NoDup (ChannelRoas.key <$> Dag.channel_roas db).
Proof.
  unfold Dag.channel_roas. apply view_keys_NoDup.
  intros [[[s nm] d] g] [[[s' nm'] d'] g'] Hin Hin' [= <- <-]. simpl.
  apply elem_of_group_by in Hin as (_ & j & Hj & Hk), Hin' as (_ & j' & Hj' & Hk').
  apply DagFacts.dag_channel_roas_join_elem in Hj, Hj'.
  injection Hk as Hc <- _. injection Hk' as Hc' <- _.
  rewrite Hc in Hj. rewrite Hc' in Hj'. congruence.
Qed.

(** ** ORDER BY *)

#[global] Instance row_le_total {R} (key : R → Z * Z) : Total (row_le key).
Proof. intros r1 r2. unfold row_le, key_le. lia. Qed.

#[global] Instance row_le_trans {R} (key : R → Z * Z) : Transitive (row_le key).
Proof. intros r1 r2 r3. unfold row_le, key_le. lia. Qed.

Lemma order_by_sorted {R} (key : R → Z * Z) (rows : list R) :
  Sorted (row_le key) (order_by key rows) ∧ order_by key rows ≡ₚ rows.
Proof.
  split; [apply Sorted_merge_sort, _|apply merge_sort_Permutation].
Qed.

(** * Rounding *)

Lemma Qc_of_Z_this z : (this (Qc_of_Z z) == inject_Z z)%Q.
Proof. unfold Qc_of_Z. simpl. apply Qred_correct. Qed.

Ltac qc_to_q :=
  unfold Qcle, Qclt, Qcminus, Qcplus, Qcopp, Qcmult, Qcdiv, Qcinv in *; simpl in *;
  rewrite ?Qred_correct, ?Qc_of_Z_this in *.

Lemma round_half_even_close (x : Qc) :
  (Qc_of_Z (MockServer.round_half_even x) - x ≤ Q2Qc (1 # 2))%Qc
  ∧ (x - Qc_of_Z (MockServer.round_half_even x) ≤ Q2Qc (1 # 2))%Qc.
Proof.
  unfold MockServer.round_half_even.
  pose proof (Qfloor_le x) as Hlo. pose proof (Qlt_floor x) as Hhi.
  rewrite inject_Z_plus in Hhi.
  repeat case_decide; try destruct (Z.even _).
  all: qc_to_q.
  all: try rewrite inject_Z_plus.
  all: change (inject_Z 1) with 1%Q in *.
  all: lra.
Qed.

Lemma round2_close (x : Qc) :
  (MockServer.round2 x - x ≤ Q2Qc (1 # 200))%Qc
  ∧ (x - MockServer.round2 x ≤ Q2Qc (1 # 200))%Qc.
Proof.
  unfold MockServer.round2.
  destruct (round_half_even_close (x * Qc_of_Z 100)) as [H1 H2].
  revert H1 H2. generalize (MockServer.round_half_even (x * Qc_of_Z 100)). intros r H1 H2.
  qc_to_q.
  change (inject_Z 100) with 100%Q in *.
  assert (/ 100 == 1 # 100)%Q as -> by reflexivity.
  lra.
Qed.

Lemma round2_hundredths (n : Z) :
  MockServer.round2 (Qc_of_Z n / Qc_of_Z 100) = (Qc_of_Z n / Qc_of_Z 100)%Qc.
Proof.
  unfold MockServer.round2. f_equal. f_equal.
  assert (Qc_of_Z n / Qc_of_Z 100 * Qc_of_Z 100 = Qc_of_Z n)%Qc as ->.
  { apply Qc_is_canon. qc_to_q. change (inject_Z 100) with 100%Q. field. }
  unfold MockServer.round_half_even.
  assert (Qfloor (Qc_of_Z n) = n) as ->.
  { rewrite (Qfloor_comp _ _ (Qc_of_Z_this n)). apply Qfloor_Z. }
  rewrite decide_True; [done|].
  qc_to_q. lra.
Qed.

(** * Serving *)

(** ** The key-performance summary *)

Lemma exact_summary (samples : list Qc) (metrics : gmap string (metric_value Qc)) :
  let s := PyFloat.generate_kpi_summary PyFloat.exact samples metrics in
  (PyFloat.kpi s.1, s.2) = MockServer.generate_kpi_summary samples metrics.
Proof.
  unfold PyFloat.generate_kpi_summary, MockServer.generate_kpi_summary, MockServer.len.
  cbn [PyFloat.of_decimal PyFloat.of_int PyFloat.sum PyFloat.truediv PyFloat.int_truediv
       PyFloat.mul PyFloat.round2 PyFloat.uniform PyFloat.exact].
  rewrite !list_fmap_id.
  destruct (SegmentCac.cac <$> MockServer.cac_rows metrics) as [|c0 cs];
    destruct (CampaignPerf.avg_conversion_value <$> MockServer.campaign_rows metrics)
      as [|a0 as_];
    destruct (ChannelRoas.roas <$> MockServer.roas_rows metrics) as [|r0 rs];
    destruct (MockServer.channel_rows metrics) as [|h0 hs];
    destruct (MockServer.campaign_rows metrics) as [|p0 ps];
    repeat (destruct (MockServer.uniform _ _ _) as [? ?]);
    repeat case_decide;
    repeat (destruct (MockServer.uniform _ _ _) as [? ?]);
    reflexivity.
Qed.

(** Claim C5, as amended: each headline number is the claimed value as the
    float operations of Python compute it, rounded by round(x, 2): cac is
    the rounded quotient of the sum of the cac values and their number, clv
    the rounded triple of that quotient for the average conversion values,
    roas the rounded quotient for the roas values, and conversion_rate the
    rounded hundredfold of the summed conversions divided by the summed
    clicks, computed when both lists have rows and there are clicks; each is
    the int 0 when its list is empty. This holds whatever the float
    operations return; with the exact arithmetic the summary is that of
    [MockServer]. *)
Theorem kpi_summary_rounded (A : PyFloat.arithmetic) (seed : PyFloat.random A)
    (metrics : gmap string (metric_value Qc)) :
  let k := (PyFloat.generate_kpi_summary A seed metrics).1 in
  let mean := λ values : list (PyFloat.float A),
    PyFloat.truediv A (PyFloat.sum A values)
      (PyFloat.of_int A (Z.of_nat (length values))) in
  let cacs := PyFloat.of_decimal A <$> (SegmentCac.cac <$> MockServer.cac_rows metrics) in
  let avgs :=
    PyFloat.of_decimal A
      <$> (CampaignPerf.avg_conversion_value <$> MockServer.campaign_rows metrics) in
  let roass := PyFloat.of_decimal A <$> (ChannelRoas.roas <$> MockServer.roas_rows metrics) in
  let clicks := Z_sum (ChannelPerf.clicks <$> MockServer.channel_rows metrics) in
  let convs :=
    Z_sum (CampaignPerf.conversions <$> MockServer.campaign_rows metrics) in
  PyFloat.cac k
  = (if decide (MockServer.cac_rows metrics = []) then PyFloat.of_int A 0
     else PyFloat.round2 A (mean cacs))
  ∧ PyFloat.clv k
    = (if decide (MockServer.campaign_rows metrics = []) then PyFloat.of_int A 0
       else PyFloat.round2 A (PyFloat.mul A (mean avgs) (PyFloat.of_int A 3)))
  ∧ PyFloat.roas k
    = (if decide (MockServer.roas_rows metrics = []) then PyFloat.of_int A 0
       else PyFloat.round2 A (mean roass))
  ∧ PyFloat.conversion_rate k
    = (if decide (MockServer.channel_rows metrics ≠ []
                  ∧ MockServer.campaign_rows metrics ≠ [] ∧ 0 < clicks)
       then PyFloat.round2 A
              (PyFloat.mul A (PyFloat.int_truediv A convs clicks) (PyFloat.of_int A 100))
       else PyFloat.of_int A 0)
  ∧ (∀ samples : list Qc,
       let s := PyFloat.generate_kpi_summary PyFloat.exact samples metrics in
       (PyFloat.kpi s.1, s.2) = MockServer.generate_kpi_summary samples metrics).
Proof.
  intros k mean cacs avgs roass clicks convs.
  split; [|split; [|split; [|split]]]; [..|intros samples; apply exact_summary].
  all: subst k mean; unfold PyFloat.generate_kpi_summary;
    fold cacs avgs roass clicks convs; subst cacs avgs roass;
    destruct (MockServer.cac_rows metrics) as [|c0 cs] eqn:Ec;
    destruct (MockServer.campaign_rows metrics) as [|p0 ps] eqn:Ep;
    destruct (MockServer.roas_rows metrics) as [|r0 rs] eqn:Er;
    destruct (MockServer.channel_rows metrics) as [|h0 hs] eqn:Eh;
    rewrite ?fmap_nil, ?fmap_cons; cbv beta iota zeta;
    repeat (destruct (PyFloat.uniform _ _ _ _) as [? ?]);
    repeat case_decide;
    repeat (destruct (PyFloat.uniform _ _ _ _) as [? ?]);
    simpl; try done.
  all: try (exfalso; naive_solver).
Qed.


(** ** The metrics dictionaries *)

Lemma database_get_metrics_dom {V} (sv : stored_views V) s e c g :
  dom (Database.get_metrics sv s e c g) = Main.MetricsResponse.
Proof.
  unfold Database.get_metrics, Main.MetricsResponse.
  rewrite !dom_insert_L, dom_empty_L. set_solver.
Qed.

Lemma main_get_all_metrics_eq {V} today (sv : stored_views V) s e c g :
  Main.get_all_metrics today sv s e c g
  = Database.get_metrics sv (default (today - 30) s) (default today e) c g.
Proof.
  unfold Main.get_all_metrics. apply map_filter_id.
  intros k v Hk. simpl. rewrite <- (database_get_metrics_dom sv (default (today - 30) s)
                                      (default today e) c g).
  apply elem_of_dom. eauto.
Qed.

Lemma mock_get_metrics_dom today samples sv s e c g :
  dom (MockServer.get_metrics today samples sv s e c g).1
  = Main.MetricsResponse ∪ {[ "kpi_summary"%string ]}.
Proof.
  unfold MockServer.get_metrics, Main.MetricsResponse.
  destruct (MockServer.generate_kpi_summary _ _) as [kpi samples']. simpl.
  rewrite !dom_insert_L, dom_empty_L. set_solver.
Qed.

Lemma mock_get_metrics_defaults today samples sv s e c g :
  MockServer.get_metrics today samples sv s e c g
  = MockServer.get_metrics today samples sv
      (Some (default (today - 30) s)) (Some (default today e)) c g.
Proof. done. Qed.

(** In each of the views no two rows share a (date, entity) key, and the
    rows that database.get_metrics serves are those of the stored view that
    the WHERE clause selects, sorted ascending by (date, entity). *)
Theorem view_keys_unique_database_sorted (db : database) {V : Type} (sv : stored_views V)
    (s e : Z) (c g : option Z) :
  (NoDup (CampaignPerf.key <$> Views.daily_campaign_performance db)
   ∧ NoDup (ChannelPerf.key <$> Views.daily_channel_performance db)
   ∧ NoDup (SegmentPerf.key <$> Views.segment_performance db)
   ∧ NoDup (SegmentCac.key <$> Views.segment_cac db)
   ∧ NoDup (ChannelRoas.key <$> Views.channel_roas db)
   ∧ NoDup (SegmentCac.key <$> Dag.segment_cac db)
   ∧ NoDup (ChannelRoas.key <$> Dag.channel_roas db))
  ∧ (∃ l1 l2 l3 l4 l5,
       Database.get_metrics sv s e c g
       = <["campaign_performance"%string := CampaignRows l1]>
         (<["channel_performance"%string := ChannelRows l2]>
         (<["segment_performance"%string := SegmentRows l3]>
         (<["segment_cac"%string := CacRows l4]>
         (<["channel_roas"%string := RoasRows l5]> ∅))))
       ∧ (Sorted (row_le CampaignPerf.key) l1
          ∧ l1 ≡ₚ where_ (λ r, (CampaignPerf.date r, CampaignPerf.channel_id r)) s e c
                    (sv_campaign_performance sv))
       ∧ (Sorted (row_le ChannelPerf.key) l2
          ∧ l2 ≡ₚ where_ ChannelPerf.key s e c (sv_channel_performance sv))
       ∧ (Sorted (row_le SegmentPerf.key) l3
          ∧ l3 ≡ₚ where_ SegmentPerf.key s e g (sv_segment_performance sv))
       ∧ (Sorted (row_le SegmentCac.key) l4
          ∧ l4 ≡ₚ where_ SegmentCac.key s e g (sv_segment_cac sv))
       ∧ (Sorted (row_le ChannelRoas.key) l5
          ∧ l5 ≡ₚ where_ ChannelRoas.key s e c (sv_channel_roas sv))).
Proof.
  split.
  - repeat split.
    + apply campaign_performance_keys_NoDup.
    + apply channel_performance_keys_NoDup.
    + apply segment_performance_keys_NoDup.
    + apply segment_cac_keys_NoDup.
    + apply channel_roas_keys_NoDup.
    + apply dag_segment_cac_keys_NoDup.
    + apply dag_channel_roas_keys_NoDup.
  - do 5 eexists. split; [reflexivity|].
    repeat split; apply order_by_sorted.
Qed.

(** Claim C8 where the code departs from it: on stored views in which the
    campaign view holds the row of day 1 before the row of day 0,
    mock_server.get_metrics, whose selections have no ORDER BY, serves the
    campaign rows of the window from day 0 to day 1 as they are stored, day 1
    first, which is not sorted; database.get_metrics serves the same rows
    sorted. *)
Theorem mock_server_keeps_stored_order :
  (MockServer.get_metrics 1 [] Sample.day_one_first (Some 0) (Some 1) None None).1
    !! "campaign_performance"%string
  = Some (CampaignRows (sv_campaign_performance Sample.day_one_first))
  ∧ ¬ Sorted (row_le CampaignPerf.key) (sv_campaign_performance Sample.day_one_first)
  ∧ Database.get_metrics Sample.day_one_first 0 1 None None
      !! "campaign_performance"%string
    = Some (CampaignRows (reverse (sv_campaign_performance Sample.day_one_first)))
  ∧ Sorted (row_le CampaignPerf.key)
      (reverse (sv_campaign_performance Sample.day_one_first)).
Proof.
  split; [by_evaluation|]. split; [|split; [by_evaluation|]].
  - intros Hs. apply Sorted_inv in Hs as [_ Hhd]. apply HdRel_inv in Hhd.
    unfold row_le, key_le in Hhd. simpl in Hhd. lia.
  - repeat constructor.
Qed.

(** Claim C9, as amended: mock_server.get_metrics returns the six fields
    (the five view lists and kpi_summary); database.get_metrics, and with it
    the /metrics/ endpoint of main.py, whose response model has no such
    field, returns the five view lists only. In both servers a start date
    that is left out is replaced by the day 30 days before today and an end
    date that is left out by today, each on its own. *)
Theorem get_metrics_fields {V : Type} (today : Z) (samples : list Qc)
    (svq : stored_views Qc) (sv : stored_views V) (s e c g : option Z) :
  dom (MockServer.get_metrics today samples svq s e c g).1
  = ({[ "campaign_performance"%string; "channel_performance"%string;
        "segment_performance"%string; "segment_cac"%string; "channel_roas"%string;
        "kpi_summary"%string ]} : gset string)
  ∧ dom (Main.get_all_metrics today sv s e c g)
    = ({[ "campaign_performance"%string; "channel_performance"%string;
          "segment_performance"%string; "segment_cac"%string;
          "channel_roas"%string ]} : gset string)
  ∧ dom (Database.get_metrics sv (default (today - 30) s) (default today e) c g)
    = dom (Main.get_all_metrics today sv s e c g)
  ∧ MockServer.get_metrics today samples svq s e c g
    = MockServer.get_metrics today samples svq
        (Some (default (today - 30) s)) (Some (default today e)) c g
  ∧ Main.get_all_metrics today sv s e c g
    = Database.get_metrics sv (default (today - 30) s) (default today e) c g.
Proof.
  split; [|split; [|split; [|split]]].
  - rewrite mock_get_metrics_dom. unfold Main.MetricsResponse. set_solver.
  - rewrite main_get_all_metrics_eq. apply database_get_metrics_dom.
  - by rewrite main_get_all_metrics_eq.
  - apply mock_get_metrics_defaults.
  - apply main_get_all_metrics_eq.
Qed.

(** Claim C9 as stated fails for database.get_metrics behind main.py: the
    dictionary it returns has no kpi_summary. *)
Lemma main_metrics_without_kpi_summary :
  "kpi_summary"%string
  ∉ dom (Main.get_all_metrics 1
           (MockServer.stored (Views.create_materialized_views Sample.late_first).1)
           None None None None).
Proof. by_evaluation. Qed.

(** Claim C5 as stated fails: three segment-day rows with cac 1, 0 and 0 have
    the mean 1/3, and the summary holds 0.33. *)
Lemma kpi_cac_is_rounded :
  PyFloat.cac (PyFloat.generate_kpi_summary PyFloat.exact [] Sample.thirds).1
  = Q2Qc (33 # 100)
  ∧ PyFloat.cac (PyFloat.generate_kpi_summary PyFloat.exact [] Sample.thirds).1
    ≠ Facts.mean (SegmentCac.cac <$> MockServer.cac_rows Sample.thirds).
Proof. split; [by_evaluation|refute_by_evaluation]. Qed.

(** * The hourly ETL *)

(** ** The hourly transform *)

Lemma Z_sum_app l1 l2 : Z_sum (l1 ++ l2) = Z_sum l1 + Z_sum l2.
Proof. induction l1 as [|x l1 IH]; simpl; lia. Qed.

Lemma Z_sum_Permutation l1 l2 : l1 ≡ₚ l2 → Z_sum l1 = Z_sum l2.
Proof. induction 1; simpl; lia. Qed.

Lemma Z_sum_lengths {A} (ls : list (list A)) :
  Z_sum ((λ l, Z.of_nat (length l)) <$> ls) = Z.of_nat (length (concat ls)).
Proof.
  induction ls as [|l ls IH]; [done|].
  rewrite fmap_cons. simpl concat. rewrite length_app.
  change (Z_sum (?x :: ?y)) with (x + Z_sum y). rewrite IH. lia.
Qed.

Lemma omap_cons_case {A B} (f : A → option B) (x : A) (l : list A) :
  omap f (x :: l) = match f x with Some y => y :: omap f l | None => omap f l end.
Proof. done. Qed.

Module TransformFacts.
Import Dag.

Lemma bucket_key_present e : is_Some (bucket_key e) ↔ keys_present e.
Proof.
unfold bucket_key, keys_present.
destruct (UserEvent.campaign_id e) as [ca|], (UserEvent.channel_id e) as [ch|],
  (read_field (UserEvent.name e)) as [n|]; simpl; unfold is_Some; naive_solver.
Qed.

Lemma keyed_length df : length (keyed df) = length (filter keys_present df).
Proof.
unfold keyed. induction df as [|e df IH]; [done|].
rewrite omap_cons_case. pose proof (bucket_key_present e) as Hp.
destruct (bucket_key e) as [k|] eqn:E.
- rewrite filter_cons_True by (apply Hp; eauto). simpl. by rewrite IH.
- rewrite filter_cons_False; [done|]. intros Hk%Hp. by destruct Hk.
Qed.

Lemma read_field_Some s : is_Some (read_field s) ↔ s ∉ na_values.
Proof. unfold read_field. case_decide; unfold is_Some; naive_solver. Qed.

Lemma keyed_group_length df k :
length (filter (λ r : (Z * Z * Z * Z * string) * UserEvent.t, r.1 = k) (keyed df))
= length (filter (λ e, bucket_key e = Some k) df).
Proof.
unfold keyed. induction df as [|e df IH]; [done|].
destruct (decide (bucket_key e = Some k)) as [Hk|Hk].
- rewrite (filter_cons_True _ e) by done. rewrite omap_cons_case, Hk. simpl.
  rewrite filter_cons_True by done. simpl. by rewrite IH.
- rewrite (filter_cons_False _ e) by done. rewrite omap_cons_case.
  destruct (bucket_key e) as [k'|]; simpl; [|done].
  rewrite filter_cons_False; [done|]. simpl. congruence.
Qed.

Lemma elem_of_transform df b :
b ∈ transform_events_data df →
∃ ca ch,
  b_campaign_id b = Some ca ∧ b_channel_id b = Some ch
  ∧ b_event_count b
    = Z.of_nat (length (filter (λ e, bucket_key e
                                     = Some (ca, ch, b_event_date b, b_event_hour b,
                                             b_event_name b)) df))
  ∧ 0 < b_event_count b.
Proof.
unfold transform_events_data.
intros ([[[[[ca ch] d] h] n] g] & -> & Hg)%list_elem_of_fmap. simpl.
rewrite merge_sort_Permutation in Hg.
pose proof (group_by_nonempty _ _ _ _ Hg) as Hne.
apply elem_of_group_by in Hg as [-> _].
exists ca, ch. split; [done|]. split; [done|].
rewrite keyed_group_length. split; [done|].
rewrite <- keyed_group_length.
destruct (filter _ (keyed df)); [done|simpl; lia].
Qed.

Lemma transform_total_count df :
Z_sum (b_event_count <$> transform_events_data df)
= Z.of_nat (length (filter keys_present df)).
Proof.
unfold transform_events_data. rewrite <- list_fmap_compose.
rewrite <- keyed_length.
rewrite <- (Permutation_length (group_by_partition fst (keyed df))).
rewrite <- Z_sum_lengths, <- list_fmap_compose.
etrans; [apply Z_sum_Permutation, fmap_Permutation, merge_sort_Permutation|].
f_equal. apply list_fmap_ext. by intros i [[[[[??]?]?]?]?] _.
Qed.

End TransformFacts.

Lemma filter_length_le {A} (P Q : A → Prop) `{∀ x, Decision (P x), ∀ x, Decision (Q x)}
    (l : list A) :
  (∀ x, P x → Q x) → (length (filter P l) ≤ length (filter Q l))%nat.
Proof.
  intros HPQ. induction l as [|x l IH]; [done|].
  rewrite !filter_cons.
  destruct (decide (P x)) as [HP|HP], (decide (Q x)) as [HQ|HQ]; simpl; try lia.
  by destruct HQ; apply HPQ.
Qed.

(** Claim C10, as amended: every bucket of the transformed frame carries a
    campaign and a channel and counts at least one event, and only events of
    the batch with that campaign and that channel, of its date and its hour;
    the event counts of all buckets add up to the number of batch rows whose
    grouping keys are all present in the frame that is read from the file of
    the batch, which are the rows with a campaign, with a channel and with a
    name that read_csv does not read as missing; and this can be less than
    the size of the batch. *)
Theorem transform_drops_missing_keys :
  (∀ df,
     Forall (λ b, ∃ ca ch,
               Dag.b_campaign_id b = Some ca ∧ Dag.b_channel_id b = Some ch
               ∧ 0 < Dag.b_event_count b
               ∧ Dag.b_event_count b
                 ≤ Z.of_nat (length (filter (λ e, UserEvent.campaign_id e = Some ca
                                                  ∧ UserEvent.channel_id e = Some ch
                                                  ∧ DATE (UserEvent.timestamp e)
                                                    = Dag.b_event_date b
                                                  ∧ HOUR (UserEvent.timestamp e)
                                                    = Dag.b_event_hour b) df)))
            (Dag.transform_events_data df)
     ∧ Z_sum (Dag.b_event_count <$> Dag.transform_events_data df)
       = Z.of_nat (length (filter Dag.keys_present df)))
  ∧ (∀ e, Dag.keys_present e
          ↔ is_Some (UserEvent.campaign_id e) ∧ is_Some (UserEvent.channel_id e)
            ∧ UserEvent.name e ∉ Dag.na_values)
  ∧ (∃ df, Z_sum (Dag.b_event_count <$> Dag.transform_events_data df)
           < Z.of_nat (length df)).
Proof.
  split; [|split].
  - intros df. split.
    + apply Forall_forall. intros b Hb.
      apply TransformFacts.elem_of_transform in Hb as (ca & ch & Hca & Hch & Hn & Hpos).
      exists ca, ch. split; [done|]. split; [done|]. split; [done|].
      rewrite Hn. apply inj_le, filter_length_le. intros e. unfold Dag.bucket_key.
      destruct (UserEvent.campaign_id e), (UserEvent.channel_id e),
        (Dag.read_field (UserEvent.name e)); simpl; naive_solver.
    + apply TransformFacts.transform_total_count.
  - intros e. unfold Dag.keys_present. by rewrite TransformFacts.read_field_Some.
  - exists Sample.first_hour. by_evaluation.
Qed.

(** Claim C10 as stated fails: two events that have a campaign, a channel
    and a name in the table, the name NA and the empty name, are in no
    bucket, since their names are missing in the frame that is read from the
    file. *)
Lemma nameless_events_dropped :
  Forall (λ e, is_Some (UserEvent.campaign_id e) ∧ is_Some (UserEvent.channel_id e))
    Sample.nameless
  ∧ length Sample.nameless = 2%nat
  ∧ Dag.transform_events_data Sample.nameless = []
  ∧ Z_sum (Dag.b_event_count <$> Dag.transform_events_data Sample.nameless) = 0.
Proof. by_evaluation. Qed.

(** ** The hourly load *)

Module LoadFacts.
Import Dag.

Lemma foldl_insert now df t :
∃ new,
  rows (foldl (insert now) t df) = rows t ++ new
  ∧ stored_bucket <$> new = df
  ∧ h_id <$> new = seqZ (next_id t) (Z.of_nat (length df))
  ∧ next_id (foldl (insert now) t df) = next_id t + Z.of_nat (length df).
Proof.
revert t. induction df as [|b df IH]; intros t.
- exists []. simpl. rewrite app_nil_r. split; [done|]. split; [done|]. split; [done|lia].
- simpl foldl. destruct (IH (insert now t b)) as (new & Hr & Hb & Hid & Hn).
  exists (mk_hourly_event (next_id t) (b_campaign_id b) (b_channel_id b)
            (b_event_date b) (b_event_hour b) (b_event_name b)
            (b_unique_users b) (b_event_count b) now :: new).
  split; [|split; [|split]].
  + rewrite Hr. simpl rows. by rewrite <- app_assoc.
  + rewrite fmap_cons, Hb. by destruct b.
  + rewrite fmap_cons, Hid. simpl h_id. simpl next_id.
    replace (Z.of_nat (length (b :: df))) with (Z.succ (Z.of_nat (length df)))
      by (simpl length; lia).
    rewrite (seqZ_cons (next_id t)) by lia.
    f_equal. f_equal; lia.
  + rewrite Hn. simpl. lia.
Qed.


End LoadFacts.



(** * The hourly windows and the daily archive *)

Lemma filter_disjoint_union {A} (P Q R : A → Prop)
    `{∀ x, Decision (P x), ∀ x, Decision (Q x), ∀ x, Decision (R x)} (l : list A) :
  (∀ x, R x ↔ P x ∨ Q x) → (∀ x, P x → Q x → False) →
  filter P l ++ filter Q l ≡ₚ filter R l.
Proof.
  intros HR Hd. induction l as [|x l IH]; [done|].
  rewrite !filter_cons.
  destruct (decide (P x)) as [HP|HP], (decide (Q x)) as [HQ|HQ],
    (decide (R x)) as [Hr|Hr]; try (exfalso; naive_solver).
  - simpl. by rewrite IH.
  - rewrite <- Permutation_middle. by rewrite IH.
  - done.
Qed.

Lemma DATE_spec ts d : DATE ts = d ↔ d * 86400 ≤ ts ∧ ts < d * 86400 + 86400.
Proof. unfold DATE. split; [intros <-|intros ?]; Z.to_euclidean_division_equations; lia. Qed.

Lemma execution_dates_S t0 n :
  DagRuns.execution_dates t0 (S n)
  = DagRuns.execution_dates t0 n ++ [t0 + 3600 * (Z.of_nat n + 1)].
Proof.
  unfold DagRuns.execution_dates.
  replace (Z.of_nat (S n)) with (Z.of_nat n + 1) by lia.
  rewrite seqZ_app by lia. rewrite fmap_app. f_equal.
  rewrite (seqZ_cons _ 1) by lia. rewrite seqZ_nil by lia.
  rewrite list_fmap_singleton. do 2 f_equal. lia.
Qed.

Lemma extracts_tile (t0 : Z) (n : nat) (events : list UserEvent.t) :
  concat ((λ t, Dag.extract_events_data t events) <$> DagRuns.execution_dates t0 n)
  ≡ₚ filter (λ e, t0 ≤ UserEvent.timestamp e
                  ∧ UserEvent.timestamp e < t0 + 3600 * Z.of_nat n) events.
Proof.
  induction n as [|n IH].
  - simpl. symmetry. apply Permutation_nil_r.
    induction events as [|e l IHl]; [done|].
    rewrite filter_cons_False by lia. done.
  - rewrite execution_dates_S, fmap_app, concat_app. simpl. rewrite app_nil_r, IH.
    apply filter_disjoint_union; unfold Dag.extract_events_data; intros e; lia.
Qed.

(** Consecutive hourly runs extract every event of the period they cover
    exactly once: the batches of [n] runs, taken together, are the events from
    the start of the first hour to the end of the last, and no event is in the
    batches of two different runs. *)
Theorem hourly_windows_tile (t0 : Z) (n : nat) (events : list UserEvent.t) :
  concat ((λ t, Dag.extract_events_data t events) <$> DagRuns.execution_dates t0 n)
  ≡ₚ filter (λ e, t0 ≤ UserEvent.timestamp e
                  ∧ UserEvent.timestamp e < t0 + 3600 * Z.of_nat n) events
  ∧ (∀ t t' e, t ∈ DagRuns.execution_dates t0 n → t' ∈ DagRuns.execution_dates t0 n →
       e ∈ Dag.extract_events_data t events → e ∈ Dag.extract_events_data t' events →
       t = t').
Proof.
  split; [apply extracts_tile|].
  unfold DagRuns.execution_dates, Dag.extract_events_data.
  intros t t' e (k & -> & Hk)%list_elem_of_fmap (k' & -> & Hk')%list_elem_of_fmap
    [He _]%list_elem_of_filter [He' _]%list_elem_of_filter.
  f_equal. lia.
Qed.

Lemma create_table_if_not_exists_as_lookup {T} (tables : gmap Z T) name query d :
  DagArchive.create_table_if_not_exists_as tables name query !! d
  = if decide (d = name) then Some (default query (tables !! name)) else tables !! d.
Proof.
  unfold DagArchive.create_table_if_not_exists_as.
  destruct (tables !! name) as [old|] eqn:E; case_decide; subst; simpl.
  - done.
  - done.
  - by rewrite lookup_insert_eq.
  - by rewrite lookup_insert_ne.
Qed.

Lemma create_table_if_not_exists_as_twice {T} (tables : gmap Z T) name q q' :
  DagArchive.create_table_if_not_exists_as
    (DagArchive.create_table_if_not_exists_as tables name q) name q'
  = DagArchive.create_table_if_not_exists_as tables name q.
Proof.
  unfold DagArchive.create_table_if_not_exists_as.
  destruct (tables !! name) as [old|] eqn:E.
  - by rewrite E.
  - by rewrite lookup_insert_eq.
Qed.

(** The archive keeps the first snapshot of a day: a run stores the events
    and the conversions of the day before its execution date when the
    archive has no table for that day, and leaves a table that exists as it
    is; the tables of the other days are not touched; and a second run for
    the same day changes nothing, whatever has happened to the source tables
    in between. *)
Theorem archive_keeps_first_snapshot (execution_date : Z) (db db' : database)
    (a : DagArchive.archive) :
  let yesterday := DATE (execution_date - 86400) in
  let a1 := (DagArchive.archive_daily_data execution_date db a).1 in
  (DagArchive.archive_daily_data execution_date db a).2 = yesterday
  ∧ DagArchive.daily_events a1 !! yesterday
    = Some (default (filter (λ e, DATE (UserEvent.timestamp e) = yesterday) (user_events db))
              (DagArchive.daily_events a !! yesterday))
  ∧ DagArchive.daily_conversions a1 !! yesterday
    = Some (default (filter (λ c, DATE (Conversion.timestamp c) = yesterday)
                       (conversions db))
              (DagArchive.daily_conversions a !! yesterday))
  ∧ (∀ d, d ≠ yesterday →
       DagArchive.daily_events a1 !! d = DagArchive.daily_events a !! d
       ∧ DagArchive.daily_conversions a1 !! d = DagArchive.daily_conversions a !! d)
  ∧ (DagArchive.archive_daily_data execution_date db' a1).1 = a1.
Proof.
  intros yesterday a1. subst a1. unfold DagArchive.archive_daily_data. fold yesterday.
  simpl. split; [done|]. split; [|split; [|split]].
  - by rewrite create_table_if_not_exists_as_lookup, decide_True.
  - by rewrite create_table_if_not_exists_as_lookup, decide_True.
  - intros d Hd. by rewrite !create_table_if_not_exists_as_lookup, !decide_False.
  - by rewrite !create_table_if_not_exists_as_twice.
Qed.

(** The first snapshot of a day holds the events that the 24 hourly runs of
    that day extract, each once. *)
Theorem archive_is_the_hourly_batches (execution_date : Z) (db : database)
    (a : DagArchive.archive) :
  let yesterday := DATE (execution_date - 86400) in
  DagArchive.daily_events a !! yesterday = None →
  ∃ snapshot,
    DagArchive.daily_events (DagArchive.archive_daily_data execution_date db a).1
      !! yesterday = Some snapshot
    ∧ concat ((λ t, Dag.extract_events_data t (user_events db))
                <$> DagRuns.execution_dates (yesterday * 86400) 24)
      ≡ₚ snapshot.
Proof.
  intros yesterday Hnone. eexists. split.
  - unfold DagArchive.archive_daily_data. fold yesterday. simpl.
    rewrite create_table_if_not_exists_as_lookup, decide_True by done.
    rewrite Hnone. reflexivity.
  - rewrite extracts_tile. simpl default.
    erewrite list_filter_iff; [done|].
    intros e. simpl. rewrite DATE_spec. lia.
Qed.

Lemma archive_is_the_hourly_batches_witness :
  ∃ snapshot,
    DagArchive.daily_events
      (DagArchive.archive_daily_data 86400 Sample.two_events
         (DagArchive.mk_archive ∅ ∅)).1 !! 0 = Some snapshot
    ∧ concat ((λ t, Dag.extract_events_data t (user_events Sample.two_events))
                <$> DagRuns.execution_dates (0 * 86400) 24)
      ≡ₚ snapshot.
Proof. apply (archive_is_the_hourly_batches 86400 Sample.two_events). reflexivity. Defined.

(** * The transformed frame *)

Lemma string_compare_lt_trans (s1 s2 s3 : string) :
  String.compare s1 s2 = Lt → String.compare s2 s3 = Lt → String.compare s1 s3 = Lt.
Proof.
  revert s2 s3. induction s1 as [|a1 s1 IH]; intros [|a2 s2] [|a3 s3]; simpl; try done.
  unfold Ascii.compare.
  destruct (N.compare_spec (Ascii.N_of_ascii a1) (Ascii.N_of_ascii a2)) as [E12|L12|G12];
    [|clear IH|done];
    (destruct (N.compare_spec (Ascii.N_of_ascii a2) (Ascii.N_of_ascii a3)) as [E23|L23|G23];
     [| |done]); intros H12 H23.
  - rewrite E12, E23, N.compare_refl. eauto.
  - rewrite E12. by apply N.compare_lt_iff in L23 as ->.
  - rewrite <- E23. by apply N.compare_lt_iff in L12 as ->.
  - assert (Ascii.N_of_ascii a1 < Ascii.N_of_ascii a3)%N as H by lia.
    by apply N.compare_lt_iff in H as ->.
Qed.

Lemma string_leb_trans (s1 s2 s3 : string) :
  String.leb s1 s2 = true → String.leb s2 s3 = true → String.leb s1 s3 = true.
Proof.
  unfold String.leb.
  destruct (String.compare s1 s2) eqn:E12; [| |done].
  - apply String.compare_eq_iff in E12 as ->. done.
  - destruct (String.compare s2 s3) eqn:E23; [| |done].
    + apply String.compare_eq_iff in E23 as <-. by rewrite E12.
    + by rewrite (string_compare_lt_trans s1 s2 s3).
Qed.

#[global] Instance key_leb_total : Total (λ k1 k2, Is_true (Dag.key_leb k1 k2)).
Proof.
  intros [[[[a1 b1] c1] d1] n1] [[[[a2 b2] c2] d2] n2]. simpl.
  destruct (Z.compare_spec a1 a2), (Z.compare_spec a2 a1); try lia; auto.
  destruct (Z.compare_spec b1 b2), (Z.compare_spec b2 b1); try lia; auto.
  destruct (Z.compare_spec c1 c2), (Z.compare_spec c2 c1); try lia; auto.
  destruct (Z.compare_spec d1 d2), (Z.compare_spec d2 d1); try lia; auto.
  destruct (String.leb_total n1 n2) as [-> | ->]; auto.
Qed.

#[global] Instance key_leb_trans : Transitive (λ k1 k2, Is_true (Dag.key_leb k1 k2)).
Proof.
  intros [[[[a1 b1] c1] d1] n1] [[[[a2 b2] c2] d2] n2] [[[[a3 b3] c3] d3] n3]. simpl.
  destruct (Z.compare_spec a1 a2), (Z.compare_spec a2 a3), (Z.compare_spec a1 a3);
    try lia; try done.
  destruct (Z.compare_spec b1 b2), (Z.compare_spec b2 b3), (Z.compare_spec b1 b3);
    try lia; try done.
  destruct (Z.compare_spec c1 c2), (Z.compare_spec c2 c3), (Z.compare_spec c1 c3);
    try lia; try done.
  destruct (Z.compare_spec d1 d2), (Z.compare_spec d2 d3), (Z.compare_spec d1 d3);
    try lia; try done.
  intros H12%Is_true_true H23%Is_true_true. apply Is_true_true.
  by apply (string_leb_trans n1 n2 n3).
Qed.

#[global] Instance key_leb_antisym : AntiSymm (=) (λ k1 k2, Is_true (Dag.key_leb k1 k2)).
Proof.
  intros [[[[a1 b1] c1] d1] n1] [[[[a2 b2] c2] d2] n2]. simpl.
  destruct (Z.compare_spec a1 a2), (Z.compare_spec a2 a1); try lia; try done.
  destruct (Z.compare_spec b1 b2), (Z.compare_spec b2 b1); try lia; try done.
  destruct (Z.compare_spec c1 c2), (Z.compare_spec c2 c1); try lia; try done.
  destruct (Z.compare_spec d1 d2), (Z.compare_spec d2 d1); try lia; try done.
  intros H12%Is_true_true H21%Is_true_true.
  rewrite (String.leb_antisym n1 n2) by done. congruence.
Qed.

#[global] Instance group_le_total {V} : Total (@Dag.group_le V).
Proof. intros g1 g2. apply key_leb_total. Qed.

#[global] Instance group_le_trans {V} : Transitive (@Dag.group_le V).
Proof. intros g1 g2 g3. apply key_leb_trans. Qed.

Lemma keyed_keys df : (Dag.keyed df).*1 = omap Dag.bucket_key df.
Proof.
  unfold Dag.keyed. induction df as [|e df IH]; [done|].
  rewrite !omap_cons_case. destruct (Dag.bucket_key e) as [k|]; [|done].
  change ((λ k0, (k0, e)) <$> Some k) with (Some (k, e)). cbv beta iota.
  rewrite fmap_cons. by f_equal.
Qed.

Lemma keyed_group df k :
  (filter (λ r : (Z * Z * Z * Z * string) * UserEvent.t, r.1 = k) (Dag.keyed df)).*2
  = DagRuns.events_of df k.
Proof.
  unfold Dag.keyed, DagRuns.events_of. induction df as [|e df IH]; [done|].
  rewrite omap_cons_case, (filter_cons _ e).
  destruct (Dag.bucket_key e) as [k'|] eqn:E.
  - change ((λ k0, (k0, e)) <$> Some k') with (Some (k', e)). cbv beta iota.
    rewrite filter_cons.
    destruct (decide (k' = k)) as [->|Hne].
    + rewrite decide_True by done. rewrite decide_True by done.
      rewrite fmap_cons. by f_equal.
    + rewrite decide_False by done. rewrite decide_False by congruence. done.
  - rewrite decide_False by done. done.
Qed.

Lemma omap_fmap {A B C} (f : B → option C) (g : A → B) (l : list A) :
  omap f (g <$> l) = omap (λ x, f (g x)) l.
Proof.
  induction l as [|x l IH]; [done|].
  rewrite fmap_cons, !omap_cons_case, IH. done.
Qed.

(** The frame is the list of the rows of the distinct keys, in the order of
    the sorted groups. *)
Lemma transform_rows df :
  Dag.transform_events_data df
  = DagRuns.bucket_of df <$> (merge_sort Dag.group_le (group_by fst (Dag.keyed df))).*1.
Proof.
  unfold Dag.transform_events_data. rewrite <- list_fmap_compose.
  apply list_fmap_ext. intros i [[[[[ca ch] d] h] n] g] Hg%list_elem_of_lookup_2.
  rewrite merge_sort_Permutation in Hg. apply elem_of_group_by in Hg as [-> _].
  simpl. unfold DagRuns.bucket_of.
  rewrite <- keyed_group, length_fmap, omap_fmap. done.
Qed.

Lemma sorted_keys df :
  let ks := (merge_sort Dag.group_le (group_by fst (Dag.keyed df))).*1 in
  ks ≡ₚ remove_dups (omap Dag.bucket_key df)
  ∧ Sorted (λ k1 k2, Is_true (Dag.key_leb k1 k2)) ks
  ∧ NoDup ks.
Proof.
  intros ks.
  assert (ks ≡ₚ remove_dups (omap Dag.bucket_key df)) as Hp.
  { subst ks. rewrite merge_sort_Permutation, group_by_keys, keyed_keys. done. }
  split; [done|]. split.
  - subst ks. apply (Sorted_fmap fst Dag.group_le); [|apply Sorted_merge_sort, _].
    by intros g1 g2 Hle.
  - rewrite Hp. apply NoDup_remove_dups.
Qed.

Lemma bucket_columns_bucket_of df k : DagRuns.bucket_columns (DagRuns.bucket_of df k) = Some k.
Proof. by destruct k as [[[[ca ch] d] h] n]. Qed.

(** A textual field is read back as it is. *)
Lemma textual_read_field (s : string) : Dag.textual s → Dag.read_field s = Some s.
Proof.
  intros (Hfirst & Hword & Hres). unfold Dag.read_field.
  case_decide as Hin; [|done]. exfalso. unfold Dag.na_values in Hin.
  repeat (apply elem_of_cons in Hin as [->|Hin]);
    first [ by apply not_elem_of_nil in Hin
          | by vm_compute in Hfirst
          | by vm_compute in Hword
          | apply Hres; by_evaluation ].
Qed.

Lemma textual_bucket_key (e : UserEvent.t) :
  Dag.textual (UserEvent.name e) → Dag.bucket_key e = DagRuns.table_key e.
Proof.
  intros Hn. unfold Dag.bucket_key, DagRuns.table_key.
  rewrite (textual_read_field _ Hn).
  by destruct (UserEvent.campaign_id e), (UserEvent.channel_id e).
Qed.

Lemma textual_keys (df : list UserEvent.t) :
  DagRuns.textual_batch df → omap Dag.bucket_key df = omap DagRuns.table_key df.
Proof.
  induction 1 as [|e df [Hn _] _ IH]; [done|].
  by rewrite !omap_cons_case, (textual_bucket_key e Hn), IH.
Qed.

Lemma textual_events_of (df : list UserEvent.t) k :
  DagRuns.textual_batch df →
  DagRuns.events_of df k = filter (λ e, DagRuns.table_key e = Some k) df.
Proof.
  intros Ht. unfold DagRuns.events_of. apply filter_ext_in. intros e He.
  unfold DagRuns.textual_batch in Ht. rewrite Forall_forall in Ht.
  destruct (Ht e He) as [Hn _]. by rewrite (textual_bucket_key e Hn).
Qed.

Lemma textual_users (l : list UserEvent.t) :
  Forall (λ e, Dag.textual (UserEvent.user_id e)) l →
  omap (λ e, Dag.read_field (UserEvent.user_id e)) l = UserEvent.user_id <$> l.
Proof.
  induction 1 as [|e l Hu _ IH]; [done|].
  by rewrite omap_cons_case, (textual_read_field _ Hu), IH.
Qed.

(** For a batch of textual names and users, the transformed frame has one row
    for each distinct key (campaign, channel, date, hour, name) among the
    events that carry a campaign and a channel, and the rows are in the
    ascending order of their keys. *)
Theorem transform_one_row_per_key (df : list UserEvent.t) :
  DagRuns.textual_batch df →
  ∃ ks, DagRuns.bucket_columns <$> Dag.transform_events_data df = Some <$> ks
        ∧ ks ≡ₚ remove_dups (omap DagRuns.table_key df)
        ∧ Sorted (λ k1 k2, Is_true (Dag.key_leb k1 k2)) ks
        ∧ NoDup ks.
Proof.
  intros Ht. destruct (sorted_keys df) as (Hp & Hs & Hnd).
  rewrite (textual_keys df Ht) in Hp.
  eexists. split; [|split; [exact Hp|split; [exact Hs|exact Hnd]]].
  rewrite transform_rows, <- list_fmap_compose.
  apply list_fmap_ext. intros i k _. simpl. apply bucket_columns_bucket_of.
Qed.

Lemma transform_one_row_per_key_witness :
  ∃ ks, DagRuns.bucket_columns <$> Dag.transform_events_data Sample.first_hour = Some <$> ks
        ∧ ks ≡ₚ remove_dups (omap DagRuns.table_key Sample.first_hour)
        ∧ Sorted (λ k1 k2, Is_true (Dag.key_leb k1 k2)) ks
        ∧ NoDup ks.
Proof. apply (transform_one_row_per_key Sample.first_hour). by_evaluation. Defined.

Lemma count_distinct_le {A} `{EqDecision A} (l : list A) :
  count_distinct l ≤ Z.of_nat (length l).
Proof.
  unfold count_distinct. apply inj_le.
  induction l as [|x l IH]; simpl; [done|].
  destruct (decide_rel elem_of x l); simpl; lia.
Qed.

(** For a batch of textual names and users, every row of the transformed
    frame counts the events of its key and their distinct users, at least
    one and at most as many as there are events. *)
Theorem transform_counts_users (df : list UserEvent.t) :
  DagRuns.textual_batch df →
  Forall (λ b, ∃ k, DagRuns.bucket_columns b = Some k
                    ∧ Dag.b_unique_users b
                      = count_distinct
                          (UserEvent.user_id
                             <$> filter (λ e, DagRuns.table_key e = Some k) df)
                    ∧ Dag.b_event_count b
                      = Z.of_nat (length (filter (λ e, DagRuns.table_key e = Some k) df))
                    ∧ 1 ≤ Dag.b_unique_users b ∧ Dag.b_unique_users b ≤ Dag.b_event_count b)
         (Dag.transform_events_data df).
Proof.
  intros Ht. rewrite transform_rows. apply Forall_fmap, Forall_forall.
  intros k Hk. simpl. exists k.
  split; [apply bucket_columns_bucket_of|].
  assert (DagRuns.events_of df k ≠ []) as Hne.
  { destruct (sorted_keys df) as (Hp & _ & _). rewrite Hp in Hk.
    apply elem_of_remove_dups, list_elem_of_omap in Hk as (e & He & Hke).
    intros Hnil. assert (e ∈ DagRuns.events_of df k) as Hin
      by (by apply list_elem_of_filter).
    rewrite Hnil in Hin. by apply not_elem_of_nil in Hin. }
  assert (omap (λ e, Dag.read_field (UserEvent.user_id e)) (DagRuns.events_of df k)
          = UserEvent.user_id <$> DagRuns.events_of df k) as Husers.
  { apply textual_users, Forall_forall. intros e [_ He]%list_elem_of_filter.
    unfold DagRuns.textual_batch in Ht. rewrite Forall_forall in Ht.
    by destruct (Ht e He). }
  rewrite <- (textual_events_of df k Ht).
  destruct k as [[[[ca ch] d] h] n]. simpl. rewrite Husers.
  split; [done|]. split; [done|]. split.
  - assert (0 < count_distinct
                  (UserEvent.user_id <$> DagRuns.events_of df (ca, ch, d, h, n))); [|lia].
    apply count_distinct_pos. by intros ?%fmap_nil_inv.
  - etrans; [apply count_distinct_le|]. by rewrite length_fmap.
Qed.

Lemma transform_counts_users_witness :
  Forall (λ b, ∃ k, DagRuns.bucket_columns b = Some k
                    ∧ Dag.b_unique_users b
                      = count_distinct
                          (UserEvent.user_id
                             <$> filter (λ e, DagRuns.table_key e = Some k)
                                   Sample.first_hour)
                    ∧ Dag.b_event_count b
                      = Z.of_nat (length (filter (λ e, DagRuns.table_key e = Some k)
                                            Sample.first_hour))
                    ∧ 1 ≤ Dag.b_unique_users b ∧ Dag.b_unique_users b ≤ Dag.b_event_count b)
         (Dag.transform_events_data Sample.first_hour).
Proof. apply (transform_counts_users Sample.first_hour). by_evaluation. Defined.

Lemma count_distinct_Permutation {A} `{EqDecision A} (l1 l2 : list A) :
  l1 ≡ₚ l2 → count_distinct l1 = count_distinct l2.
Proof.
  intros Hp. unfold count_distinct. f_equal. apply Permutation_length.
  apply NoDup_Permutation; [apply NoDup_remove_dups..|].
  intros x. by rewrite !elem_of_remove_dups, Hp.
Qed.

Lemma omap_Permutation {A B} (f : A → option B) (l1 l2 : list A) :
  l1 ≡ₚ l2 → omap f l1 ≡ₚ omap f l2.
Proof.
  induction 1 as [|x l1 l2 _ IH|x y l|l1 l2 l3 _ IH1 _ IH2]; [done|..].
  - rewrite !omap_cons_case. destruct (f x); by rewrite IH.
  - rewrite !omap_cons_case. destruct (f x), (f y); (done || apply perm_swap).
  - by etrans.
Qed.

(** The transformed frame does not depend on the order of the extracted
    rows. *)
Theorem transform_ignores_row_order (df df' : list UserEvent.t) :
  df ≡ₚ df' → Dag.transform_events_data df = Dag.transform_events_data df'.
Proof.
  intros Hp. rewrite !transform_rows.
  destruct (sorted_keys df) as (Hk & Hs & _), (sorted_keys df') as (Hk' & Hs' & _).
  simpl in *.
  assert ((merge_sort Dag.group_le (group_by fst (Dag.keyed df))).*1
          = (merge_sort Dag.group_le (group_by fst (Dag.keyed df'))).*1) as <-.
  { apply (Sorted_unique (λ k1 k2, Is_true (Dag.key_leb k1 k2))); [done..|].
    rewrite Hk, Hk'.
    apply NoDup_Permutation; [apply NoDup_remove_dups..|].
    intros k. by rewrite !elem_of_remove_dups, (omap_Permutation _ _ _ Hp). }
  apply list_fmap_ext. intros i [[[[ca ch] d] h] n] _.
  unfold DagRuns.bucket_of, DagRuns.events_of.
  rewrite (count_distinct_Permutation _
             (omap (λ e, Dag.read_field (UserEvent.user_id e))
                (filter (λ e, Dag.bucket_key e = Some (ca, ch, d, h, n)) df')))
    by (apply omap_Permutation; by rewrite Hp).
  by rewrite Hp.
Qed.

Lemma transform_ignores_row_order_witness :
  Dag.transform_events_data Sample.first_hour
  = Dag.transform_events_data (reverse Sample.first_hour).
Proof.
  apply transform_ignores_row_order. symmetry. apply reverse_Permutation.
Defined.

(** * The table of the hourly events *)

Lemma loads_snoc frames f t :
  DagRuns.loads (frames ++ [f]) t
  = (Dag.load_events_data f.1 f.2 (DagRuns.loads frames t)).1.
Proof. unfold DagRuns.loads. by rewrite foldl_app. Qed.

Lemma loads_log frames t :
  ∃ new,
    Dag.table_rows (DagRuns.loads frames t) = Dag.table_rows t ++ new
    ∧ Dag.stored_bucket <$> new = concat frames.*2
    ∧ Dag.h_id <$> new
      = seqZ (Dag.next_id (Dag.create_table_if_not_exists t))
          (Z.of_nat (length (concat frames.*2)))
    ∧ Dag.next_id (Dag.create_table_if_not_exists (DagRuns.loads frames t))
      = Dag.next_id (Dag.create_table_if_not_exists t)
        + Z.of_nat (length (concat frames.*2)).
Proof.
  induction frames as [|[now df] frames IH] using rev_ind.
  - exists []. simpl. rewrite app_nil_r. split; [done|]. split; [done|]. split; [done|lia].
  - destruct IH as (new & Hr & Hb & Hid & Hn).
    rewrite loads_snoc. simpl fst. simpl snd.
    destruct (LoadFacts.foldl_insert now df
                (Dag.create_table_if_not_exists (DagRuns.loads frames t)))
      as (new' & Hr' & Hb' & Hid' & Hn').
    assert (concat (frames ++ [(now, df)]).*2 = concat frames.*2 ++ df) as ->.
    { rewrite fmap_app, concat_app. simpl. by rewrite app_nil_r. }
    exists (new ++ new').
    rewrite length_app, Nat2Z.inj_add.
    unfold Dag.load_events_data, Dag.table_rows in *. simpl.
    split; [|split; [|split]].
    + by rewrite Hr', Hr, app_assoc.
    + by rewrite fmap_app, Hb, Hb'.
    + rewrite fmap_app, Hid, Hid', Hn. rewrite seqZ_app by lia. done.
    + rewrite Hn', Hn. lia.
Qed.


Lemma run_slices_loads now events ts t :
  DagRuns.run_slices now events ts t
  = DagRuns.loads
      ((λ d, (now d, Dag.transform_events_data (Dag.extract_events_data d events))) <$> ts)
      t.
Proof.
  unfold DagRuns.run_slices, DagRuns.loads. revert t.
  induction ts as [|d ts IH]; intros t; [done|]. simpl. by rewrite IH.
Qed.

Lemma Z_sum_concat (ls : list (list Z)) : Z_sum (concat ls) = Z_sum (Z_sum <$> ls).
Proof.
  induction ls as [|l ls IH]; [done|].
  simpl concat. rewrite Z_sum_app, IH. done.
Qed.

Lemma stored_event_count (new : list Dag.hourly_event) :
  Dag.h_event_count <$> new = Dag.b_event_count <$> (Dag.stored_bucket <$> new).
Proof. rewrite <- list_fmap_compose. done. Qed.

(** The hourly runs of a period account for its events: for source events
    with textual names and users, after the runs of [n] consecutive hours
    into a table that did not exist, the event counts of the stored rows add
    up to the number of events of these hours that carry a campaign and a
    channel. *)
Theorem hourly_runs_count_the_period (now : Z → Z) (events : list UserEvent.t)
    (t0 : Z) (n : nat) :
  DagRuns.textual_batch events →
  let t := DagRuns.run_slices now events (DagRuns.execution_dates t0 n) None in
  Z_sum (Dag.h_event_count <$> Dag.table_rows t)
  = Z.of_nat (length (filter (λ e, (is_Some (UserEvent.campaign_id e)
                                    ∧ is_Some (UserEvent.channel_id e))
                                   ∧ t0 ≤ UserEvent.timestamp e
                                   ∧ UserEvent.timestamp e < t0 + 3600 * Z.of_nat n)
                        events)).
Proof.
  intros Ht t. subst t.
  trans (Z.of_nat (length (filter (λ e, Dag.keys_present e
                                        ∧ t0 ≤ UserEvent.timestamp e
                                        ∧ UserEvent.timestamp e < t0 + 3600 * Z.of_nat n)
                             events))).
  2:{ do 2 f_equal. apply filter_ext_in. intros e He.
      unfold DagRuns.textual_batch in Ht. rewrite Forall_forall in Ht.
      destruct (Ht e He) as [Hn _]. unfold Dag.keys_present.
      rewrite (textual_read_field _ Hn). unfold is_Some. naive_solver. }
  rewrite run_slices_loads.
  destruct (loads_log
              ((λ d, (now d, Dag.transform_events_data (Dag.extract_events_data d events)))
                 <$> DagRuns.execution_dates t0 n) None) as (new & Hr & Hb & _).
  rewrite Hr. simpl app. rewrite stored_event_count, Hb.
  rewrite <- list_fmap_compose. simpl.
  set (ts := DagRuns.execution_dates t0 n).
  trans (Z.of_nat (length (filter Dag.keys_present
           (concat ((λ d, Dag.extract_events_data d events) <$> ts))))).
  - clear. induction ts as [|d ts IH]; [done|].
    rewrite !fmap_cons. simpl concat. rewrite fmap_app, Z_sum_app, IH.
    rewrite TransformFacts.transform_total_count.
    rewrite filter_app, length_app. lia.
  - subst ts. rewrite (extracts_tile t0 n events), list_filter_filter. done.
Qed.

Lemma hourly_runs_count_the_period_witness :
  Z_sum (Dag.h_event_count
           <$> Dag.table_rows
                 (DagRuns.run_slices (λ d, d + 100) Sample.first_hour
                    (DagRuns.execution_dates 0 2) None))
  = Z.of_nat (length (filter (λ e, (is_Some (UserEvent.campaign_id e)
                                    ∧ is_Some (UserEvent.channel_id e))
                                   ∧ 0 ≤ UserEvent.timestamp e
                                   ∧ UserEvent.timestamp e < 0 + 3600 * Z.of_nat 2)
                        Sample.first_hour)).
Proof.
  apply (hourly_runs_count_the_period (λ d, d + 100) Sample.first_hour 0 2).
  by_evaluation.
Defined.

(** * The endpoints that read the reference tables *)

Lemma first_by_key {T} (tbl : gmap Z T) (k : Z) :
  MainApi.first (filter (λ r : Z * T, r.1 = k) (MainApi.query tbl))
  = (λ v, (k, v)) <$> tbl !! k.
Proof.
  unfold MainApi.first, MainApi.query.
  destruct (filter _ (map_to_list tbl)) as [|[k' v'] l] eqn:E; simpl.
  - destruct (tbl !! k) as [v|] eqn:Hk; [|done].
    assert ((k, v) ∈ filter (λ r : Z * T, r.1 = k) (map_to_list tbl)) as Hin
      by (apply list_elem_of_filter; split; [done|by apply elem_of_map_to_list]).
    rewrite E in Hin. by apply not_elem_of_nil in Hin.
  - assert ((k', v') ∈ filter (λ r : Z * T, r.1 = k) (map_to_list tbl)) as Hin
      by (rewrite E; left).
    apply list_elem_of_filter in Hin as [Hk Hin]. simpl in Hk. subst k'.
    apply elem_of_map_to_list in Hin. by rewrite Hin.
Qed.

(** A row is looked up by its id, and an id without a row is answered with
    404: GET /channels/{id}, /campaigns/{id} and /segments/{id} return the row
    that the listing endpoint shows under that id, and raise the 404 error of
    their table exactly when the table has no row with the id. *)
Theorem lookup_by_id_or_404 (db : database) (k : Z) :
  ((∀ r, MainApi.get_channel k db = inr r ↔ r ∈ MainApi.get_channels db ∧ r.1 = k)
   ∧ (MainApi.get_channel k db = inl (MainApi.mk_HTTPException 404 "Channel not found")
      ↔ channels db !! k = None)
   ∧ (∀ err, MainApi.get_channel k db = inl err → MainApi.status_code err = 404))
  ∧ ((∀ r, MainApi.get_campaign k db = inr r ↔ r ∈ MainApi.get_campaigns None db ∧ r.1 = k)
     ∧ (MainApi.get_campaign k db = inl (MainApi.mk_HTTPException 404 "Campaign not found")
        ↔ campaigns db !! k = None)
     ∧ (∀ err, MainApi.get_campaign k db = inl err → MainApi.status_code err = 404))
  ∧ ((∀ r, MainApi.get_segment k db = inr r ↔ r ∈ MainApi.get_segments db ∧ r.1 = k)
     ∧ (MainApi.get_segment k db = inl (MainApi.mk_HTTPException 404 "Segment not found")
        ↔ segments db !! k = None)
     ∧ (∀ err, MainApi.get_segment k db = inl err → MainApi.status_code err = 404)).
Proof.
  unfold MainApi.get_channel, MainApi.get_campaign, MainApi.get_segment,
    MainApi.get_channels, MainApi.get_campaigns, MainApi.get_segments, MainApi.all,
    MainApi.query.
  rewrite decide_False by (intros (? & ? & ?); done).
  pose proof (first_by_key (channels db) k) as H1.
  pose proof (first_by_key (campaigns db) k) as H2.
  pose proof (first_by_key (segments db) k) as H3.
  unfold MainApi.query in *. rewrite H1, H2, H3.
  split; [|split].
  - destruct (channels db !! k) as [v|] eqn:E; simpl; (split; [|split]).
    + intros [k' v']. rewrite elem_of_map_to_list. simpl. split.
      * by intros [= <- <-].
      * intros [Hk ->]. rewrite E in Hk. by injection Hk as ->.
    + done.
    + done.
    + intros [k' v']. rewrite elem_of_map_to_list. simpl. split; [done|].
      intros [Hk ->]. by rewrite E in Hk.
    + done.
    + by intros err [= <-].
  - destruct (campaigns db !! k) as [v|] eqn:E; simpl; (split; [|split]).
    + intros [k' v']. rewrite elem_of_map_to_list. simpl. split.
      * by intros [= <- <-].
      * intros [Hk ->]. rewrite E in Hk. by injection Hk as ->.
    + done.
    + done.
    + intros [k' v']. rewrite elem_of_map_to_list. simpl. split; [done|].
      intros [Hk ->]. by rewrite E in Hk.
    + done.
    + by intros err [= <-].
  - destruct (segments db !! k) as [v|] eqn:E; simpl; (split; [|split]).
    + intros [k' v']. rewrite elem_of_map_to_list. simpl. split.
      * by intros [= <- <-].
      * intros [Hk ->]. rewrite E in Hk. by injection Hk as ->.
    + done.
    + done.
    + intros [k' v']. rewrite elem_of_map_to_list. simpl. split; [done|].
      intros [Hk ->]. by rewrite E in Hk.
    + done.
    + by intros err [= <-].
Qed.

Lemma id_given_zero : ¬ id_given (Some 0).
Proof. intros (k & [= <-] & Hk). done. Qed.

Lemma id_given_None : ¬ id_given None.
Proof. intros (k & Hk & _). done. Qed.

(** The campaigns of a channel: with a channel id that is given and not 0,
    both servers list the campaigns of that channel and no others, and leave
    out the campaigns without a channel; without an id, and with the id 0, which
    counts as not given, they list every campaign. No campaign is listed
    twice. *)
Theorem campaigns_of_a_channel (db : database) (c : option Z) :
  (∀ r, r ∈ MainApi.get_campaigns c db
        ↔ campaigns db !! r.1 = Some r.2 ∧ (id_given c → Campaign.channel_id r.2 = c))
  ∧ NoDup (MainApi.get_campaigns c db).*1
  ∧ MainApi.get_campaigns (Some 0) db = MainApi.get_campaigns None db
  ∧ (∀ r, r ∈ MainApi.get_campaigns None db ↔ campaigns db !! r.1 = Some r.2)
  ∧ MockApi.get_campaigns c db = MainApi.get_campaigns c db.
Proof.
  unfold MainApi.get_campaigns, MockApi.get_campaigns, MainApi.all, MainApi.query.
  split; [|split; [|split; [|split]]].
  - intros [k v]. simpl. case_decide.
    + rewrite list_elem_of_filter, elem_of_map_to_list. simpl. tauto.
    + rewrite elem_of_map_to_list. tauto.
  - case_decide.
    + apply NoDup_fmap_fst.
      * intros k v v' [_ Hv]%list_elem_of_filter [_ Hv']%list_elem_of_filter.
        apply elem_of_map_to_list in Hv, Hv'. congruence.
      * apply NoDup_filter, NoDup_map_to_list.
    + apply NoDup_fst_map_to_list.
  - rewrite !decide_False; [done|apply id_given_None|apply id_given_zero].
  - intros [k v]. rewrite decide_False by apply id_given_None.
    by rewrite elem_of_map_to_list.
  - done.
Qed.

(** * The metrics of one kind of entity *)

(** GET /metrics/campaigns/, /metrics/channels/ and /metrics/segments/ never
    fail on a missing field, and return the fields of their entity as GET
    /metrics/ returns them for the same dates and the same filter of that
    entity, whatever the filter of the other entity is. *)
Theorem entity_metrics_agree {V : Type} (today : Z) (sv : stored_views V)
    (s e c g : option Z) :
  let metrics := Main.get_all_metrics today sv s e c g in
  (∃ v, MainApi.get_campaign_metrics today sv s e c
        = Some {[ "campaign_performance"%string := v ]}
        ∧ metrics !! "campaign_performance"%string = Some v)
  ∧ (∃ v w, MainApi.get_channel_metrics today sv s e c
            = Some (<["channel_performance"%string := v]>
                    {[ "channel_roas"%string := w ]})
            ∧ metrics !! "channel_performance"%string = Some v
            ∧ metrics !! "channel_roas"%string = Some w)
  ∧ (∃ v w, MainApi.get_segment_metrics today sv s e g
            = Some (<["segment_performance"%string := v]>
                    {[ "segment_cac"%string := w ]})
            ∧ metrics !! "segment_performance"%string = Some v
            ∧ metrics !! "segment_cac"%string = Some w).
Proof.
  intros metrics. subst metrics. rewrite main_get_all_metrics_eq.
  unfold MainApi.get_campaign_metrics, MainApi.get_channel_metrics,
    MainApi.get_segment_metrics, MainApi.item, Database.get_metrics.
  split; [|split].
  - eexists. split; by simplify_map_eq.
  - do 2 eexists. split; [|split]; by simplify_map_eq.
  - do 2 eexists. split; [|split]; by simplify_map_eq.
Qed.

(** * Filters and windows of the metrics *)

Lemma where_not_given {R} (key : R → Z * Z) s e i i' (rows : list R) :
  ¬ id_given i → ¬ id_given i' → where_ key s e i rows = where_ key s e i' rows.
Proof.
  intros Hi Hi'. unfold where_, selected. apply list_filter_iff. intros r. tauto.
Qed.

(** The id 0 is no filter: a channel id or a segment id of 0 counts as not
    given, and both servers answer as they do without the filter. *)
Theorem zero_id_is_no_filter {V : Type} (sv : stored_views V) (svq : stored_views Qc)
    (today : Z) (samples : list Qc) (s e : Z) (s' e' c g : option Z) :
  Database.get_metrics sv s e (Some 0) g = Database.get_metrics sv s e None g
  ∧ Database.get_metrics sv s e c (Some 0) = Database.get_metrics sv s e c None
  ∧ Main.get_all_metrics today sv s' e' (Some 0) (Some 0)
    = Main.get_all_metrics today sv s' e' None None
  ∧ MockServer.get_metrics today samples svq s' e' (Some 0) g
    = MockServer.get_metrics today samples svq s' e' None g
  ∧ MockServer.get_metrics today samples svq s' e' c (Some 0)
    = MockServer.get_metrics today samples svq s' e' c None.
Proof.
  pose proof id_given_zero as H0. pose proof id_given_None as HN.
  split; [|split; [|split; [|split]]].
  - unfold Database.get_metrics.
    by rewrite !(where_not_given _ s e (Some 0) None).
  - unfold Database.get_metrics.
    by rewrite !(where_not_given _ s e (Some 0) None).
  - rewrite !main_get_all_metrics_eq. unfold Database.get_metrics.
    by rewrite !(where_not_given _ _ _ (Some 0) None).
  - unfold MockServer.get_metrics.
    by rewrite !(where_not_given _ _ _ (Some 0) None).
  - unfold MockServer.get_metrics.
    by rewrite !(where_not_given _ _ _ (Some 0) None).
Qed.

Lemma where_inverted {R} (key : R → Z * Z) s e i (rows : list R) :
  e < s → where_ key s e i rows = [].
Proof.
  intros Hlt. unfold where_, selected.
  induction rows as [|r rows IH]; [done|].
  rewrite filter_cons_False by lia. done.
Qed.

(** A window that ends before it starts selects nothing: both servers
    return five empty lists, without an error, and the mock server a summary
    of zeros for which it draws no random number. *)
Theorem inverted_window_is_empty {V : Type} (sv : stored_views V) (svq : stored_views Qc)
    (today : Z) (samples : list Qc) (s e : Z) (c g : option Z) :
  e < s →
  Database.get_metrics sv s e c g
  = <["campaign_performance"%string := CampaignRows []]>
    (<["channel_performance"%string := ChannelRows []]>
    (<["segment_performance"%string := SegmentRows []]>
    (<["segment_cac"%string := CacRows []]>
    (<["channel_roas"%string := RoasRows []]> ∅))))
  ∧ MockServer.get_metrics today samples svq (Some s) (Some e) c g
    = (<["kpi_summary"%string := KpiSummary (Kpi.mk 0 0 0 0 0 0 0 0)]>
       (<["channel_roas"%string := RoasRows []]>
       (<["segment_cac"%string := CacRows []]>
       (<["segment_performance"%string := SegmentRows []]>
       (<["channel_performance"%string := ChannelRows []]>
       (<["campaign_performance"%string := CampaignRows []]> ∅))))), samples).
Proof.
  intros Hlt. split.
  - unfold Database.get_metrics. by rewrite !where_inverted.
  - unfold MockServer.get_metrics. simpl default. by rewrite !where_inverted.
Qed.

Lemma inverted_window_is_empty_witness :
  Database.get_metrics
    (MockServer.stored (Views.create_materialized_views Sample.late_first).1) 1 0 None None
  = <["campaign_performance"%string := CampaignRows []]>
    (<["channel_performance"%string := ChannelRows []]>
    (<["segment_performance"%string := SegmentRows []]>
    (<["segment_cac"%string := CacRows []]>
    (<["channel_roas"%string := RoasRows []]> ∅))))
  ∧ MockServer.get_metrics 1 []
      (MockServer.stored (Views.create_materialized_views Sample.late_first).1)
      (Some 1) (Some 0) None None
    = (<["kpi_summary"%string := KpiSummary (Kpi.mk 0 0 0 0 0 0 0 0)]>
       (<["channel_roas"%string := RoasRows []]>
       (<["segment_cac"%string := CacRows []]>
       (<["segment_performance"%string := SegmentRows []]>
       (<["channel_performance"%string := ChannelRows []]>
       (<["campaign_performance"%string := CampaignRows []]> ∅))))), []).
Proof. apply inverted_window_is_empty. lia. Defined.

(** * The changes of the key-performance summary *)

Lemma round_half_even_mono (x y : Qc) :
  (x ≤ y)%Qc → MockServer.round_half_even x ≤ MockServer.round_half_even y.
Proof.
  intros Hxy. unfold MockServer.round_half_even.
  pose proof (Qfloor_le x) as Hx1. pose proof (Qlt_floor x) as Hx2.
  pose proof (Qfloor_le y) as Hy1. pose proof (Qlt_floor y) as Hy2.
  assert (Qfloor x ≤ Qfloor y) as Hfl by (by apply Qfloor_resp_le).
  rewrite inject_Z_plus in Hx2, Hy2.
  destruct (decide (Qfloor x = Qfloor y)) as [Heq|Hne].
  - rewrite Heq in *.
    repeat case_decide; try destruct (Z.even _); try lia.
    all: exfalso; qc_to_q; change (inject_Z 1) with 1%Q in *; lra.
  - assert (Qfloor x + 1 ≤ Qfloor y) by lia.
    repeat case_decide; repeat destruct (Z.even _); lia.
Qed.

Lemma Qc_of_Z_le (a b : Z) : a ≤ b → (Qc_of_Z a ≤ Qc_of_Z b)%Qc.
Proof. intros Hab. qc_to_q. by rewrite <- Zle_Qle. Qed.

Lemma round2_mono (x y : Qc) : (x ≤ y)%Qc → (MockServer.round2 x ≤ MockServer.round2 y)%Qc.
Proof.
  intros Hxy. unfold MockServer.round2.
  assert (x * Qc_of_Z 100 ≤ y * Qc_of_Z 100)%Qc as H100.
  { qc_to_q. change (inject_Z 100) with 100%Q. lra. }
  apply round_half_even_mono, Qc_of_Z_le in H100.
  revert H100. generalize (MockServer.round_half_even (x * Qc_of_Z 100)),
    (MockServer.round_half_even (y * Qc_of_Z 100)). intros r1 r2 H.
  qc_to_q. change (inject_Z 100) with 100%Q.
  assert (/ 100 == 1 # 100)%Q as -> by reflexivity. lra.
Qed.

Lemma round2_whole (n : Z) : MockServer.round2 (Qc_of_Z n) = Qc_of_Z n.
Proof.
  assert (Qc_of_Z n = Qc_of_Z (n * 100) / Qc_of_Z 100)%Qc as Hn.
  { apply Qc_is_canon. qc_to_q. rewrite inject_Z_mult.
    change (inject_Z 100) with 100%Q. field. }
  rewrite Hn at 1. rewrite round2_hundredths. by rewrite <- Hn.
Qed.

Lemma round2_range (lo hi : Z) (x : Qc) :
  (Qc_of_Z lo ≤ x)%Qc → (x ≤ Qc_of_Z hi)%Qc →
  (Qc_of_Z lo ≤ MockServer.round2 x)%Qc ∧ (MockServer.round2 x ≤ Qc_of_Z hi)%Qc.
Proof.
  intros Hlo Hhi. split.
  - rewrite <- (round2_whole lo). by apply round2_mono.
  - rewrite <- (round2_whole hi). by apply round2_mono.
Qed.

Lemma uniform_range (a b : Z) (samples : list Qc) :
  a ≤ b → Forall (λ u, (0 ≤ u)%Qc ∧ (u ≤ 1)%Qc) samples →
  ((Qc_of_Z a ≤ (MockServer.uniform (Qc_of_Z a) (Qc_of_Z b) samples).1)%Qc
   ∧ ((MockServer.uniform (Qc_of_Z a) (Qc_of_Z b) samples).1 ≤ Qc_of_Z b)%Qc)
  ∧ Forall (λ u, (0 ≤ u)%Qc ∧ (u ≤ 1)%Qc)
      (MockServer.uniform (Qc_of_Z a) (Qc_of_Z b) samples).2.
Proof.
  intros Hab Hs. apply Qc_of_Z_le in Hab.
  destruct samples as [|u samples]; simpl.
  - split; [|done]. split; [apply Qcle_refl|done].
  - apply Forall_cons in Hs as [[H0 H1] Hs]. split; [|done].
    revert Hab H0 H1. generalize (Qc_of_Z a), (Qc_of_Z b). intros qa qb Hab H0 H1.
    qc_to_q. split; nra.
Qed.

Ltac draw_uniform :=
  match goal with
  | HF : Forall _ ?s |- context [MockServer.uniform (Qc_of_Z ?a) (Qc_of_Z ?b) ?s] =>
    let H := fresh "Hu" in
    pose proof (uniform_range a b s ltac:(lia) HF) as H;
    destruct (MockServer.uniform (Qc_of_Z a) (Qc_of_Z b) s) as [? ?];
    simpl in H; destruct H as [[? ?] ?]; clear HF
  end.

(** The changes that the summary reports stay within the ranges they are
    drawn from: when the random numbers are in the unit interval, cac_change
    is between -15 and 15, clv_change between -10 and 20, roas_change between
    -20 and 40 and conversion_rate_change between -5 and 25; and a change is 0
    when its metric has no rows to be computed from. *)
Theorem kpi_changes_within_range (samples : list Qc)
    (metrics : gmap string (metric_value Qc)) :
  Forall (λ u, (0 ≤ u)%Qc ∧ (u ≤ 1)%Qc) samples →
  let k := (MockServer.generate_kpi_summary samples metrics).1 in
  ((Qc_of_Z (-15) ≤ Kpi.cac_change k)%Qc ∧ (Kpi.cac_change k ≤ Qc_of_Z 15)%Qc)
  ∧ ((Qc_of_Z (-10) ≤ Kpi.clv_change k)%Qc ∧ (Kpi.clv_change k ≤ Qc_of_Z 20)%Qc)
  ∧ ((Qc_of_Z (-20) ≤ Kpi.roas_change k)%Qc ∧ (Kpi.roas_change k ≤ Qc_of_Z 40)%Qc)
  ∧ ((Qc_of_Z (-5) ≤ Kpi.conversion_rate_change k)%Qc
     ∧ (Kpi.conversion_rate_change k ≤ Qc_of_Z 25)%Qc)
  ∧ (MockServer.cac_rows metrics = [] → Kpi.cac_change k = 0%Qc)
  ∧ (MockServer.campaign_rows metrics = [] →
     Kpi.clv_change k = 0%Qc ∧ Kpi.conversion_rate_change k = 0%Qc)
  ∧ (MockServer.roas_rows metrics = [] → Kpi.roas_change k = 0%Qc)
  ∧ (MockServer.channel_rows metrics = [] → Kpi.conversion_rate_change k = 0%Qc).
Proof.
  intros HF k. subst k. unfold MockServer.generate_kpi_summary.
  assert ((Qc_of_Z (-15) ≤ 0)%Qc ∧ (0 ≤ Qc_of_Z 15)%Qc
          ∧ (Qc_of_Z (-10) ≤ 0)%Qc ∧ (0 ≤ Qc_of_Z 20)%Qc
          ∧ (Qc_of_Z (-20) ≤ 0)%Qc ∧ (0 ≤ Qc_of_Z 40)%Qc
          ∧ (Qc_of_Z (-5) ≤ 0)%Qc ∧ (0 ≤ Qc_of_Z 25)%Qc)
    as (? & ? & ? & ? & ? & ? & ? & ?) by (repeat split; by_evaluation).
  destruct (MockServer.cac_rows metrics) as [|c0 cs];
    destruct (MockServer.campaign_rows metrics) as [|p0 ps];
    destruct (MockServer.roas_rows metrics) as [|r0 rs];
    destruct (MockServer.channel_rows metrics) as [|h0 hs];
    simpl fmap; cbv beta iota;
    repeat (first [draw_uniform | case_decide]);
    simpl; repeat split; try done;
    first [by eapply (λ lo hi x H1 H2, proj1 (round2_range lo hi x H1 H2))
          |by eapply (λ lo hi x H1 H2, proj2 (round2_range lo hi x H1 H2))].
Qed.

Lemma kpi_changes_within_range_witness :
  let k := (MockServer.generate_kpi_summary [Q2Qc (1 # 2)] Sample.thirds).1 in
  ((Qc_of_Z (-15) ≤ Kpi.cac_change k)%Qc ∧ (Kpi.cac_change k ≤ Qc_of_Z 15)%Qc)
  ∧ Kpi.roas_change k = 0%Qc.
Proof.
  destruct (kpi_changes_within_range [Q2Qc (1 # 2)] Sample.thirds)
    as (H1 & _ & _ & _ & _ & _ & H2 & _).
  - apply Forall_cons. split; [split; by_evaluation|apply Forall_nil_2].
  - split; [exact H1|]. apply H2. reflexivity.
Defined.

(** * The performance views and the facts *)

Module ChannelPerfFacts.
Import Views.

Lemma channel_join_key db d chid :
is_Some (channels db !! chid) →
fst <$> filter (λ j : UserEvent.t * (Z * Channel.t),
                  (DATE (UserEvent.timestamp j.1), j.2.1) = (d, chid))
          (channel_join db)
= DailyFacts.channel_day_events db d chid.
Proof.
intros [c Hc]. unfold channel_join, DailyFacts.channel_day_events.
induction (user_events db) as [|e es IH]; [done|].
rewrite bind_cons, filter_app, fmap_app, IH. clear IH.
rewrite (filter_cons _ e). unfold join_pk.
destruct (UserEvent.channel_id e) as [k|] eqn:Hk; simpl.
2:{ rewrite decide_False; [done|]. intros [_ ?]. done. }
destruct (channels db !! k) as [r|] eqn:Hr; simpl.
- rewrite filter_cons, filter_nil. simpl.
  repeat case_decide; simpl; try done; exfalso; naive_solver.
- rewrite decide_False; [done|]. intros [_ [= ->]]. congruence.
Qed.

Lemma channel_group db d chid c :
channels db !! chid = Some c →
fst <$> filter (λ j, channel_key j = (d, chid, Channel.name c)) (channel_join db)
= DailyFacts.channel_day_events db d chid.
Proof.
intros Hc. rewrite <- channel_join_key by eauto. f_equal.
apply filter_ext_in. intros [e [k c']] Hj. unfold channel_key. simpl.
apply elem_of_channel_join in Hj. simpl in Hj.
split; [by intros [= -> -> _]|]. intros [= -> ->]. congruence.
Qed.

Lemma channel_performance_row db r :
r ∈ daily_channel_performance db →
∃ c, channels db !! ChannelPerf.channel_id r = Some c
     ∧ DailyFacts.channel_day_events db (ChannelPerf.date r) (ChannelPerf.channel_id r) ≠ []
     ∧ r = DailyFacts.channel_row db (ChannelPerf.date r) (ChannelPerf.channel_id r) c.
Proof.
unfold daily_channel_performance.
intros ([[[d chid] chname] g] & -> & Hg)%list_elem_of_fmap. simpl.
pose proof (group_by_nonempty _ _ _ _ Hg) as Hne.
apply elem_of_group_by in Hg as (-> & [e [chid' c]] & Hj & Hk).
pose proof (elem_of_channel_join db _ Hj) as Hc. simpl in Hc.
unfold channel_key in Hk. simpl in Hk. injection Hk as <- <- <-.
exists c. split; [done|].
rewrite (filter_ext_in _ (λ j, channel_key j
                               = (DATE (UserEvent.timestamp e), chid', Channel.name c)))
  in * by done.
pose proof (channel_group db (DATE (UserEvent.timestamp e)) chid' c Hc) as Hgrp.
split.
- rewrite <- Hgrp. by intros ?%fmap_nil_inv.
- unfold DailyFacts.channel_row. rewrite <- Hgrp.
  unfold count_where, count_distinct, ratio_or_zero. done.
Qed.

Lemma channel_performance_complete db d chid c :
channels db !! chid = Some c → DailyFacts.channel_day_events db d chid ≠ [] →
DailyFacts.channel_row db d chid c ∈ daily_channel_performance db.
Proof.
intros Hc Hne. pose proof (channel_group db d chid c Hc) as Hgrp.
unfold daily_channel_performance. apply list_elem_of_fmap.
exists ((d, chid, Channel.name c),
        filter (λ j, channel_key j = (d, chid, Channel.name c)) (channel_join db)).
split.
- unfold DailyFacts.channel_row. rewrite <- Hgrp.
  unfold count_where, count_distinct, ratio_or_zero. done.
- apply elem_of_group_by. split; [done|].
  rewrite <- Hgrp in Hne.
  destruct (filter _ (channel_join db)) as [|j l] eqn:E; [done|].
  assert (j ∈ filter (λ j, channel_key j = (d, chid, Channel.name c)) (channel_join db))
    as [Hk Hj]%list_elem_of_filter by (rewrite E; left).
  eauto.
Qed.

End ChannelPerfFacts.

(** The rows of analytics.daily_channel_performance are the rows of the days
    and channels with events: the view has a row for a day and a channel
    exactly when the channel exists and has an event on that day, and the row
    holds the number of these events, the number of their distinct users, the
    clicks and the impressions among them and, when there are impressions,
    the clicks per impression. *)
Theorem channel_performance_rows (db : database) (r : ChannelPerf.row) :
  r ∈ Views.daily_channel_performance db
  ↔ ∃ c, channels db !! ChannelPerf.channel_id r = Some c
         ∧ DailyFacts.channel_day_events db (ChannelPerf.date r) (ChannelPerf.channel_id r)
           ≠ []
         ∧ r = DailyFacts.channel_row db (ChannelPerf.date r) (ChannelPerf.channel_id r) c.
Proof.
  split; [apply ChannelPerfFacts.channel_performance_row|].
  intros (c & Hc & Hne & ->). simpl.
  by apply ChannelPerfFacts.channel_performance_complete.
Qed.

Lemma filter_disjoint_length {A} (P Q : A → Prop)
    `{∀ x, Decision (P x), ∀ x, Decision (Q x)} (l : list A) :
  (∀ x, P x → Q x → False) →
  (length (filter P l) + length (filter Q l) ≤ length l)%nat.
Proof.
  intros Hd. induction l as [|x l IH]; [done|].
  rewrite !filter_cons.
  destruct (decide (P x)) as [HP|HP], (decide (Q x)) as [HQ|HQ]; simpl; try lia.
  exfalso. eauto.
Qed.

Lemma remove_dups_length_le {A} `{EqDecision A} (l : list A) :
  (length (remove_dups l) ≤ length l)%nat.
Proof.
  induction l as [|x l IH]; simpl; [done|].
  destruct (decide_rel elem_of x l); simpl; lia.
Qed.

Lemma remove_dups_nonempty {A} `{EqDecision A} (l : list A) :
  l ≠ [] → (1 ≤ length (remove_dups l))%nat.
Proof.
  intros Hne. destruct (remove_dups l) as [|x l'] eqn:E; [|simpl; lia].
  destruct l as [|y l]; [done|].
  assert (y ∈ remove_dups (y :: l)) as Hin by (apply elem_of_remove_dups; left).
  rewrite E in Hin. by apply not_elem_of_nil in Hin.
Qed.

Lemma Qc_ratio_nonneg (a b : Z) : 0 ≤ a → 0 < b → (0 ≤ Qc_of_Z a / Qc_of_Z b)%Qc.
Proof.
  intros Ha Hb. qc_to_q.
  apply Qle_shift_div_l.
  - change 0%Q with (inject_Z 0). by rewrite <- Zlt_Qlt.
  - rewrite Qmult_0_l. change 0%Q with (inject_Z 0). by rewrite <- Zle_Qle.
Qed.

(** In every row of analytics.daily_channel_performance there is at least
    one user and there are at most as many users as events; the clicks and the
    impressions are among the events, so that they add up to no more than
    the events; and the click-through rate is not negative. *)
Theorem channel_performance_bounds (db : database) (r : ChannelPerf.row) :
  r ∈ Views.daily_channel_performance db →
  1 ≤ ChannelPerf.unique_users r
  ∧ ChannelPerf.unique_users r ≤ ChannelPerf.events r
  ∧ 0 ≤ ChannelPerf.clicks r
  ∧ 0 ≤ ChannelPerf.impressions r
  ∧ ChannelPerf.clicks r + ChannelPerf.impressions r ≤ ChannelPerf.events r
  ∧ (0 ≤ ChannelPerf.ctr r)%Qc.
Proof.
  intros (c & Hc & Hne & Hr)%ChannelPerfFacts.channel_performance_row.
  rewrite Hr. unfold DailyFacts.channel_row. cbv zeta.
  cbn [ChannelPerf.unique_users ChannelPerf.events ChannelPerf.clicks
       ChannelPerf.impressions ChannelPerf.ctr].
  revert Hne. generalize (DailyFacts.channel_day_events db (ChannelPerf.date r)
                            (ChannelPerf.channel_id r)).
  intros evs Hne.
  pose proof (remove_dups_nonempty (UserEvent.user_id <$> evs)) as H1.
  pose proof (remove_dups_length_le (UserEvent.user_id <$> evs)) as H2.
  rewrite length_fmap in H2.
  pose proof (filter_disjoint_length (λ e, UserEvent.name e = "click"%string)
                (λ e, UserEvent.name e = "impression"%string) evs) as H3.
  split; [|split; [|split; [|split; [|split]]]]; try lia.
  - assert (1 ≤ length (remove_dups (UserEvent.user_id <$> evs)))%nat; [|lia].
    apply H1. by intros ?%fmap_nil_inv.
  - assert (length (filter (λ e, UserEvent.name e = "click"%string) evs)
            + length (filter (λ e, UserEvent.name e = "impression"%string) evs)
            ≤ length evs)%nat; [|lia].
    apply H3. intros e -> [=].
  - case_decide; [|done]. apply Qc_ratio_nonneg; lia.
Qed.

Lemma channel_performance_bounds_witness :
  let r := ChannelPerf.mk 0 1 "Facebook Ads" 2 1 1 1 (Qc_of_Z 1) in
  1 ≤ ChannelPerf.unique_users r
  ∧ ChannelPerf.unique_users r ≤ ChannelPerf.events r
  ∧ 0 ≤ ChannelPerf.clicks r
  ∧ 0 ≤ ChannelPerf.impressions r
  ∧ ChannelPerf.clicks r + ChannelPerf.impressions r ≤ ChannelPerf.events r
  ∧ (0 ≤ ChannelPerf.ctr r)%Qc.
Proof.
  apply (channel_performance_bounds Sample.two_events). by_evaluation.
Defined.

Module SegmentPerfFacts.
Import Views.

Lemma segment_join_key db d s :
is_Some (segments db !! s) →
fst <$> filter (λ j : Conversion.t * (Z * Segment.t),
                  (DATE (Conversion.timestamp j.1), j.2.1) = (d, s))
          (segment_join db)
= DailyFacts.segment_day_conversions db d s.
Proof.
intros [sg Hsg]. unfold segment_join, DailyFacts.segment_day_conversions.
induction (conversions db) as [|c cs IH]; [done|].
rewrite bind_cons, filter_app, fmap_app, IH. clear IH.
rewrite (filter_cons _ c).
assert (∀ sids,
  fst <$> filter (λ j : Conversion.t * (Z * Segment.t),
                    (DATE (Conversion.timestamp j.1), j.2.1) = (d, s))
            (sids ≫= (λ sid, option_list (join_pk (segments db) (Some sid))
                               ≫= (λ s0, [(c, s0)])))
  = (λ _, c) <$> filter (λ sid, DATE (Conversion.timestamp c) = d ∧ sid = s) sids) as Hin.
{ induction sids as [|sid sids IHs]; [done|].
  rewrite bind_cons, filter_app, fmap_app, IHs, filter_cons. clear IHs.
  unfold join_pk; simpl.
  destruct (decide (DATE (Conversion.timestamp c) = d ∧ sid = s)) as [[Hd ->]|Hn].
  - rewrite Hsg. simpl. rewrite filter_cons_True by (simpl; by rewrite Hd). done.
  - destruct (segments db !! sid); simpl; [|done].
    rewrite filter_cons_False; [done|]. simpl. intros [= ? ?]. tauto. }
rewrite Hin.
destruct (decide (DATE (Conversion.timestamp c) = d)) as [Hd|Hd].
- rewrite (list_filter_iff _ (λ sid, sid = s)) by tauto.
  rewrite filter_segments_of.
  destruct (decide (Facts.member db (Conversion.user_id c) s)).
  + rewrite decide_True by done. done.
  + rewrite decide_False by tauto. done.
- rewrite decide_False by tauto.
  rewrite (list_filter_iff _ (λ _, False)) by tauto.
  by rewrite filter_False.
Qed.

Lemma segment_group db d s sg :
segments db !! s = Some sg →
fst <$> filter (λ j, segment_key j = (d, s, Segment.name sg)) (segment_join db)
= DailyFacts.segment_day_conversions db d s.
Proof.
intros Hs. rewrite <- segment_join_key by eauto. f_equal.
apply filter_ext_in. intros [c [k sg']] Hj. unfold segment_key. simpl.
apply elem_of_segment_join in Hj. simpl in Hj.
split; [by intros [= -> -> _]|]. intros [= -> ->]. congruence.
Qed.

Lemma segment_row_eq db d s sg :
DailyFacts.segment_day_conversions db d s ≠ [] →
DailyFacts.segment_row db d s sg
= SegmentPerf.mk d s (Segment.name sg)
    (count_distinct (Conversion.user_id <$> DailyFacts.segment_day_conversions db d s))
    (Qc_sum (Conversion.value <$> DailyFacts.segment_day_conversions db d s))
    (ratio_or_zero
       (Qc_sum (Conversion.value <$> DailyFacts.segment_day_conversions db d s))
       (count_distinct (Conversion.user_id <$> DailyFacts.segment_day_conversions db d s))).
Proof.
intros Hne. unfold DailyFacts.segment_row, ratio_or_zero. cbv zeta.
rewrite decide_True; [done|].
apply count_distinct_pos. by intros ?%fmap_nil_inv.
Qed.

Lemma segment_performance_row db r :
r ∈ segment_performance db →
∃ sg, segments db !! SegmentPerf.segment_id r = Some sg
      ∧ DailyFacts.segment_day_conversions db (SegmentPerf.date r) (SegmentPerf.segment_id r)
        ≠ []
      ∧ r = DailyFacts.segment_row db (SegmentPerf.date r) (SegmentPerf.segment_id r) sg.
Proof.
unfold segment_performance.
intros ([[[d s] sname] g] & -> & Hg)%list_elem_of_fmap. simpl.
pose proof (group_by_nonempty _ _ _ _ Hg) as Hne.
apply elem_of_group_by in Hg as (-> & [c [s' sg]] & Hj & Hk).
pose proof (elem_of_segment_join db _ Hj) as Hs. simpl in Hs.
unfold segment_key in Hk. simpl in Hk. injection Hk as <- <- <-.
exists sg. split; [done|].
rewrite (filter_ext_in _ (λ j, segment_key j
                               = (DATE (Conversion.timestamp c), s', Segment.name sg)))
  in * by done.
pose proof (segment_group db (DATE (Conversion.timestamp c)) s' sg Hs) as Hgrp.
assert (DailyFacts.segment_day_conversions db (DATE (Conversion.timestamp c)) s' ≠ [])
  as Hne' by (rewrite <- Hgrp; by intros ?%fmap_nil_inv).
split; [done|].
rewrite segment_row_eq by done. by rewrite <- Hgrp.
Qed.

Lemma segment_performance_complete db d s sg :
segments db !! s = Some sg → DailyFacts.segment_day_conversions db d s ≠ [] →
DailyFacts.segment_row db d s sg ∈ segment_performance db.
Proof.
intros Hs Hne. pose proof (segment_group db d s sg Hs) as Hgrp.
unfold segment_performance. apply list_elem_of_fmap.
exists ((d, s, Segment.name sg),
        filter (λ j, segment_key j = (d, s, Segment.name sg)) (segment_join db)).
split.
- rewrite segment_row_eq by done. by rewrite <- Hgrp.
- apply elem_of_group_by. split; [done|].
  rewrite <- Hgrp in Hne.
  destruct (filter _ (segment_join db)) as [|j l] eqn:E; [done|].
  assert (j ∈ filter (λ j, segment_key j = (d, s, Segment.name sg)) (segment_join db))
    as [Hk Hj]%list_elem_of_filter by (rewrite E; left).
  eauto.
Qed.

End SegmentPerfFacts.

(** The rows of analytics.segment_performance are the rows of the days and
    segments with conversions: the view has a row for a day and a segment
    exactly when the segment exists and a user of the segment converted on
    that day, and the row holds the number of distinct converting users of
    the segment, the value of all their conversions of that day, whatever
    their type, and the value per user. A conversion of a user of two
    segments is in the rows of both. *)
Theorem segment_performance_rows (db : database) (r : SegmentPerf.row) :
  r ∈ Views.segment_performance db
  ↔ ∃ sg, segments db !! SegmentPerf.segment_id r = Some sg
          ∧ DailyFacts.segment_day_conversions db (SegmentPerf.date r)
              (SegmentPerf.segment_id r) ≠ []
          ∧ r = DailyFacts.segment_row db (SegmentPerf.date r) (SegmentPerf.segment_id r) sg.
Proof.
  split; [apply SegmentPerfFacts.segment_performance_row|].
  intros (sg & Hs & Hne & ->). simpl.
  by apply SegmentPerfFacts.segment_performance_complete.
Qed.

Lemma campaign_row_eq db d cid ca chid ch :
  Facts.day_conversions db d cid ≠ [] →
  DailyFacts.campaign_row db d cid ca chid ch
  = CampaignPerf.mk d cid (Campaign.name ca) chid (Channel.name ch)
      (count_distinct (Conversion.user_id <$> Facts.day_conversions db d cid))
      (Qc_sum (Conversion.value <$> Facts.day_conversions db d cid))
      (Views.ratio_or_zero
         (Qc_sum (Conversion.value <$> Facts.day_conversions db d cid))
         (count_distinct (Conversion.user_id <$> Facts.day_conversions db d cid))).
Proof.
  intros Hne. unfold DailyFacts.campaign_row, Views.ratio_or_zero. cbv zeta.
  rewrite decide_True; [done|].
  apply count_distinct_pos. by intros ?%fmap_nil_inv.
Qed.

(** The rows of analytics.daily_campaign_performance are the rows of the
    days and campaigns with conversions: the view has a row for a day and a
    campaign exactly when the campaign exists, runs on a channel that exists
    and has a conversion on that day, and the row holds the names of the
    campaign and of its channel, the number of distinct converting users, the
    value of the conversions and the value per user. *)
Theorem campaign_performance_rows (db : database) (r : CampaignPerf.row) :
  r ∈ Views.daily_campaign_performance db
  ↔ ∃ ca ch, campaigns db !! CampaignPerf.campaign_id r = Some ca
             ∧ Campaign.channel_id ca = Some (CampaignPerf.channel_id r)
             ∧ channels db !! CampaignPerf.channel_id r = Some ch
             ∧ Facts.day_conversions db (CampaignPerf.date r) (CampaignPerf.campaign_id r)
               ≠ []
             ∧ r = DailyFacts.campaign_row db (CampaignPerf.date r)
                     (CampaignPerf.campaign_id r) ca (CampaignPerf.channel_id r) ch.
Proof.
  split.
  - intros (ca & ch & Hca & Hchid & Hch & Hne & Hr)%CampaignFacts.campaign_performance_row.
    exists ca, ch. rewrite campaign_row_eq by done. done.
  - intros (ca & ch & Hca & Hchid & Hch & Hne & Hr).
    destruct (CampaignFacts.campaign_performance_complete db _ _ ca _ ch Hca Hchid Hch Hne)
      as (r' & Hr' & Hk).
    assert (r' = r) as <-; [|done].
    apply CampaignFacts.campaign_performance_row in Hr'
      as (ca' & ch' & Hca' & Hchid' & Hch' & _ & Hr'').
    rewrite Hr, campaign_row_eq by done. rewrite Hr''.
    injection Hk as Hd Hc. rewrite Hd, Hc in *.
    rewrite Hca in Hca'. injection Hca' as <-.
    rewrite Hchid in Hchid'. injection Hchid' as Hk'. rewrite <- Hk' in *.
    rewrite Hch in Hch'. injection Hch' as <-. done.
Qed.

(** * What the performance views add up to *)

Lemma channel_join_events db :
  (Views.channel_join db).*1 = filter (DailyFacts.on_a_channel db) (user_events db).
Proof.
  unfold Views.channel_join, DailyFacts.on_a_channel.
  induction (user_events db) as [|e es IH]; [done|].
  rewrite bind_cons, fmap_app, IH, filter_cons. clear IH.
  case_decide as Hd; destruct (join_pk (channels db) (UserEvent.channel_id e)) as [ch|];
    try done; first [by destruct Hd|destruct Hd; eauto].
Qed.

Lemma campaign_join_conversions db :
  (λ j : Conversion.t * (Z * Campaign.t) * (Z * Channel.t), j.1.1)
    <$> Views.campaign_join db
  = filter (DailyFacts.attributed db) (conversions db).
Proof.
  unfold Views.campaign_join, DailyFacts.attributed.
  induction (conversions db) as [|c cs IH]; [done|].
  rewrite bind_cons, fmap_app, IH, filter_cons. clear IH.
  case_decide as Hd.
  - destruct Hd as (ca & ch & -> & Hch). simpl. rewrite Hch. done.
  - destruct (join_pk (campaigns db) (Conversion.campaign_id c)) as [ca|]; [|done].
    simpl.
    destruct (join_pk (channels db) (Campaign.channel_id ca.2)) as [ch|] eqn:Hch; [|done].
    destruct Hd. eauto.
Qed.

Lemma segment_join_conversions db :
  (Views.segment_join db).*1
  = conversions db ≫= (λ c, replicate (length (DailyFacts.known_segments db
                                                 (Conversion.user_id c))) c).
Proof.
  unfold Views.segment_join, DailyFacts.known_segments.
  induction (conversions db) as [|c cs IH]; [done|].
  rewrite !bind_cons, fmap_app, IH. f_equal. clear IH.
  induction (segments_of db (Conversion.user_id c)) as [|s ss IHs]; [done|].
  rewrite bind_cons, fmap_app, IHs, filter_cons. clear IHs. unfold join_pk.
  simpl. by destruct (segments db !! s) as [sg|] eqn:E.
Qed.

Lemma Qc_sum_replicate (n : nat) (x : Qc) :
  Qc_sum (replicate n x) = (x * Qc_of_Z (Z.of_nat n))%Qc.
Proof.
  induction n as [|n IH].
  - simpl. apply Qc_is_canon. qc_to_q. ring.
  - simpl replicate. rewrite Qc_sum_cons, IH.
    apply Qc_is_canon. qc_to_q. rewrite Nat2Z.inj_succ, <- Z.add_1_r, inject_Z_plus.
    change (inject_Z 1) with 1%Q. ring.
Qed.

(** What the performance views add up to. The events of the rows of
    analytics.daily_channel_performance are the events whose channel exists,
    each counted once; the conversion value of the rows of
    analytics.daily_campaign_performance is the value of the conversions
    whose campaign exists and runs on a channel that exists, each counted
    once; and the conversion value of the rows of analytics.segment_performance
    counts a conversion once for every segment, among those that exist, that
    its user belongs to. *)
Theorem performance_views_totals (db : database) :
  Z_sum (ChannelPerf.events <$> Views.daily_channel_performance db)
  = Z.of_nat (length (filter (DailyFacts.on_a_channel db) (user_events db)))
  ∧ Qc_sum (CampaignPerf.total_conversion_value <$> Views.daily_campaign_performance db)
    = Qc_sum (Conversion.value <$> filter (DailyFacts.attributed db) (conversions db))
  ∧ Qc_sum (SegmentPerf.total_conversion_value <$> Views.segment_performance db)
    = Qc_sum ((λ c, Conversion.value c
                    * Qc_of_Z (Z.of_nat (length (DailyFacts.known_segments db
                                                   (Conversion.user_id c)))))%Qc
                <$> conversions db).
Proof.
  split; [|split].
  - unfold Views.daily_channel_performance. rewrite <- list_fmap_compose.
    rewrite <- channel_join_events, length_fmap.
    rewrite <- (Permutation_length (group_by_partition Views.channel_key
                                      (Views.channel_join db))).
    rewrite <- Z_sum_lengths, <- list_fmap_compose.
    f_equal. apply list_fmap_ext. intros i [[[d ch] nm] g] _. simpl.
    by rewrite length_fmap.
  - unfold Views.daily_campaign_performance. rewrite <- list_fmap_compose.
    rewrite <- campaign_join_conversions, <- list_fmap_compose.
    rewrite <- (Qc_sum_Permutation _ _
                  (fmap_Permutation _ _ _
                     (group_by_partition Views.campaign_key (Views.campaign_join db)))).
    rewrite Qc_sum_concat, <- list_fmap_compose.
    f_equal. apply list_fmap_ext. by intros i [[[[[d cid] cn] chid] chn] g] _.
  - unfold Views.segment_performance. rewrite <- list_fmap_compose.
    trans (Qc_sum (Conversion.value <$> (Views.segment_join db).*1)).
    + rewrite <- list_fmap_compose.
      rewrite <- (Qc_sum_Permutation _ _
                    (fmap_Permutation _ _ _
                       (group_by_partition Views.segment_key (Views.segment_join db)))).
      rewrite Qc_sum_concat, <- list_fmap_compose.
      f_equal. apply list_fmap_ext. intros i [[[d s] nm] g] _. simpl.
      by rewrite <- list_fmap_compose.
    + rewrite segment_join_conversions.
      induction (conversions db) as [|c cs IH]; [done|].
      rewrite bind_cons, !fmap_app, Qc_sum_app, IH, fmap_cons, Qc_sum_cons.
      f_equal. rewrite fmap_replicate. apply Qc_sum_replicate.
Qed.

(** * The figures of the dashboard *)

Section dictionary.
Context {A V : Type} (key : A → string) (init : A → V) (f : A → V → V).

Lemma upsert_keys k v0 (g : V → V) (d : list (string * V)) :
  (Frontend.upsert k v0 g d).*1 = if decide (k ∈ d.*1) then d.*1 else d.*1 ++ [k].
Proof.
  induction d as [|[k' v] d IH].
  - rewrite decide_False by apply not_elem_of_nil. done.
  - cbn [Frontend.upsert]. rewrite fmap_cons. cbn [fst].
    destruct (decide (k' = k)) as [->|Hne].
    + rewrite decide_True by left. done.
    + rewrite fmap_cons, IH. cbn [fst]. destruct (decide (k ∈ d.*1)) as [Hin|Hin].
      * by rewrite decide_True by (by right).
      * rewrite decide_False; [done|]. intros [?|?]%elem_of_cons; congruence.
Qed.

Lemma upsert_NoDup k v0 (g : V → V) (d : list (string * V)) :
  NoDup d.*1 → NoDup (Frontend.upsert k v0 g d).*1.
Proof.
  intros Hnd. rewrite upsert_keys. case_decide; [done|].
  apply NoDup_app. split; [done|]. split; [|apply NoDup_singleton].
  intros x Hx ->%list_elem_of_singleton. done.
Qed.

Lemma elem_of_upsert k v0 (g : V → V) (d : list (string * V)) n v :
  NoDup d.*1 →
  (n, v) ∈ Frontend.upsert k v0 g d
  ↔ ((n ≠ k ∧ (n, v) ∈ d)
     ∨ (n = k ∧ ((∃ u, (k, u) ∈ d ∧ v = g u) ∨ (¬ k ∈ d.*1 ∧ v = g v0)))).
Proof.
  induction d as [|[k' u] d IH]; intros Hnd.
  - cbn [Frontend.upsert]. rewrite list_elem_of_singleton. split.
    + intros [= -> ->]. right. split; [done|]. right. split; [apply not_elem_of_nil|done].
    + intros [[_ ?%not_elem_of_nil]|[-> [(u & ?%not_elem_of_nil & _)|[_ ->]]]]; done.
  - rewrite fmap_cons in Hnd. apply NoDup_cons in Hnd as [Hk' Hnd]. specialize (IH Hnd).
    assert (∀ w, (k', w) ∈ d → False) as Hk''.
    { intros w Hw. apply Hk'. apply list_elem_of_fmap. by exists (k', w). }
    cbn [Frontend.upsert]. rewrite fmap_cons. cbn [fst] in *.
    destruct (decide (k' = k)) as [->|Hne].
    + rewrite !elem_of_cons. clear IH. split.
      * intros [[= -> ->]|Hin].
        -- right. split; [done|]. left. exists u. split; [by left|done].
        -- left. split; [|by right]. intros ->. by apply (Hk'' v).
      * intros [[Hn [[= -> ->]|Hin]]|[-> [(u' & Hin & ->)|[Hnin _]]]].
        -- done.
        -- by right.
        -- apply elem_of_cons in Hin as [[= <-]|Hin]; [by left|by destruct (Hk'' u')].
        -- destruct Hnin. by left.
    + rewrite !elem_of_cons, IH. clear IH. split.
      * intros [[= -> ->]|[[Hn Hin]|[-> H]]].
        -- left. split; [done|by left].
        -- left. split; [done|by right].
        -- right. split; [done|].
           destruct H as [(u' & Hin & ->)|[Hnin ->]].
           ++ left. exists u'. split; [by right|done].
           ++ right. split; [|done]. intros [?|?]; done.
      * intros [[Hn [[= -> ->]|Hin]]|[-> [(u' & Hin & ->)|[Hnin ->]]]].
        -- by left.
        -- right. left. done.
        -- apply elem_of_cons in Hin as [[= ? ?]|Hin]; [done|].
           right. right. split; [done|]. left. eauto.
        -- right. right. split; [done|]. right. split; [|done].
           intros Hin. apply Hnin. by right.
Qed.

Lemma tally_snoc rows r :
  Frontend.tally key init f (rows ++ [r])
  = Frontend.upsert (key r) (init r) (f r) (Frontend.tally key init f rows).
Proof. unfold Frontend.tally. by rewrite foldl_app. Qed.

Lemma tally_keys rows : ∀ n, n ∈ (Frontend.tally key init f rows).*1 ↔ n ∈ key <$> rows.
Proof.
  induction rows as [|r rows IH] using rev_ind; intros n.
  - done.
  - rewrite tally_snoc, upsert_keys, fmap_app, elem_of_app. simpl.
    rewrite list_elem_of_singleton. case_decide as Hin.
    + rewrite IH. rewrite IH in Hin. split; [by left|]. intros [?| ->]; done.
    + rewrite elem_of_app, list_elem_of_singleton, IH. done.
Qed.

Lemma tally_NoDup rows : NoDup (Frontend.tally key init f rows).*1.
Proof.
  induction rows as [|r rows IH] using rev_ind; [apply NoDup_nil_2|].
  rewrite tally_snoc. by apply upsert_NoDup.
Qed.

(** The entry of a key: the first row of the key sets it up, and every row
    of the key, the first one included, is added to it. *)
Lemma elem_of_tally rows n v :
  (n, v) ∈ Frontend.tally key init f rows
  ↔ ∃ r0 rest, filter (λ r, key r = n) rows = r0 :: rest
               ∧ v = foldl (λ v r, f r v) (init r0) (r0 :: rest).
Proof.
  revert n v. induction rows as [|r rows IH] using rev_ind; intros n v.
  - split; [by intros ?%not_elem_of_nil|]. by intros (r0 & rest & ? & _).
  - rewrite tally_snoc, elem_of_upsert by apply tally_NoDup.
    rewrite filter_app, filter_cons, filter_nil. split.
    + intros [[Hn Hin]|[-> [(u & Hin & ->)|[Hnin ->]]]].
      * apply IH in Hin as (r0 & rest & Hf & ->).
        exists r0, rest. rewrite decide_False by done. by rewrite app_nil_r.
      * apply IH in Hin as (r0 & rest & Hf & ->).
        exists r0, (rest ++ [r]). rewrite decide_True by done. rewrite Hf.
        split; [done|]. simpl. by rewrite foldl_app.
      * exists r, []. rewrite decide_True by done.
        rewrite tally_keys in Hnin.
        assert (filter (λ r0, key r0 = key r) rows = []) as ->; [|done].
        destruct (filter _ rows) as [|r1 l] eqn:E; [done|].
        assert (r1 ∈ filter (λ r0, key r0 = key r) rows) as [Hk Hin]%list_elem_of_filter
          by (rewrite E; left).
        destruct Hnin. apply list_elem_of_fmap. eauto.
    + intros (r0 & rest & Hf & ->).
      destruct (decide (key r = n)) as [<-|Hne].
      * right. split; [done|].
        destruct (filter (λ r1, key r1 = key r) rows) as [|r1 l] eqn:E.
        -- right. simpl in Hf. injection Hf as <- <-. split; [|done].
           rewrite tally_keys. intros (r1 & Hk & Hin)%list_elem_of_fmap.
           assert (r1 ∈ filter (λ r1, key r1 = key r) rows) as Hin'
             by (by apply list_elem_of_filter).
           rewrite E in Hin'. by apply not_elem_of_nil in Hin'.
        -- left. simpl in Hf. injection Hf as <- <-.
           exists (foldl (λ v r2, f r2 v) (init r1) (r1 :: l)). split.
           ++ apply IH. eauto.
           ++ simpl. by rewrite foldl_app.
      * left. split; [done|]. apply IH. exists r0, rest.
        by rewrite app_nil_r in Hf.
Qed.

End dictionary.

Section stable_sort.
Context {A : Type} (before : A → A → Prop) `{∀ x y, Decision (before x y)}.

Lemma insert_stable_Permutation x l : Frontend.insert_stable before x l ≡ₚ x :: l.
Proof.
  induction l as [|y l IH]; [done|]. simpl. case_decide; [|done].
  rewrite IH. apply perm_swap.
Qed.

Lemma sorted_stable_Permutation l : Frontend.sorted_stable before l ≡ₚ l.
Proof.
  induction l as [|x l IH]; [done|]. simpl.
  by rewrite insert_stable_Permutation, IH.
Qed.

Lemma insert_stable_Sorted x l :
  (∀ a b, before a b → ¬ before b a) →
  Sorted (λ a b, ¬ before b a) l →
  Sorted (λ a b, ¬ before b a) (Frontend.insert_stable before x l).
Proof.
  intros Hasym. induction 1 as [|y l Hs IH Hhd]; simpl.
  - by repeat constructor.
  - case_decide as Hb.
    + constructor; [done|].
      destruct Hhd as [|z l Hz]; simpl.
      * constructor. by apply Hasym.
      * case_decide; constructor; [done|by apply Hasym].
    + constructor; [by constructor|]. by constructor.
Qed.

Lemma sorted_stable_Sorted l :
  (∀ a b, before a b → ¬ before b a) →
  Sorted (λ a b, ¬ before b a) (Frontend.sorted_stable before l).
Proof.
  intros Hasym. induction l as [|x l IH]; simpl; [constructor|].
  by apply insert_stable_Sorted.
Qed.

End stable_sort.

Lemma Sorted_impl {A} (R1 R2 : relation A) (l : list A) :
  (∀ x y, R1 x y → R2 x y) → Sorted R1 l → Sorted R2 l.
Proof.
  intros HR. induction 1 as [|x l Hs IH Hhd]; constructor; [done|].
  destruct Hhd; constructor. by apply HR.
Qed.

Lemma campaign_entry_sum (e : Frontend.campaign_entry) (l : list CampaignPerf.row) :
  foldl (λ c item,
           Frontend.mk_campaign_entry
             (Frontend.ce_conversions c + CampaignPerf.conversions item)
             (Frontend.ce_total_value c + CampaignPerf.total_conversion_value item)%Qc
             (Frontend.ce_campaign_id c) (Frontend.ce_channel_name c)) e l
  = Frontend.mk_campaign_entry
      (Frontend.ce_conversions e + Z_sum (CampaignPerf.conversions <$> l))
      (Frontend.ce_total_value e + Qc_sum (CampaignPerf.total_conversion_value <$> l))%Qc
      (Frontend.ce_campaign_id e) (Frontend.ce_channel_name e).
Proof.
  revert e. induction l as [|r l IH]; intros [c v i n].
  - cbn. f_equal; [lia|ring].
  - simpl foldl. rewrite IH. rewrite !fmap_cons, Qc_sum_cons.
    change (Z_sum (?x :: ?y)) with (x + Z_sum y). cbn [Frontend.ce_conversions
      Frontend.ce_total_value Frontend.ce_campaign_id Frontend.ce_channel_name].
    f_equal; [lia|ring].
Qed.

Lemma campaign_totals_entry rows n e :
  (n, e) ∈ Frontend.campaign_totals rows
  ↔ ∃ r0 rest,
      filter (λ r, CampaignPerf.campaign_name r = n) rows = r0 :: rest
      ∧ e = Frontend.mk_campaign_entry
              (Z_sum (CampaignPerf.conversions <$> r0 :: rest))
              (Qc_sum (CampaignPerf.total_conversion_value <$> r0 :: rest))
              (CampaignPerf.campaign_id r0) (CampaignPerf.channel_name r0).
Proof.
  change (Frontend.campaign_totals rows)
    with (Frontend.tally CampaignPerf.campaign_name
            (λ item, Frontend.mk_campaign_entry 0 0%Qc (CampaignPerf.campaign_id item)
                       (CampaignPerf.channel_name item))
            (λ item c, Frontend.mk_campaign_entry
                         (Frontend.ce_conversions c + CampaignPerf.conversions item)
                         (Frontend.ce_total_value c
                          + CampaignPerf.total_conversion_value item)%Qc
                         (Frontend.ce_campaign_id c) (Frontend.ce_channel_name c))
            rows).
  rewrite (elem_of_tally CampaignPerf.campaign_name
             (λ item, Frontend.mk_campaign_entry 0 0%Qc (CampaignPerf.campaign_id item)
                        (CampaignPerf.channel_name item))
             (λ item c, Frontend.mk_campaign_entry
                          (Frontend.ce_conversions c + CampaignPerf.conversions item)
                          (Frontend.ce_total_value c
                           + CampaignPerf.total_conversion_value item)%Qc
                          (Frontend.ce_campaign_id c) (Frontend.ce_channel_name c))).
  assert (∀ r0 rest,
    foldl (λ v r, Frontend.mk_campaign_entry
                    (Frontend.ce_conversions v + CampaignPerf.conversions r)
                    (Frontend.ce_total_value v + CampaignPerf.total_conversion_value r)%Qc
                    (Frontend.ce_campaign_id v) (Frontend.ce_channel_name v))
      (Frontend.mk_campaign_entry 0 0%Qc (CampaignPerf.campaign_id r0)
         (CampaignPerf.channel_name r0)) (r0 :: rest)
    = Frontend.mk_campaign_entry
        (Z_sum (CampaignPerf.conversions <$> r0 :: rest))
        (Qc_sum (CampaignPerf.total_conversion_value <$> r0 :: rest))
        (CampaignPerf.campaign_id r0) (CampaignPerf.channel_name r0)) as Hsum.
  { intros r0 rest. rewrite campaign_entry_sum. cbn [Frontend.ce_conversions
      Frontend.ce_total_value Frontend.ce_campaign_id Frontend.ce_channel_name].
    f_equal. ring. }
  split; intros (r0 & rest & Hf & ->); exists r0, rest; by rewrite Hsum.
Qed.

Lemma document_with_field {A} (field : Frontend.document → option (list A))
    (data : Frontend.document) (rows : list A) :
  field Frontend.no_fields = None → field data = Some rows →
  ¬ Frontend.not_ (Some data) ∧ Frontend.get field (Some data) = rows
  ∧ Frontend.item field (Some data) = Some rows.
Proof.
  intros Hno Hf. unfold Frontend.not_, Frontend.get, Frontend.item. simpl. rewrite Hf.
  split; [|done]. intros [?|[= ->]]; congruence.
Qed.

Lemma names_partition {A} (name : A → string) (rows : list A) (ks : list string) :
  NoDup ks → (∀ n, n ∈ ks ↔ n ∈ name <$> rows) →
  concat ((λ n, filter (λ r, name r = n) rows) <$> ks) ≡ₚ rows.
Proof.
  intros Hnd Hks. apply partition_by_keys; [done|].
  intros r Hr. apply Hks, list_elem_of_fmap. eauto.
Qed.

Lemma campaign_bars_sorted data rows bars :
  Frontend.d_campaign_performance data = Some rows →
  Frontend.update_campaign_performance (Some data) = Some bars →
  rows ≠ []
  ∧ bars = (λ c : string * Frontend.campaign_entry,
              Frontend.mk_campaign_bar c.1 (Frontend.ce_total_value c.2)
                (Frontend.ce_channel_name c.2) (Frontend.ce_campaign_id c.2)
                (Frontend.ce_conversions c.2))
             <$> Frontend.sorted_stable Frontend.higher_value
                   (Frontend.campaign_totals rows).
Proof.
  intros Hf.
  destruct (document_with_field Frontend.d_campaign_performance data rows eq_refl Hf)
    as (Hnot & Hget & _).
  unfold Frontend.update_campaign_performance. rewrite Hget.
  case_decide as Hd; [done|]. intros [= <-]. split; [|done]. intros ->. apply Hd. by right.
Qed.

Lemma campaign_bar_rows data rows bars b :
  Frontend.d_campaign_performance data = Some rows →
  Frontend.update_campaign_performance (Some data) = Some bars → b ∈ bars →
  ∃ r0 rest,
    filter (λ r, CampaignPerf.campaign_name r = Frontend.cb_campaign b) rows = r0 :: rest
    ∧ Frontend.cb_value b = Qc_sum (CampaignPerf.total_conversion_value <$> r0 :: rest)
    ∧ Frontend.cb_conversions b = Z_sum (CampaignPerf.conversions <$> r0 :: rest)
    ∧ Frontend.cb_campaign_id b = CampaignPerf.campaign_id r0
    ∧ Frontend.cb_channel b = CampaignPerf.channel_name r0.
Proof.
  intros Hf Hu Hb. destruct (campaign_bars_sorted data rows bars Hf Hu) as [_ ->].
  apply list_elem_of_fmap in Hb as ([n e] & -> & Hin).
  rewrite sorted_stable_Permutation in Hin.
  apply campaign_totals_entry in Hin as (r0 & rest & Hfl & ->). simpl.
  exists r0, rest. done.
Qed.

(** The bars of the campaign figure: a figure with rows has one bar for
    every campaign name, from the highest value to the lowest; a bar holds the
    summed value and the summed conversions of the rows of its name, and the
    campaign id and the channel of the first of these rows, so that campaigns
    of the same name share a bar; and the bars together hold the value of all
    rows. *)
Theorem campaign_bars_by_name (data : Frontend.document) (rows : list CampaignPerf.row) :
  Frontend.d_campaign_performance data = Some rows → rows ≠ [] →
  ∃ bars,
    Frontend.update_campaign_performance (Some data) = Some bars
    ∧ NoDup (Frontend.cb_campaign <$> bars)
    ∧ (∀ n, n ∈ Frontend.cb_campaign <$> bars ↔ n ∈ CampaignPerf.campaign_name <$> rows)
    ∧ Sorted (λ b1 b2, (Frontend.cb_value b2 ≤ Frontend.cb_value b1)%Qc) bars
    ∧ (∀ b, b ∈ bars →
         ∃ r0 rest,
           filter (λ r, CampaignPerf.campaign_name r = Frontend.cb_campaign b) rows
           = r0 :: rest
           ∧ Frontend.cb_value b
             = Qc_sum (CampaignPerf.total_conversion_value <$> r0 :: rest)
           ∧ Frontend.cb_conversions b = Z_sum (CampaignPerf.conversions <$> r0 :: rest)
           ∧ Frontend.cb_campaign_id b = CampaignPerf.campaign_id r0
           ∧ Frontend.cb_channel b = CampaignPerf.channel_name r0)
    ∧ Qc_sum (Frontend.cb_value <$> bars)
      = Qc_sum (CampaignPerf.total_conversion_value <$> rows).
Proof.
  intros Hf Hne.
  destruct (document_with_field Frontend.d_campaign_performance data rows eq_refl Hf)
    as (Hnot & Hget & _).
  unfold Frontend.update_campaign_performance. rewrite Hget.
  rewrite decide_False by (intros [?|?]; done).
  set (sorted := Frontend.sorted_stable Frontend.higher_value
                   (Frontend.campaign_totals rows)).
  assert (sorted ≡ₚ Frontend.campaign_totals rows) as Hperm
    by apply sorted_stable_Permutation.
  assert (NoDup (Frontend.campaign_totals rows).*1) as Hnd by apply tally_NoDup.
  assert (∀ n, n ∈ (Frontend.campaign_totals rows).*1
               ↔ n ∈ CampaignPerf.campaign_name <$> rows) as Hkeys by apply tally_keys.
  eexists. split; [reflexivity|].
  rewrite <- !list_fmap_compose.
  change (Frontend.cb_campaign ∘ _) with (@fst string Frontend.campaign_entry).
  split; [by rewrite Hperm|]. split; [intros n; by rewrite Hperm|]. split; [|split].
  - apply (Sorted_fmap _ (λ c1 c2, ¬ Frontend.higher_value c2 c1)).
    + intros c1 c2 Hc. unfold Frontend.higher_value in Hc. simpl.
      by apply Qcnot_lt_le.
    + apply sorted_stable_Sorted. unfold Frontend.higher_value.
      intros a b Hab Hba. by apply (Qclt_not_le _ _ Hab), Qclt_le_weak.
  - intros b Hb. eapply (campaign_bar_rows data rows _ b Hf); [|exact Hb].
    unfold Frontend.update_campaign_performance. rewrite Hget.
    by rewrite decide_False by (intros [?|?]; done).
  - trans (Qc_sum ((λ n, Qc_sum (CampaignPerf.total_conversion_value
                                   <$> filter (λ r, CampaignPerf.campaign_name r = n) rows))
                     <$> (Frontend.campaign_totals rows).*1)).
    + rewrite <- list_fmap_compose.
      rewrite (Qc_sum_Permutation _ _ (fmap_Permutation _ _ _ Hperm)).
      f_equal. apply list_fmap_ext. intros i [n e] Hin%list_elem_of_lookup_2.
      apply campaign_totals_entry in Hin as (r0 & rest & Hfl & ->). simpl.
      by rewrite Hfl.
    + trans (Qc_sum ((λ l, Qc_sum (CampaignPerf.total_conversion_value <$> l))
                       <$> ((λ n, filter (λ r, CampaignPerf.campaign_name r = n) rows)
                              <$> (Frontend.campaign_totals rows).*1)));
        [|].
      { by rewrite <- !list_fmap_compose. }
      rewrite <- (Qc_sum_concat CampaignPerf.total_conversion_value).
      apply Qc_sum_Permutation, fmap_Permutation. by apply names_partition.
Qed.

Lemma campaign_bars_by_name_witness :
  ∃ bars,
    Frontend.update_campaign_performance (Some Frontend.sample_document) = Some bars
    ∧ NoDup (Frontend.cb_campaign <$> bars)
    ∧ Qc_sum (Frontend.cb_value <$> bars) = Qc_of_Z 120.
Proof.
  destruct (campaign_bars_by_name Frontend.sample_document
              (Frontend.get Frontend.d_campaign_performance
                 (Some Frontend.sample_document)))
    as (bars & Hu & Hnd & _ & _ & _ & Hsum); [by_evaluation|by_evaluation|].
  exists bars. split; [exact Hu|]. split; [exact Hnd|].
  rewrite Hsum. by_evaluation.
Defined.

(** The details of a campaign: a click on a bar of the campaign figure
    always opens the card, under the name of the bar; the card shows the rows
    of the campaign id of the bar, from the earliest day to the latest. When,
    among the rows, the campaign of that id is the only one of that name, the
    values shown add up to the value of the bar. *)
Theorem campaign_details_of_a_bar (data : Frontend.document) (rows : list CampaignPerf.row)
    (bars : list Frontend.campaign_bar) (b : Frontend.campaign_bar) :
  Frontend.d_campaign_performance data = Some rows →
  Frontend.update_campaign_performance (Some data) = Some bars →
  b ∈ bars →
  ∃ details shown,
    Frontend.display_campaign_details (Frontend.click b) (Some data) = Some (Some details)
    ∧ Frontend.cd_header details = ("Campaign Details: " +:+ Frontend.cb_campaign b)%string
    ∧ shown ≡ₚ filter (λ r, CampaignPerf.campaign_id r = Frontend.cb_campaign_id b) rows
    ∧ Sorted (λ r1 r2, CampaignPerf.date r1 ≤ CampaignPerf.date r2) shown
    ∧ Frontend.cd_dates details = CampaignPerf.date <$> shown
    ∧ Frontend.cd_values details = CampaignPerf.total_conversion_value <$> shown
    ∧ Frontend.cd_conversions details = CampaignPerf.conversions <$> shown
    ∧ ((∀ r, r ∈ rows →
          CampaignPerf.campaign_name r = Frontend.cb_campaign b
          ↔ CampaignPerf.campaign_id r = Frontend.cb_campaign_id b) →
       Qc_sum (Frontend.cd_values details) = Frontend.cb_value b).
Proof.
  intros Hf Hu Hb.
  destruct (campaign_bar_rows data rows bars b Hf Hu Hb)
    as (r0 & rest & Hfl & Hval & _ & Hid & _).
  destruct (document_with_field Frontend.d_campaign_performance data rows eq_refl Hf)
    as (Hnot & _ & Hitem).
  assert (r0 ∈ filter (λ r, CampaignPerf.campaign_id r = Frontend.cb_campaign_id b) rows)
    as Hr0.
  { assert (r0 ∈ filter (λ r, CampaignPerf.campaign_name r = Frontend.cb_campaign b) rows)
      as [_ Hin]%list_elem_of_filter by (rewrite Hfl; left).
    apply list_elem_of_filter. by rewrite Hid. }
  unfold Frontend.display_campaign_details, Frontend.click.
  rewrite decide_False by done. rewrite Hitem. cbn [mbind option_bind].
  destruct (filter (λ item, CampaignPerf.campaign_id item = Frontend.cb_campaign_id b) rows)
    as [|r1 l] eqn:E; [by apply not_elem_of_nil in Hr0|].
  do 2 eexists. split; [reflexivity|].
  cbn [Frontend.cd_header Frontend.cd_dates Frontend.cd_values Frontend.cd_conversions].
  split; [done|]. split; [apply (sorted_stable_Permutation Frontend.earlier)|].
  split; [|split; [done|]].
  - eapply Sorted_impl; [|apply (sorted_stable_Sorted Frontend.earlier)].
    + unfold Frontend.earlier. intros r r' ?. simpl in *. lia.
    + unfold Frontend.earlier. intros r r' ??. lia.
  - split; [done|]. split; [done|]. intros Hname.
    rewrite (Qc_sum_Permutation _ _
               (fmap_Permutation _ _ _ (sorted_stable_Permutation Frontend.earlier _))).
    rewrite Hval, <- Hfl, <- E. do 2 f_equal.
    apply filter_ext_in. intros r Hr. symmetry. by apply Hname.
Qed.

Lemma campaign_details_of_a_bar_witness :
  ∃ details,
    Frontend.display_campaign_details (Some (1, "Spring 2024 Shoes Campaign"%string))
      (Some Frontend.sample_document) = Some (Some details)
    ∧ Frontend.cd_header details = "Campaign Details: Spring 2024 Shoes Campaign"%string
    ∧ Sorted Z.le (Frontend.cd_dates details)
    ∧ Qc_sum (Frontend.cd_values details) = Qc_of_Z 120.
Proof.
  destruct (campaign_details_of_a_bar Frontend.sample_document
              (Frontend.get Frontend.d_campaign_performance (Some Frontend.sample_document))
              [Frontend.mk_campaign_bar "Spring 2024 Shoes Campaign" (Qc_of_Z 120)
                 "Facebook Ads" 1 2]
              (Frontend.mk_campaign_bar "Spring 2024 Shoes Campaign" (Qc_of_Z 120)
                 "Facebook Ads" 1 2))
    as (details & shown & Hd & Hh & _ & Hs & Hdates & _ & _ & Hsum);
    [by_evaluation|by_evaluation|by left|].
 
  exists details. split; [exact Hd|]. split; [exact Hh|]. split.
  - rewrite Hdates.
    by apply (Sorted_fmap CampaignPerf.date
                (λ r1 r2, CampaignPerf.date r1 ≤ CampaignPerf.date r2)).
  - apply Hsum. intros r Hr.
    assert (Forall (λ r, CampaignPerf.campaign_name r = "Spring 2024 Shoes Campaign"%string
                         ∧ CampaignPerf.campaign_id r = 1)
              (Frontend.get Frontend.d_campaign_performance
                 (Some Frontend.sample_document))) as HF by by_evaluation.
   
    rewrite Forall_forall in HF. destruct (HF r Hr) as [-> ->].
    clear. split; reflexivity.
Defined.

(** The keys of a dictionary built over the rows: the keys of the rows, each
    once, in the order of their first rows. *)
Lemma tally_keys_order {A V} (key : A → string) (init : A → V) (f : A → V → V)
    (rows : list A) :
  (Frontend.tally key init f rows).*1 = reverse (remove_dups (reverse (key <$> rows))).
Proof.
  induction rows as [|r rows IH] using rev_ind; [done|].
  rewrite tally_snoc, upsert_keys, fmap_app, reverse_app. simpl.
  assert (key r ∈ (Frontend.tally key init f rows).*1
          ↔ key r ∈ reverse (key <$> rows)) as Hiff
    by (by rewrite tally_keys, elem_of_reverse).
  destruct (decide (key r ∈ (Frontend.tally key init f rows).*1)) as [Hin|Hin],
    (decide_rel elem_of (key r) (reverse (key <$> rows))) as [Hin'|Hin']; try tauto;
    cbv iota; first [exact IH | by rewrite reverse_cons, IH].
Qed.

Lemma pairs_by_key {V} (g : string → V) (l : list (string * V)) :
  (∀ n v, (n, v) ∈ l → v = g n) → l = (λ n, (n, g n)) <$> l.*1.
Proof.
  induction l as [|[n v] l IH]; intros Hl; [done|].
  rewrite !fmap_cons. cbn [fst]. rewrite (Hl n v) by left. f_equal.
  apply IH. intros n' v' Hin. apply Hl. by right.
Qed.

Lemma channel_entry_sum (v : Z * Z) (l : list ChannelPerf.row) :
  foldl (λ (v : Z * Z) item,
           (v.1 + ChannelPerf.clicks item, v.2 + ChannelPerf.impressions item)) v l
  = (v.1 + Z_sum (ChannelPerf.clicks <$> l), v.2 + Z_sum (ChannelPerf.impressions <$> l)).
Proof.
  revert v. induction l as [|r l IH]; intros [c i].
  - cbn. f_equal; lia.
  - simpl foldl. rewrite IH, !fmap_cons.
    change (Z_sum (?x :: ?y)) with (x + Z_sum y). cbn [fst snd]. f_equal; lia.
Qed.

Lemma channel_totals_entry rows n v :
  (n, v) ∈ Frontend.channel_totals rows →
  v = (Z_sum (ChannelPerf.clicks <$> filter (λ r, ChannelPerf.channel_name r = n) rows),
       Z_sum (ChannelPerf.impressions
                <$> filter (λ r, ChannelPerf.channel_name r = n) rows)).
Proof.
  change (Frontend.channel_totals rows)
    with (Frontend.tally ChannelPerf.channel_name (λ _, (0, 0))
            (λ item (v : Z * Z),
               (v.1 + ChannelPerf.clicks item, v.2 + ChannelPerf.impressions item)) rows).
  rewrite (elem_of_tally ChannelPerf.channel_name (λ _, (0, 0))
             (λ item (v : Z * Z),
                (v.1 + ChannelPerf.clicks item, v.2 + ChannelPerf.impressions item))).
  intros (r0 & rest & -> & ->). by rewrite channel_entry_sum.
Qed.

Lemma Z_sum_by_name {A} (name : A → string) (f : A → Z) (rows : list A)
    (ks : list string) :
  NoDup ks → (∀ n, n ∈ ks ↔ n ∈ name <$> rows) →
  Z_sum ((λ n, Z_sum (f <$> filter (λ r, name r = n) rows)) <$> ks) = Z_sum (f <$> rows).
Proof.
  intros Hnd Hks.
  rewrite <- (Z_sum_Permutation _ _
                (fmap_Permutation f _ _ (names_partition name rows ks Hnd Hks))).
  induction ks as [|k ks IH]; [done|].
  apply NoDup_cons in Hnd as [_ Hnd].
  rewrite !fmap_cons. cbn [concat]. rewrite fmap_app, Z_sum_app.
  change (Z_sum (?x :: ?y)) with (x + Z_sum y). f_equal.
  clear IH Hnd Hks. induction ks as [|k' ks IH]; [done|].
  rewrite !fmap_cons. cbn [concat]. rewrite fmap_app, Z_sum_app.
  change (Z_sum (?x :: ?y)) with (x + Z_sum y). by rewrite IH.
Qed.

(** The channel figure: a figure with rows has one point for every channel
    name, in the order in which the names first occur; the bar of a name holds
    the clicks of all rows of the name, whatever their dates and channel ids,
    and its rate is these clicks over the impressions of the same rows, in per
    cent, and 0 without impressions. The bars hold the clicks of all rows. *)
Theorem channel_figure_by_name (data : Frontend.document) (rows : list ChannelPerf.row) :
  Frontend.d_channel_performance data = Some rows → rows ≠ [] →
  ∃ fig,
    Frontend.update_channel_performance (Some data) = Some fig
    ∧ Frontend.cf_channel_names fig
      = reverse (remove_dups (reverse (ChannelPerf.channel_name <$> rows)))
    ∧ Frontend.cf_clicks fig
      = (λ n, Z_sum (ChannelPerf.clicks
                       <$> filter (λ r, ChannelPerf.channel_name r = n) rows))
          <$> Frontend.cf_channel_names fig
    ∧ Frontend.cf_ctrs fig
      = (λ n, let of_name := filter (λ r, ChannelPerf.channel_name r = n) rows in
              let clicks := Z_sum (ChannelPerf.clicks <$> of_name) in
              let impressions := Z_sum (ChannelPerf.impressions <$> of_name) in
              if decide (0 < impressions)
              then (Qc_of_Z clicks / Qc_of_Z impressions * Qc_of_Z 100)%Qc else 0%Qc)
          <$> Frontend.cf_channel_names fig
    ∧ Z_sum (Frontend.cf_clicks fig) = Z_sum (ChannelPerf.clicks <$> rows).
Proof.
  intros Hf Hne.
  destruct (document_with_field Frontend.d_channel_performance data rows eq_refl Hf)
    as (Hnot & Hget & _).
  unfold Frontend.update_channel_performance. rewrite Hget.
  rewrite decide_False by (intros [?|?]; done).
  eexists. split; [reflexivity|].
  cbn [Frontend.cf_channel_names Frontend.cf_clicks Frontend.cf_ctrs].
  pose proof (pairs_by_key _ _ (channel_totals_entry rows)) as Hp.
  assert ((Frontend.channel_totals rows).*1
          = reverse (remove_dups (reverse (ChannelPerf.channel_name <$> rows)))) as Hk
    by apply tally_keys_order.
  assert (∀ {B} (h : string * (Z * Z) → B),
            h <$> Frontend.channel_totals rows
            = (λ n, h (n, (Z_sum (ChannelPerf.clicks
                                    <$> filter (λ r, ChannelPerf.channel_name r = n) rows),
                           Z_sum (ChannelPerf.impressions
                                    <$> filter (λ r, ChannelPerf.channel_name r = n) rows))))
                <$> (Frontend.channel_totals rows).*1) as Hmap.
  { intros B h. rewrite Hp at 1. by rewrite <- list_fmap_compose. }
  split; [done|]. split; [apply (Hmap _ (λ c, c.2.1))|]. split.
  - apply (Hmap _ (λ c, if decide (0 < c.2.2)
                        then (Qc_of_Z c.2.1 / Qc_of_Z c.2.2 * Qc_of_Z 100)%Qc else 0%Qc)).
  - rewrite (Hmap _ (λ c, c.2.1)). cbn [fst snd].
    apply (Z_sum_by_name ChannelPerf.channel_name ChannelPerf.clicks).
    + apply (tally_NoDup ChannelPerf.channel_name).
    + apply (tally_keys ChannelPerf.channel_name).
Qed.

Lemma channel_figure_by_name_witness :
  ∃ fig,
    Frontend.update_channel_performance (Some Frontend.sample_document) = Some fig
    ∧ Frontend.cf_channel_names fig = ["Facebook Ads"%string]
    ∧ Z_sum (Frontend.cf_clicks fig) = 1.
Proof.
  destruct (channel_figure_by_name Frontend.sample_document
              (Frontend.get Frontend.d_channel_performance
                 (Some Frontend.sample_document)))
    as (fig & Hu & Hn & _ & _ & Hsum); [by_evaluation|by_evaluation|].
  exists fig. split; [exact Hu|]. split.
  - rewrite Hn. by_evaluation.
  - rewrite Hsum. by_evaluation.
Defined.

Lemma update_keys {V} k (g : V → V) (d : list (string * V)) :
  (Frontend.update k g d).*1 = d.*1.
Proof.
  induction d as [|[k' v] d IH]; [done|].
  cbn [Frontend.update]. case_decide; rewrite !fmap_cons; [done|]. by rewrite IH.
Qed.

Lemma update_each {V} k (g : V → V) (d : list (string * V)) :
  NoDup d.*1 →
  Frontend.update k g d
  = (λ ne : string * V, (ne.1, if decide (ne.1 = k) then g ne.2 else ne.2)) <$> d.
Proof.
  induction d as [|[k' v] d IH]; intros Hnd; [done|].
  rewrite fmap_cons in Hnd. apply NoDup_cons in Hnd as [Hk' Hnd].
  cbn [Frontend.update]. rewrite fmap_cons. cbn [fst snd].
  destruct (decide (k' = k)) as [->|Hne].
  - f_equal. clear IH Hnd. induction d as [|[k'' v'] d IH]; [done|].
    rewrite fmap_cons in Hk'. apply not_elem_of_cons in Hk' as [Hne Hk'].
    rewrite fmap_cons. cbn [fst snd]. rewrite decide_False by done. f_equal. by apply IH.
  - f_equal. by apply IH.
Qed.

Lemma add_cac_each (segments : list (string * Frontend.segment_entry))
    (segment_cac : list (SegmentCac.row (option Qc))) :
  NoDup segments.*1 →
  Frontend.add_cac segments segment_cac
  = (λ ne : string * Frontend.segment_entry,
       (ne.1, foldl (λ s item, Frontend.add_cost item s) ne.2
                (filter (λ item, SegmentCac.segment_name item = ne.1) segment_cac)))
      <$> segments.
Proof.
  unfold Frontend.add_cac. revert segments.
  induction segment_cac as [|c cacs IH]; intros segments Hnd.
  - simpl. rewrite <- (list_fmap_id segments) at 1. apply list_fmap_ext.
    by intros i [n e] _.
  - cbn [foldl]. rewrite IH by (by rewrite update_keys).
    rewrite update_each by done. rewrite <- list_fmap_compose.
    apply list_fmap_ext. intros i [n e] _. cbn [compose fst snd]. f_equal.
    rewrite filter_cons. destruct (decide (n = SegmentCac.segment_name c)) as [->|Hne].
    + by rewrite decide_True by done.
    + by rewrite decide_False by done.
Qed.

Lemma cac_fold (e : Frontend.segment_entry) (l : list (SegmentCac.row (option Qc)))
    (a : Qc) (k : Z) :
  Frontend.se_cac e = Some (a, k) →
  foldl (λ s item, Frontend.add_cost item s) e l
  = Frontend.mk_segment_entry (Frontend.se_conversions e) (Frontend.se_total_value e)
      (Frontend.se_segment_id e)
      (Some ((a + Qc_sum (omap SegmentCac.cac l))%Qc,
             k + Z.of_nat (length (omap SegmentCac.cac l)))).
Proof.
  revert e a k. induction l as [|c l IH]; intros [cv tv i o] a k He; simpl in He; subst o.
  - simpl. do 3 f_equal; [ring|lia].
  - cbn [foldl]. unfold Frontend.add_cost at 2.
    cbn [Frontend.se_cac default Frontend.se_conversions
      Frontend.se_total_value Frontend.se_segment_id].
    destruct (SegmentCac.cac c) as [x|] eqn:E.
    + rewrite (IH _ (a + x)%Qc (k + 1)) by done.
      cbn [Frontend.se_conversions Frontend.se_total_value Frontend.se_segment_id].
      rewrite omap_cons_case, E. rewrite Qc_sum_cons. cbn [length].
      do 3 f_equal; [ring|lia].
    + rewrite (IH _ a k) by done.
      cbn [Frontend.se_conversions Frontend.se_total_value Frontend.se_segment_id].
      by rewrite omap_cons_case, E.
Qed.

Lemma avg_cac_fold (e : Frontend.segment_entry) (l : list (SegmentCac.row (option Qc))) :
  Frontend.se_cac e = None →
  Frontend.avg_cac (foldl (λ s item, Frontend.add_cost item s) e l)
  = Frontend.average (omap SegmentCac.cac l)
  ∧ Frontend.se_conversions (foldl (λ s item, Frontend.add_cost item s) e l)
    = Frontend.se_conversions e.
Proof.
  intros He. destruct l as [|c l].
  - simpl. unfold Frontend.avg_cac. by rewrite He.
  - cbn [foldl]. unfold Frontend.add_cost at 2 4. rewrite He. cbn [default].
    rewrite (cac_fold _ l (default 0%Qc (SegmentCac.cac c))
               (match SegmentCac.cac c with Some _ => 1 | None => 0 end)).
    2:{ cbn [Frontend.se_cac]. destruct (SegmentCac.cac c); [|done].
        cbn [default]. unfold id. by rewrite Qcplus_0_l. }
    cbn [Frontend.se_conversions]. split; [|done].
    unfold Frontend.avg_cac. cbn [Frontend.se_cac]. unfold Frontend.average.
    destruct (SegmentCac.cac c) as [x|] eqn:E.
    + rewrite omap_cons_case, E. rewrite decide_True by lia.
      rewrite Qc_sum_cons. cbn [default length]. do 2 f_equal. lia.
    + rewrite omap_cons_case, E. cbn [default].
      destruct (omap SegmentCac.cac l) as [|y l'] eqn:E'.
      * by rewrite decide_False by (simpl; lia).
      * rewrite decide_True by (simpl; lia). unfold id.
        by rewrite Qcplus_0_l, Z.add_0_l.
Qed.

Lemma segment_entry_sum (e : Frontend.segment_entry) (l : list SegmentPerf.row) :
  foldl (λ s item,
           Frontend.mk_segment_entry
             (Frontend.se_conversions s + SegmentPerf.conversions item)
             (Frontend.se_total_value s + SegmentPerf.total_conversion_value item)%Qc
             (Frontend.se_segment_id s) (Frontend.se_cac s)) e l
  = Frontend.mk_segment_entry
      (Frontend.se_conversions e + Z_sum (SegmentPerf.conversions <$> l))
      (Frontend.se_total_value e + Qc_sum (SegmentPerf.total_conversion_value <$> l))%Qc
      (Frontend.se_segment_id e) (Frontend.se_cac e).
Proof.
  revert e. induction l as [|r l IH]; intros [c v i o].
  - cbn. f_equal; [lia|ring].
  - simpl foldl. rewrite IH. rewrite !fmap_cons, Qc_sum_cons.
    change (Z_sum (?x :: ?y)) with (x + Z_sum y).
    cbn [Frontend.se_conversions Frontend.se_total_value Frontend.se_segment_id
         Frontend.se_cac].
    f_equal; [lia|ring].
Qed.

Lemma segment_totals_entry rows n e :
  (n, e) ∈ Frontend.segment_totals rows →
  Frontend.se_conversions e
  = Z_sum (SegmentPerf.conversions <$> filter (λ r, SegmentPerf.segment_name r = n) rows)
  ∧ Frontend.se_cac e = None.
Proof.
  change (Frontend.segment_totals rows)
    with (Frontend.tally SegmentPerf.segment_name
            (λ item, Frontend.mk_segment_entry 0 0%Qc (SegmentPerf.segment_id item) None)
            (λ item s, Frontend.mk_segment_entry
                         (Frontend.se_conversions s + SegmentPerf.conversions item)
                         (Frontend.se_total_value s
                          + SegmentPerf.total_conversion_value item)%Qc
                         (Frontend.se_segment_id s) (Frontend.se_cac s))
            rows).
  rewrite (elem_of_tally SegmentPerf.segment_name
             (λ item, Frontend.mk_segment_entry 0 0%Qc (SegmentPerf.segment_id item) None)
             (λ item s, Frontend.mk_segment_entry
                          (Frontend.se_conversions s + SegmentPerf.conversions item)
                          (Frontend.se_total_value s
                           + SegmentPerf.total_conversion_value item)%Qc
                          (Frontend.se_segment_id s) (Frontend.se_cac s))).
  intros (r0 & rest & -> & ->).
  rewrite (segment_entry_sum _ (r0 :: rest)). done.
Qed.

(** The segment figure: with rows of both kinds, the figure has one point
    for every segment name of the performance rows, in the order in which the
    names first occur; the bar of a name holds the conversions of all
    performance rows of the name, and its cost is the plain average of the
    costs that are present in the cost rows of the name, 0 when there is none.
    The cost rows of other names are not shown. *)
Theorem segment_figure_by_name (data : Frontend.document)
    (rows : list SegmentPerf.row) (costs : list (SegmentCac.row (option Qc))) :
  Frontend.d_segment_performance data = Some rows → rows ≠ [] →
  Frontend.d_segment_cac data = Some costs → costs ≠ [] →
  ∃ fig,
    Frontend.update_segment_performance (Some data) = Some fig
    ∧ Frontend.sf_segment_names fig
      = reverse (remove_dups (reverse (SegmentPerf.segment_name <$> rows)))
    ∧ Frontend.sf_conversions fig
      = (λ n, Z_sum (SegmentPerf.conversions
                       <$> filter (λ r, SegmentPerf.segment_name r = n) rows))
          <$> Frontend.sf_segment_names fig
    ∧ Frontend.sf_avg_cacs fig
      = (λ n, Frontend.average
                (omap SegmentCac.cac
                   (filter (λ c, SegmentCac.segment_name c = n) costs)))
          <$> Frontend.sf_segment_names fig.
Proof.
  intros Hf Hne Hc Hce.
  destruct (document_with_field Frontend.d_segment_performance data rows eq_refl Hf)
    as (Hnot & Hget & _).
  destruct (document_with_field Frontend.d_segment_cac data costs eq_refl Hc)
    as (_ & Hgetc & _).
  unfold Frontend.update_segment_performance. rewrite Hget, Hgetc.
  rewrite decide_False by (intros [?|[?|?]]; done).
  eexists. split; [reflexivity|].
  cbn [Frontend.sf_segment_names Frontend.sf_conversions Frontend.sf_avg_cacs].
  assert (NoDup (Frontend.segment_totals rows).*1) as Hnd
    by apply (tally_NoDup SegmentPerf.segment_name).
  rewrite (add_cac_each (Frontend.segment_totals rows) costs Hnd).
  rewrite <- !list_fmap_compose.
  assert ((Frontend.segment_totals rows).*1
          = reverse (remove_dups (reverse (SegmentPerf.segment_name <$> rows)))) as Hk
    by apply tally_keys_order.
  split; [|split].
  - rewrite <- Hk. apply list_fmap_ext. by intros i [n e] _.
  - apply list_fmap_ext. intros i [n e] Hin%list_elem_of_lookup_2.
    destruct (segment_totals_entry rows n e Hin) as [Hconv Hnone].
    cbn [compose fst snd]. by rewrite (proj2 (avg_cac_fold e _ Hnone)).
  - apply list_fmap_ext. intros i [n e] Hin%list_elem_of_lookup_2.
    destruct (segment_totals_entry rows n e Hin) as [Hconv Hnone].
    cbn [compose fst snd]. by rewrite (proj1 (avg_cac_fold e _ Hnone)).
Qed.

Lemma segment_figure_by_name_witness :
  ∃ fig,
    Frontend.update_segment_performance (Some Frontend.sample_document) = Some fig
    ∧ Frontend.sf_segment_names fig = ["New Visitors"%string]
    ∧ Frontend.sf_conversions fig = [2]
    ∧ Frontend.sf_avg_cacs fig = [Qc_of_Z 20].
Proof.
  destruct (segment_figure_by_name Frontend.sample_document
              (Frontend.get Frontend.d_segment_performance
                 (Some Frontend.sample_document))
              (Frontend.get Frontend.d_segment_cac (Some Frontend.sample_document)))
    as (fig & Hu & Hn & Hcv & Hcac);
    [by_evaluation|by_evaluation|by_evaluation|by_evaluation|].
  exists fig. split; [exact Hu|].
  rewrite Hcv, Hcac, Hn. clear. by_evaluation.
Defined.

(** * The cards of the dashboard *)

Lemma round_half_even_whole (n : Z) : MockServer.round_half_even (Qc_of_Z n) = n.
Proof.
  unfold MockServer.round_half_even.
  assert (Qfloor (Qc_of_Z n) = n) as ->.
  { rewrite (Qfloor_comp _ _ (Qc_of_Z_this n)). apply Qfloor_Z. }
  rewrite decide_True; [done|]. qc_to_q. lra.
Qed.

Lemma round2_hundredfold (x : Qc) :
  (MockServer.round2 x * Qc_of_Z 100)%Qc
  = Qc_of_Z (MockServer.round_half_even (x * Qc_of_Z 100)).
Proof.
  unfold MockServer.round2. generalize (MockServer.round_half_even (x * Qc_of_Z 100)).
  intros r. apply Qc_is_canon. qc_to_q. change (inject_Z 100) with 100%Q. field.
Qed.

(** A value that was rounded to two decimals is printed with two decimals
    as the value itself is. *)
Lemma format_f_round2 (x : Qc) :
  (0 ≤ x)%Qc → Frontend.format_f 2 (MockServer.round2 x) = Frontend.format_f 2 x.
Proof.
  intros Hx. unfold Frontend.format_f. change (10 ^ Z.of_nat 2) with 100.
  rewrite round2_hundredfold, round_half_even_whole.
  rewrite (decide_False (P := (x < 0)%Qc)) by (by apply Qcle_not_lt).
  rewrite (decide_False (P := (MockServer.round2 x < 0)%Qc)); [done|].
  apply Qcle_not_lt. change 0%Qc with (Qc_of_Z 0).
  rewrite <- (round2_whole 0). by apply round2_mono.
Qed.

Lemma omap_encode_cac (l : list (SegmentCac.row Qc)) :
  omap SegmentCac.cac (Frontend.encode_cac <$> l) = SegmentCac.cac <$> l.
Proof. induction l as [|r l IH]; [done|]. rewrite fmap_cons, omap_cons_case. simpl. by rewrite IH. Qed.

Lemma omap_encode_roas (l : list (ChannelRoas.row Qc)) :
  omap ChannelRoas.roas (Frontend.encode_roas <$> l) = ChannelRoas.roas <$> l.
Proof. induction l as [|r l IH]; [done|]. rewrite fmap_cons, omap_cons_case. simpl. by rewrite IH. Qed.

(** The cards fail on a missing key in two cases only: when there are cost
    rows and return rows, and either the document has no field
    segment_performance, or it has channel rows and no field
    campaign_performance. In every other case the four texts are returned. *)
Theorem kpi_cards_key_error (data : Frontend.document) :
  Frontend.update_kpi_metrics (Some data) = None
  ↔ Frontend.get Frontend.d_segment_cac (Some data) ≠ []
    ∧ Frontend.get Frontend.d_channel_roas (Some data) ≠ []
    ∧ (Frontend.d_segment_performance data = None
       ∨ (Frontend.get Frontend.d_channel_performance (Some data) ≠ []
          ∧ Frontend.d_campaign_performance data = None)).
Proof.
  unfold Frontend.update_kpi_metrics.
  destruct data as [camp chan seg cac roas kpi].
  unfold Frontend.get, Frontend.item, Frontend.not_, Frontend.no_fields.
  cbn [mbind option_bind Frontend.d_campaign_performance Frontend.d_channel_performance
       Frontend.d_segment_performance Frontend.d_segment_cac Frontend.d_channel_roas].
  case_decide as Hd.
  - split; [done|]. intros (Hc & Hr & _). exfalso.
    destruct Hd as [[?|Hd]|[?|?]]; try done.
    injection Hd as -> -> -> -> -> ->. by apply Hc.
  - assert (default [] cac ≠ [] ∧ default [] roas ≠ []) as [Hc Hr].
    { split; intros ?; apply Hd; tauto. }
    destruct cac as [cac|]; [|done]. destruct roas as [roas|]; [|done].
    cbn [default] in *. clear Hd.
    destruct seg as [seg|]; cbn [mbind option_bind].
    + destruct chan as [[|c chan]|]; cbn [default]; [| |].
      * split; [done|]. intros (_ & _ & [?|[? _]]); done.
      * destruct camp as [camp|]; cbn [mbind option_bind].
        -- split; [done|]. intros (_ & _ & [?|[_ ?]]); done.
        -- split; [|done]. intros _. split; [done|]. split; [done|]. by right.
      * split; [done|]. intros (_ & _ & [?|[? _]]); done.
    + split; [|done]. intros _. split; [done|]. split; [done|]. by left.
Qed.

Lemma mock_response (today : Z) (samples : list Qc) (sv : stored_views Qc)
    (start_date end_date channel_id segment_id : option Z) :
  ∃ camp chan seg cac roas k,
    Frontend.json Frontend.encode_cac Frontend.encode_roas
      (MockServer.get_metrics today samples sv start_date end_date channel_id segment_id).1
    = Frontend.mk_document (Some camp) (Some chan) (Some seg)
        (Some (Frontend.encode_cac <$> cac)) (Some (Frontend.encode_roas <$> roas)) (Some k)
    ∧ MockServer.cac_rows
        (MockServer.get_metrics today samples sv start_date end_date channel_id
           segment_id).1 = cac
    ∧ MockServer.roas_rows
        (MockServer.get_metrics today samples sv start_date end_date channel_id
           segment_id).1 = roas
    ∧ Kpi.cac k
      = match cac with
        | [] => 0%Qc
        | _ => MockServer.round2
                 (Qc_sum (SegmentCac.cac <$> cac) / Qc_of_Z (Z.of_nat (length cac)))
        end.
Proof.
  unfold MockServer.get_metrics.
  set (s := default (today - 30) start_date). set (e := default today end_date).
  set (camp := where_ (λ r, (CampaignPerf.date r, CampaignPerf.channel_id r)) s e channel_id
                 (sv_campaign_performance sv)).
  set (chan := where_ ChannelPerf.key s e channel_id (sv_channel_performance sv)).
  set (seg := where_ SegmentPerf.key s e segment_id (sv_segment_performance sv)).
  set (cac := where_ SegmentCac.key s e segment_id (sv_segment_cac sv)).
  set (roas := where_ ChannelRoas.key s e channel_id (sv_channel_roas sv)).
  set (metrics := <["channel_roas"%string := RoasRows roas]> _).
  assert (MockServer.cac_rows metrics = cac) as Hcac.
  { unfold MockServer.cac_rows, metrics.
    by rewrite lookup_insert_ne, lookup_insert_eq by done. }
  assert (Kpi.cac (MockServer.generate_kpi_summary samples metrics).1
          = match cac with
            | [] => 0%Qc
            | _ => MockServer.round2
                     (Qc_sum (SegmentCac.cac <$> cac) / Qc_of_Z (Z.of_nat (length cac)))
            end) as Hk.
  { unfold MockServer.generate_kpi_summary. rewrite Hcac.
    destruct cac as [|c0 cs];
      destruct (MockServer.campaign_rows metrics) as [|p0 ps];
      destruct (MockServer.roas_rows metrics) as [|r0 rs];
      destruct (MockServer.channel_rows metrics) as [|h0 hs];
      simpl fmap; cbv beta iota;
      repeat (first [destruct (MockServer.uniform _ _ _) as [? ?] | case_decide]);
      simpl; try done; unfold MockServer.len; cbn [length];
      by rewrite (length_fmap SegmentCac.cac cs : length (list_fmap _ _ _ cs) = _). }
  destruct (MockServer.generate_kpi_summary samples metrics) as [k samples'].
  cbn [fst] in *.
  exists camp, chan, seg, cac, roas, k.
  split; [|split; [|split; [|exact Hk]]].
  - unfold Frontend.json, metrics.
    rewrite !(lookup_insert_ne _ "kpi_summary"%string) by done.
    rewrite lookup_insert_eq.
    repeat first [rewrite lookup_insert_eq | rewrite lookup_insert_ne by done].
    done.
  - unfold MockServer.cac_rows. rewrite lookup_insert_ne by done. exact Hcac.
  - unfold MockServer.roas_rows, metrics.
    by rewrite lookup_insert_ne, lookup_insert_eq by done.
Qed.

Lemma summary_cac_format (cac : list (SegmentCac.row Qc)) :
  cac ≠ [] → (0 ≤ Qc_sum (SegmentCac.cac <$> cac))%Qc →
  Frontend.format_f 2 (Frontend.average (SegmentCac.cac <$> cac))
  = Frontend.format_f 2
      match cac with
      | [] => 0%Qc
      | _ => MockServer.round2
               (Qc_sum (SegmentCac.cac <$> cac) / Qc_of_Z (Z.of_nat (length cac)))
      end.
Proof.
  intros Hne Hsum. destruct cac as [|c0 cs]; [done|].
  unfold Frontend.average. rewrite fmap_cons at 1.
  rewrite length_fmap. symmetry. apply format_f_round2.
  revert Hsum. generalize (Qc_sum (SegmentCac.cac <$> c0 :: cs)). intros q Hq.
  assert (0 < Z.of_nat (length (c0 :: cs))) as Hlen by (simpl; lia).
  revert Hlen. generalize (Z.of_nat (length (c0 :: cs))). intros n Hn.
  destruct q as [q Hcanon]. qc_to_q.
  apply Qle_shift_div_l.
  - change 0%Q with (inject_Z 0). by rewrite <- Zlt_Qlt.
  - by rewrite Qmult_0_l.
Qed.

(** The card of the acquisition cost and the summary of the mock server:
    on a response of the mock server the four texts are always returned, and
    when the response has return rows and the costs do not add up to less
    than 0, the text of the card is the cac of the summary of the response,
    printed with two decimals after a dollar sign. *)
Theorem cac_card_is_the_summary (today : Z) (samples : list Qc) (sv : stored_views Qc)
    (start_date end_date channel_id segment_id : option Z) :
  let response :=
    (MockServer.get_metrics today samples sv start_date end_date channel_id segment_id).1 in
  let data := Frontend.json Frontend.encode_cac Frontend.encode_roas response in
  ∃ k cards,
    Frontend.d_kpi_summary data = Some k
    ∧ Frontend.update_kpi_metrics (Some data) = Some cards
    ∧ (MockServer.roas_rows response ≠ [] →
       (0 ≤ Qc_sum (SegmentCac.cac <$> MockServer.cac_rows response))%Qc →
       cards.1.1.1 = ("$" +:+ Frontend.format_f 2 (Kpi.cac k))%string).
Proof.
  intros response data. subst response data.
  destruct (mock_response today samples sv start_date end_date channel_id segment_id)
    as (camp & chan & seg & cac & roas & k & -> & -> & -> & Hk).
  exists k. cbn [Frontend.d_kpi_summary].
  unfold Frontend.update_kpi_metrics, Frontend.get, Frontend.item, Frontend.not_,
    Frontend.no_fields.
  cbn [mbind option_bind default Frontend.d_campaign_performance
       Frontend.d_channel_performance Frontend.d_segment_performance
       Frontend.d_segment_cac Frontend.d_channel_roas].
  rewrite omap_encode_cac, omap_encode_roas.
  case_decide as Hd.
  - eexists. split; [done|]. split; [reflexivity|]. intros Hr Hsum. cbn [fst].
    destruct Hd as [[?|?]|[Hc|Hr']]; try done.
    + apply fmap_nil_inv in Hc. subst cac. rewrite Hk. reflexivity.
    + by apply fmap_nil_inv in Hr'.
  - assert (cac ≠ []) as Hne by (intros ->; apply Hd; right; by left).
    destruct chan as [|h0 chan]; cbn [mbind option_bind];
      (eexists; split; [done|]; split; [reflexivity|]; intros _ Hsum; cbn [fst]);
      f_equal; rewrite Hk; by apply summary_cac_format.
Qed.

Lemma cac_card_is_the_summary_witness :
  ∃ cards,
    Frontend.update_kpi_metrics (Some Frontend.sample_document) = Some cards
    ∧ cards.1.1.1 = "$20.00"%string.
Proof.
  destruct (cac_card_is_the_summary 1 []
              (MockServer.stored (Views.create_materialized_views
                                    Frontend.sample_database).1)
              (Some 0) (Some 1) None None)
    as (k & cards & Hk & Hu & Hcard).
  exists cards. split; [exact Hu|].
  rewrite Hcard; [|by_evaluation|by_evaluation].
  assert (k = Kpi.mk (Qc_of_Z 20) (Qc_of_Z 180) (Q2Qc (7 # 2)) (Qc_of_Z 200)
                (Qc_of_Z (-15)) (Qc_of_Z (-10)) (Qc_of_Z (-20)) (Qc_of_Z (-5))) as ->.
  { apply (inj Some). rewrite <- Hk. by_evaluation. }
  by_evaluation.
Defined.
